(** * Object inspection of inventree-part-templates

    A shallow embedding of [templatetags/inspect.py]: the [InspectBase]
    class hierarchy, the [InspectionManager] that builds the tree of
    inspection nodes, and the projection of the tree to the template
    context.  The properties of the specification are stated and settled
    on this embedding in the second half of the file.  Two further parts
    embed the template lookup, the web API and the report context of
    [part_templates_plugin.py] (module [Plugin]) and the text filters of
    [templatetags/part_templates.py] (module [Tags]); their properties
    follow those of the inspection. *)

From Stdlib Require Import ZArith Ascii DecimalString Lia.
From stdpp Require Import base option list gmap strings.

Open Scope Z_scope.

(** ** Python strings

    Text is modelled by [string] (one [ascii] per character), so [len] is
    [String.length] and [str.lower] is the ASCII case map. *)

Module PyStr.

(** [c.lower()] on one character. *)
Definition lower_char (c : ascii) : ascii :=
  let n := Ascii.N_of_ascii c in
  if ((65 <=? n) && (n <=? 90))%N then Ascii.ascii_of_N (n + 32) else c.

(** [s.lower()] *)
Fixpoint lower (s : string) : string :=
  match s with
  | EmptyString => EmptyString
  | String c s' => String (lower_char c) (lower s')
  end.

(** [s.startswith(pre)] *)
Definition startswith (s pre : string) : bool := String.prefix pre s.

(** [sub in s] on strings: [sub] occurs somewhere in [s]. *)
Fixpoint contains (sub s : string) : bool :=
  if String.prefix sub s then true
  else match s with
       | EmptyString => false
       | String _ s' => contains sub s'
       end.

(** [s * n] *)
Fixpoint mul (s : string) (n : nat) : string :=
  match n with
  | O => EmptyString
  | S n' => s +:+ mul s n'
  end.

(** [sep.join(l)] *)
Definition join (sep : string) (l : list string) : string := String.concat sep l.

(** The one-character string made of a double quote. *)
Definition dquote : string := String "034"%char EmptyString.

(** [str(z)] for an [int] *)
Definition of_Z (z : Z) : string := NilZero.string_of_int (Z.to_int z).

(** [str(n)] for an index produced by [enumerate] *)
Definition of_nat (n : nat) : string := of_Z (Z.of_nat n).

End PyStr.

(** ** The inspected object graph

    A reference is either the singleton [None] or the address of an object
    of the heap.  Objects hold references, not values, so the graph may be
    cyclic and two fields may alias the same object.

    The graphs of the model are those on which the calls that the
    constructors make into Python return: [str(obj)] of a whitelisted value,
    [inspect.signature] of a method and of the function of a partial, and
    [obj.func.__name__]; the keys of a [dict] are [str], as the type of
    [name] in [_add_child] asks.  On other graphs the source raises where
    the model has no exception, and the statements below say nothing. *)

Inductive pyvalue : Type :=
| VNone
| VRef (a : positive).

(** [id(obj)].  CPython's [id] is the address of the object; [None] is one
    object that lives for the whole run, so its [id] differs from the [id]
    of every other live object.  The model takes 0 for it and the (positive)
    address for the others. *)
Definition py_id (obj : pyvalue) : Z :=
  match obj with
  | VNone => 0
  | VRef a => Z.pos a
  end.

(** The types of [WHITELIST_USE_SIMPLE_TYPE] other than [str], [int] and
    [bool]; their instances carry the text that [str()] gives for them. *)
Inductive scalar_type : Type :=
| Tfloat | TDecimal | TMoney | Tcomplex | TPattern | TMatch | Tdate.

Inductive scalar : Type :=
| SStr (s : string)
| SInt (z : Z)
| SBool (b : bool)
| SOther (ty : scalar_type) (text : string).

(** What reading an attribute of an object does: [getattr] finds a value, or
    the attribute's getter raises [AttributeError], or it raises something
    else. *)
Inductive getter : Type :=
| Gives (v : pyvalue)
| RaisesAttributeError (msg : string)
| RaisesOther (msg : string).

(** Objects that are none of the cases [inspect_factory] tells apart. *)
Inductive other_kind : Type :=
| KInstance   (* an instance of a user class, a function, a tuple, ... *)
| KBuiltin    (* [inspect.isbuiltin] holds *)
| KType.      (* a class object: [isinstance(obj, type)] holds *)

Inductive pyobj : Type :=
| OScalar (s : scalar)
  (* a bound method, with the parameter names of [inspect.signature(obj)] *)
| OMethod (params : list string)
  (* [functools.partial]: [obj.func.__name__], the parameter names of
     [inspect.signature(obj.func)], [obj.args] and [obj.keywords] *)
| OPartial (func_name : string) (func_params : list string)
           (args : list pyvalue) (keywords : gmap string pyvalue)
  (* [dict], in insertion order; keys are [str], as [_add_child] asks *)
| ODict (items : list (string * pyvalue))
| OList (items : list pyvalue)
  (* a Django [QuerySet], by the rows it would fetch *)
| OQuerySet (rows : list pyvalue)
  (* anything else: the name of its class, whether it carries a true
     [do_not_call_in_templates], and the names [dir(obj)] lists, each with
     what reading it does *)
| OOther (k : other_kind) (cls : string) (do_not_call_in_templates : bool)
         (attrs : list (string * getter)).

(** Every reference of a running program resolves, so the heap is total. *)
Definition heap : Type := positive -> pyobj.

(** [str(obj)] for [None] and the whitelisted types. *)
Definition py_str (s : scalar) : string :=
  match s with
  | SStr s => s
  | SInt z => PyStr.of_Z z
  | SBool true => "True"
  | SBool false => "False"
  | SOther _ text => text
  end.

Definition scalar_type_name (ty : scalar_type) : string :=
  match ty with
  | Tfloat => "float" | TDecimal => "Decimal" | TMoney => "Money"
  | Tcomplex => "complex" | TPattern => "Pattern" | TMatch => "Match"
  | Tdate => "date"
  end.

(** [type(obj).__name__] *)
Definition type_name (h : heap) (obj : pyvalue) : string :=
  match obj with
  | VNone => "NoneType"
  | VRef a =>
      match h a with
      | OScalar (SStr _) => "str"
      | OScalar (SInt _) => "int"
      | OScalar (SBool _) => "bool"
      | OScalar (SOther ty _) => scalar_type_name ty
      | OMethod _ => "method"
      | OPartial _ _ _ _ => "partial"
      | ODict _ => "dict"
      | OList _ => "list"
      | OQuerySet _ => "QuerySet"
      | OOther KInstance cls _ _ => cls
      | OOther KBuiltin _ _ _ => "builtin_function_or_method"
      | OOther KType _ _ _ => "type"
      end
  end.

(** [isinstance(obj, InspectionManager.WHITELIST_USE_SIMPLE_TYPE)]; [None] is
    not an instance of any of the listed types. *)
Definition isinstance_WHITELIST (h : heap) (obj : pyvalue) : option scalar :=
  match obj with
  | VNone => None
  | VRef a => match h a with OScalar s => Some s | _ => None end
  end.

(** [isinstance(obj, WHITELIST_USE_SIMPLE_TYPE) or obj is None] *)
Definition is_simple (h : heap) (obj : pyvalue) : bool :=
  match isinstance_WHITELIST h obj, obj with
  | Some _, _ => true
  | None, VNone => true
  | None, VRef _ => false
  end.

(** [inspect.isbuiltin(v) or isinstance(v, type)] *)
Definition is_builtin_or_type (h : heap) (v : pyvalue) : bool :=
  match v with
  | VNone => false
  | VRef a =>
      match h a with
      | OOther KBuiltin _ _ _ | OOther KType _ _ _ => true
      | _ => false
      end
  end.

(** [getattr(v, 'do_not_call_in_templates', False)] *)
Definition do_not_call (h : heap) (v : pyvalue) : bool :=
  match v with
  | VNone => false
  | VRef a => match h a with OOther _ _ flag _ => flag | _ => false end
  end.

(** [gettext_lazy]: the message itself, no translation catalogue loaded. *)
Definition gettext (msg : string) : string := msg.

(** ** Inspection nodes

    An instance of a subclass of [InspectBase]: the fields that
    [InspectBase.__init__] sets, and the subclass with the fields of its
    own. *)

Inductive inspect_class : Type :=
| IsSimpleType (_value : scalar)
| IsMethod (_parameters : list string)
  (* a parameter's ['value'] is a [str] or [None] *)
| IsPartial (_parameters : list (string * option string)) (_parent_name : string)
| IsDuplicate
| IsDict (_total_items : Z)
| IsList (_total_items : Z)
| IsQuerySet (_total_items : Z)
| IsClass.

#[local] Set Warnings "-register-all".
Inductive InspectBase : Type :=
  Inspect { _children : list InspectBase;
            _depth : Z;
            _name : string;
            _obj : pyvalue;
            _class : inspect_class }.

(** [inspection.__class__.__name__] *)
Definition class_name (c : inspect_class) : string :=
  match c with
  | IsSimpleType _ => "InspectSimpleType"
  | IsMethod _ => "InspectMethod"
  | IsPartial _ _ => "InspectPartial"
  | IsDuplicate => "InspectDuplicate"
  | IsDict _ => "InspectDict"
  | IsList _ => "InspectList"
  | IsQuerySet _ => "InspectQuerySet"
  | IsClass => "InspectClass"
  end.

(** ** Exceptions and the manager's state

    A call either returns, raises, or (in the model only) runs out of the
    fuel that bounds the nesting of [inspect_factory] calls.  The state
    threaded through the calls is [InspectionManager._processed]. *)

Inductive exn : Type :=
| DepthExceeded                   (* the [ValueError] of [inspect_factory] *)
| AttributeRaised (msg : string)  (* raised by an attribute's getter *)
| NegativeIndexing.               (* Django refuses a negative slice bound *)

Inductive outcome (A : Type) : Type :=
| Done (a : A)
| Raise (e : exn)
| OutOfFuel.
Arguments Done {A} a.
Arguments Raise {A} e.
Arguments OutOfFuel {A}.

Definition M (A : Type) : Type := gmap Z bool -> outcome (A * gmap Z bool).

Definition ret {A} (a : A) : M A := fun processed => Done (a, processed).

Definition raise {A} (e : exn) : M A := fun _ => Raise e.

Definition bind {A B} (c : M A) (k : A -> M B) : M B :=
  fun processed =>
    match c processed with
    | Done (a, processed') => k a processed'
    | Raise e => Raise e
    | OutOfFuel => OutOfFuel
    end.

Notation "'do' x <- c ; k" := (bind c (fun x => k))
  (at level 10, x name, c at level 100, k at level 200).

(** ** Formatting methods of the nodes *)

(** [InspectSimpleType.get_format_value], [InspectMethod.get_format_value],
    [InspectPartial.get_format_value], [InspectDuplicate.get_format_value]
    and the containers' (the empty string). *)
Definition get_format_value (self : InspectBase) : string :=
  match _class self with
  | IsSimpleType (SStr _value) =>
      if PyStr.contains "password" (PyStr.lower (_name self))
      then PyStr.dquote +:+ PyStr.mul "*" (String.length _value) +:+ PyStr.dquote
      else PyStr.dquote +:+ _value +:+ PyStr.dquote
  | IsSimpleType _value => py_str _value
  | IsMethod _parameters => PyStr.join ", " _parameters
  | IsPartial _parameters _ =>
      PyStr.join ", "
        (map (fun param : string * option string =>
                match param.2 with
                | None => param.1
                | Some value => param.1 +:+ "=" +:+ value
                end) _parameters)
  | IsDuplicate => gettext "(duplicated)"
  | IsDict _ | IsList _ | IsQuerySet _ | IsClass => ""
  end.

Definition get_format_prefix (self : InspectBase) : string :=
  match _class self with
  | IsSimpleType _ => "="
  | IsMethod _ | IsPartial _ _ => "("
  | IsDuplicate => ""
  | IsDict _ | IsClass => "{"
  | IsList _ | IsQuerySet _ => "["
  end.

Definition get_format_postfix (self : InspectBase) : string :=
  match _class self with
  | IsSimpleType _ | IsDuplicate => ""
  | IsMethod _ | IsPartial _ _ => ")"
  | IsDict _ | IsClass => "}"
  | IsList _ | IsQuerySet _ => "]"
  end.

Definition get_total_children (self : InspectBase) : option Z :=
  match _class self with
  | IsDict _total_items | IsList _total_items | IsQuerySet _total_items =>
      Some _total_items
  | IsClass => Some (Z.of_nat (length (_children self)))
  | IsSimpleType _ | IsMethod _ | IsPartial _ _ | IsDuplicate => None
  end.

(** [InspectBase.get_children] *)
Definition get_children (self : InspectBase) : option (list InspectBase) :=
  match get_total_children self with
  | Some _ => Some (_children self)
  | None => None
  end.

Definition get_format_title (self : InspectBase) : string :=
  match _class self with
  | IsPartial _ _parent_name => _name self +:+ "(...) -> " +:+ _parent_name
  | _ => _name self
  end.

Definition get_format_type (h : heap) (self : InspectBase) : string :=
  type_name h (_obj self).

Definition get_format_id (self : InspectBase) : Z := py_id (_obj self).

Definition get_format_link_to (self : InspectBase) : option Z :=
  match _class self with
  | IsDuplicate => Some (py_id (_obj self))
  | _ => None
  end.

(** ** The constructors of the node classes

    [factory] stands for [self._manager.inspect_factory]; the classes are
    defined before the manager, as in the source, and the manager ties the
    knot. *)

Section Constructors.

Context (h : heap) (max_items : Z).
Variable factory : string -> pyvalue -> Z -> M InspectBase.

(** [InspectionManager.been_seen_before] *)
Definition been_seen_before (obj : pyvalue) : M bool :=
  fun processed =>
    if is_simple h obj then Done (false, processed)
    else
      let obj_id := py_id obj in
      match processed !! obj_id with
      | Some _ => Done (true, processed)
      | None => Done (false, <[obj_id := true]> processed)
      end.

(** [InspectDuplicate(manager, name, obj, depth)]; the class has no
    [__init__] of its own. *)
Definition InspectDuplicate (name : string) (obj : pyvalue) (depth : Z) : InspectBase :=
  Inspect [] depth name obj IsDuplicate.

(** [InspectBase._add_child], on the [_children] and [_depth] of [self];
    returns the new [_children]. *)
Definition _add_child (children : list InspectBase) (depth : Z)
    (name : string) (value : pyvalue) : M (list InspectBase) :=
  do seen <- been_seen_before value;
  if seen : bool
  then ret (children ++ [InspectDuplicate name VNone depth])
  else do child <- factory name value depth; ret (children ++ [child]).

(** [InspectSimpleType(manager, name, obj, depth)]; [text] is [str(obj)]. *)
Definition InspectSimpleType (name : string) (obj : pyvalue) (depth : Z)
    (text : string) : InspectBase :=
  Inspect [] depth name obj (IsSimpleType (SStr text)).

(** [InspectMethod(manager, name, obj, depth)] *)
Definition InspectMethod (name : string) (obj : pyvalue) (depth : Z)
    (params : list string) : InspectBase :=
  Inspect [] depth name obj (IsMethod params).

(** The loop of [InspectPartial.__init__] over
    [enumerate(sig.parameters.values())], from index [i] on. *)
Fixpoint partial_parameters (bound_args : list pyvalue)
    (bound_kwargs : gmap string pyvalue) (i : nat) (params : list string)
    : list (string * option string) :=
  match params with
  | [] => []
  | param_name :: rest =>
      let value :=
        match bound_args !! i with
        | Some v => v
        | None =>
            match bound_kwargs !! param_name with
            | Some v => v
            | None => VNone
            end
        end in
      let value :=
        match isinstance_WHITELIST h value with
        | Some s => py_str s
        | None => gettext "(complex)"
        end in
      (param_name, Some value) :: partial_parameters bound_args bound_kwargs (S i) rest
  end.

Definition InspectPartial (name : string) (obj : pyvalue) (depth : Z)
    (func_name : string) (func_params : list string)
    (bound_args : list pyvalue) (bound_kwargs : gmap string pyvalue) : InspectBase :=
  Inspect [] depth name obj
    (IsPartial (partial_parameters bound_args bound_kwargs 0 func_params) func_name).

(** The loop of [InspectDict.__init__] over [obj.items()]. *)
Fixpoint InspectDict_loop (depth : Z) (items : list (string * pyvalue))
    (children : list InspectBase) : M (list InspectBase) :=
  match items with
  | [] => ret children
  | (key, value) :: rest =>
      do children <- (if 0 <? depth then _add_child children depth key value
                      else ret children);
      if max_items <=? Z.of_nat (length children) then ret children
      else InspectDict_loop depth rest children
  end.

Definition InspectDict (name : string) (obj : pyvalue) (depth : Z)
    (items : list (string * pyvalue)) : M InspectBase :=
  do children <- InspectDict_loop depth items [];
  ret (Inspect children depth name obj (IsDict (Z.of_nat (length items)))).

(** The loop of [InspectList.__init__] over [enumerate(obj)], from [index]
    on. *)
Fixpoint InspectList_loop (depth : Z) (index : nat) (items : list pyvalue)
    (children : list InspectBase) : M (list InspectBase) :=
  match items with
  | [] => ret children
  | item :: rest =>
      do children <- (if 0 <? depth
                      then _add_child children depth (PyStr.of_nat index) item
                      else ret children);
      if max_items <=? Z.of_nat index then ret children
      else InspectList_loop depth (S index) rest children
  end.

Definition InspectList (name : string) (obj : pyvalue) (depth : Z)
    (items : list pyvalue) : M InspectBase :=
  do children <- InspectList_loop depth 0 items [];
  ret (Inspect children depth name obj (IsList (Z.of_nat (length items)))).

(** [obj.all()[:max_items]] *)
Definition queryset_slice (rows : list pyvalue) : M (list pyvalue) :=
  if max_items <? 0 then raise NegativeIndexing
  else ret (take (Z.to_nat max_items) rows).

(** The loop of [InspectQuerySet.__init__] over [enumerate(query_items)]. *)
Fixpoint InspectQuerySet_loop (depth : Z) (index : nat) (query_items : list pyvalue)
    (children : list InspectBase) : M (list InspectBase) :=
  match query_items with
  | [] => ret children
  | tree_item :: rest =>
      do children <- _add_child children depth (PyStr.of_nat index) tree_item;
      InspectQuerySet_loop depth (S index) rest children
  end.

Definition InspectQuerySet (name : string) (obj : pyvalue) (depth : Z)
    (rows : list pyvalue) : M InspectBase :=
  let _total_items := Z.of_nat (length rows) in
  do children <- (if (0 <? _total_items) && (0 <? depth)
                  then do query_items <- queryset_slice rows;
                       InspectQuerySet_loop depth 0 query_items []
                  else ret []);
  ret (Inspect children depth name obj (IsQuerySet _total_items)).

(** [getattr(obj, attr_name, None)]: the default replaces an
    [AttributeError] only. *)
Definition getattr_or_None (g : getter) : M pyvalue :=
  match g with
  | Gives v => ret v
  | RaisesAttributeError _ => ret VNone
  | RaisesOther msg => raise (AttributeRaised msg)
  end.

(** The loop of [InspectClass.__init__] over [dir(obj)]. *)
Fixpoint InspectClass_loop (depth : Z) (attrs : list (string * getter))
    (children : list InspectBase) : M (list InspectBase) :=
  match attrs with
  | [] => ret children
  | (attr_name, g) :: rest =>
      if PyStr.startswith attr_name "_" then InspectClass_loop depth rest children
      else
        do attr_value <- getattr_or_None g;
        if is_builtin_or_type h attr_value then InspectClass_loop depth rest children
        else if do_not_call h attr_value then InspectClass_loop depth rest children
        else
          do children <- (if 0 <? depth
                          then _add_child children depth attr_name attr_value
                          else ret children);
          InspectClass_loop depth rest children
  end.

Definition InspectClass (name : string) (obj : pyvalue) (depth : Z)
    (attrs : list (string * getter)) : M InspectBase :=
  do children <- InspectClass_loop depth attrs [];
  ret (Inspect children depth name obj IsClass).

End Constructors.

(** ** The inspection manager *)

(** [InspectionManager.inspect_factory].  The isinstance tests of the source
    are tried in order; the cases of [pyobj] are disjoint, so the order shows
    only in that [None] and the whitelisted types come first.  [fuel] bounds
    the nesting of calls; the source's own bound is [depth]. *)
Fixpoint inspect_factory (h : heap) (max_items : Z) (fuel : nat)
    (name : string) (obj : pyvalue) (depth : Z) {struct fuel} : M InspectBase :=
  if depth <=? 0 then raise DepthExceeded
  else
    match fuel with
    | O => fun _ => OutOfFuel
    | S fuel' =>
        let factory := inspect_factory h max_items fuel' in
        match obj with
        | VNone => ret (InspectSimpleType name obj (depth - 1) "None")
        | VRef a =>
            match h a with
            | OScalar s => ret (InspectSimpleType name obj (depth - 1) (py_str s))
            | OMethod params => ret (InspectMethod name obj (depth - 1) params)
            | OPartial func_name func_params args keywords =>
                ret (InspectPartial h name obj (depth - 1) func_name func_params
                       args keywords)
            | ODict items => InspectDict h max_items factory name obj (depth - 1) items
            | OList items => InspectList h max_items factory name obj (depth - 1) items
            | OQuerySet rows => InspectQuerySet h max_items factory name obj (depth - 1) rows
            | OOther _ _ _ attrs => InspectClass h factory name obj (depth - 1) attrs
            end
        end
    end.

(** An [InspectionManager] instance. *)
Record manager : Type :=
  Manager { m_obj : pyvalue;
            m_processed : gmap Z bool;
            m_max_items : Z;
            m_base : InspectBase }.

(** [InspectionManager.__init__], with the model's fuel. *)
Definition InspectionManager_fuel (fuel : nat) (h : heap) (name : string)
    (obj : pyvalue) (max_depth max_items : Z) : outcome manager :=
  match inspect_factory h max_items fuel name obj (max_depth + 1) ∅ with
  | Done (base, processed) => Done (Manager obj processed max_items base)
  | Raise e => Raise e
  | OutOfFuel => OutOfFuel
  end.

(** [InspectionManager(name, obj, max_depth, max_items)]: the fuel the depth
    budget calls for. *)
Definition InspectionManager (h : heap) (name : string) (obj : pyvalue)
    (max_depth max_items : Z) : outcome manager :=
  InspectionManager_fuel (Z.to_nat (max_depth + 1)) h name obj max_depth max_items.

(** ** The template context *)

Inductive context : Type :=
  Context_ { title : string;
             id : Z;
             type : string;
             prefix : string;
             link_to : option Z;
             value : string;
             postfix : string;
             total_children : option Z;
             inspect_type : string;
             children : option (list context) }.

(** [InspectionManager._build_context].  The list that [get_children]
    returns is [self._children] itself, which the recursion walks. *)
Fixpoint _build_context (h : heap) (inspection : InspectBase) : context :=
  match inspection with
  | Inspect self_children _ _ _ _ =>
      Context_ (get_format_title inspection)
               (get_format_id inspection)
               (get_format_type h inspection)
               (get_format_prefix inspection)
               (get_format_link_to inspection)
               (get_format_value inspection)
               (get_format_postfix inspection)
               (get_total_children inspection)
               (class_name (_class inspection))
               (match get_children inspection with
                | Some _ => Some (map (_build_context h) self_children)
                | None => None
                end)
  end.

(** ** Vocabulary of the statements *)

(** How a call can fail to return. *)
Inductive failure : Type :=
| FRaise (e : exn)
| FOutOfFuel.

Definition failure_of {A} (r : outcome A) : option failure :=
  match r with
  | Done _ => None
  | Raise e => Some (FRaise e)
  | OutOfFuel => Some FOutOfFuel
  end.

(** The failures that start in a constructor's own loop: a getter that
    raises, or the slice of a [QuerySet]. *)
Definition own_failure (f : failure) : Prop :=
  match f with
  | FRaise (AttributeRaised _) | FRaise NegativeIndexing => True
  | FRaise DepthExceeded | FOutOfFuel => False
  end.

(** The failure [f] is the failure of a call of [factory] made by a loop
    that runs at [depth]; the loops call it only when [depth] is positive. *)
Definition from_factory (factory : string -> pyvalue -> Z -> M InspectBase)
    (depth : Z) (f : failure) : Prop :=
  0 < depth /\ exists name value st, failure_of (factory name value depth st) = Some f.

(** [str(obj)] for an object that [inspect_factory] sends to
    [InspectSimpleType]. *)
Definition str_simple (h : heap) (obj : pyvalue) : string :=
  match isinstance_WHITELIST h obj with
  | Some s => py_str s
  | None => "None"
  end.



(** The characters of a string. *)
Fixpoint chars (s : string) : list ascii :=
  match s with
  | EmptyString => []
  | String c s' => c :: chars s'
  end.

(** ** Object graphs used as test inputs *)

Module Samples.

(** [x = {}; x["self"] = x], with [x] at address 1. *)
Definition self_dict : heap :=
  fun a =>
    match a with
    | 1%positive => ODict [("self", VRef 1)]
    | _ => OScalar (SInt 0)
    end.

(** 1: [[10, 20, "abc"]];  5: [{"a": 10, "b": 20, "Password": "abc"}];
    6: a [QuerySet] of the same three rows;  7: [partial(f, 10, c=[...])]
    for [def f(a, b, c, d)];  8 and 9: instances whose attribute [a] raises
    when read;  10: [partial(f, None)] for [def f(a, b)]. *)
Definition zoo : heap :=
  fun a =>
    match a with
    | 1%positive => OList [VRef 2; VRef 3; VRef 4]
    | 2%positive => OScalar (SInt 10)
    | 3%positive => OScalar (SInt 20)
    | 4%positive => OScalar (SStr "abc")
    | 5%positive => ODict [("a", VRef 2); ("b", VRef 3); ("Password", VRef 4)]
    | 6%positive => OQuerySet [VRef 2; VRef 3; VRef 4]
    | 7%positive => OPartial "f" ["a"; "b"; "c"; "d"] [VRef 2] {[ "c" := VRef 1 ]}
    | 8%positive =>
        OOther KInstance "Thing" false
          [("_hidden", Gives (VRef 2)); ("a", RaisesOther "boom"); ("b", Gives (VRef 3))]
    | 9%positive =>
        OOther KInstance "Thing" false
          [("a", RaisesAttributeError "no such row"); ("b", Gives (VRef 3))]
    | 10%positive => OPartial "f" ["a"; "b"] [VNone] ∅
    | _ => OScalar (SInt 5)
    end.

End Samples.

(** ** The constructors' loops as lists of actions

    Each loop of a constructor calls [_add_child] on some of the entries, in
    order, and may stop on an exception of its own.  The lists below say
    which entries; the properties prove that the loops do exactly that. *)

Inductive action : Type :=
| Add (name : string) (value : pyvalue)
| Fail (e : exn).

(** Run the actions in order: an [Add] is [_add_child] under the
    [depth > 0] guard that every loop has. *)
Fixpoint run_actions (h : heap) (factory : string -> pyvalue -> Z -> M InspectBase)
    (depth : Z) (acts : list action) (children : list InspectBase)
    : M (list InspectBase) :=
  match acts with
  | [] => ret children
  | Add name value :: rest =>
      do children <- (if 0 <? depth then _add_child h factory children depth name value
                      else ret children);
      run_actions h factory depth rest children
  | Fail e :: _ => raise e
  end.

(** The entries of a [dict] loop that starts with [len] children. *)
Definition dict_actions (max_items : Z) (len : nat) (items : list (string * pyvalue))
    : list action :=
  map (fun kv : string * pyvalue => Add kv.1 kv.2)
      (take (Z.to_nat (Z.max 1 (max_items - Z.of_nat len))) items).

(** [enumerate(items)], counting from [index]. *)
Fixpoint enumerate (index : nat) (items : list pyvalue) : list action :=
  match items with
  | [] => []
  | item :: rest => Add (PyStr.of_nat index) item :: enumerate (S index) rest
  end.

Definition list_actions (max_items : Z) (index : nat) (items : list pyvalue)
    : list action :=
  enumerate index (take (Z.to_nat (Z.max (max_items - Z.of_nat index) 0) + 1) items).

Definition queryset_actions (max_items depth : Z) (rows : list pyvalue) : list action :=
  if (0 <? Z.of_nat (length rows)) && (0 <? depth)
  then if max_items <? 0 then [Fail NegativeIndexing]
       else enumerate 0 (take (Z.to_nat max_items) rows)
  else [].

(** What [InspectClass.__init__] does with one name of [dir(obj)]. *)
Definition attr_actions (h : heap) (attr : string * getter) : list action :=
  if PyStr.startswith attr.1 "_" then []
  else match attr.2 with
       | Gives v =>
           if is_builtin_or_type h v || do_not_call h v then [] else [Add attr.1 v]
       | RaisesAttributeError _ => [Add attr.1 VNone]
       | RaisesOther msg => [Fail (AttributeRaised msg)]
       end.

Definition class_actions (h : heap) (attrs : list (string * getter)) : list action :=
  flat_map (attr_actions h) attrs.

(** The actions of the constructor that [inspect_factory] picks for an
    object, run at the depth of the new node. *)
Definition actions_of (h : heap) (max_items depth : Z) (obj : pyvalue) : list action :=
  match obj with
  | VNone => []
  | VRef a =>
      match h a with
      | ODict items => dict_actions max_items 0 items
      | OList items => list_actions max_items 0 items
      | OQuerySet rows => queryset_actions max_items depth rows
      | OOther _ _ _ attrs => class_actions h attrs
      | OScalar _ | OMethod _ | OPartial _ _ _ _ => []
      end
  end.

(** The class of the node that [inspect_factory] builds for an object,
    with the fields that its constructor computes from the object alone. *)
Definition class_of (h : heap) (obj : pyvalue) : inspect_class :=
  match obj with
  | VNone => IsSimpleType (SStr "None")
  | VRef a =>
      match h a with
      | OScalar s => IsSimpleType (SStr (py_str s))
      | OMethod params => IsMethod params
      | OPartial func_name func_params args keywords =>
          IsPartial (partial_parameters h args keywords 0 func_params) func_name
      | ODict items => IsDict (Z.of_nat (length items))
      | OList items => IsList (Z.of_nat (length items))
      | OQuerySet rows => IsQuerySet (Z.of_nat (length rows))
      | OOther _ _ _ _ => IsClass
      end
  end.

(** The entries that the [Add] actions hand to [_add_child], by name. *)
Definition added (acts : list action) : list (string * pyvalue) :=
  flat_map (fun act => match act with Add name value => [(name, value)] | Fail _ => [] end)
           acts.

(** [child] is what [_add_child] appends for the entry [entry] in a node of
    depth [depth]: a duplicate, or the node of some call of the factory. *)
Definition made_by (factory : string -> pyvalue -> Z -> M InspectBase) (depth : Z)
    (entry : string * pyvalue) (child : InspectBase) : Prop :=
  child = InspectDuplicate entry.1 VNone depth
  \/ exists st st', factory entry.1 entry.2 depth st = Done (child, st').

(** The attributes that [InspectClass.__init__] turns into children. *)
Definition shown_attr (h : heap) (attr : string * getter) : bool :=
  negb (PyStr.startswith attr.1 "_")
  && match attr.2 with
     | Gives v => negb (is_builtin_or_type h v || do_not_call h v)
     | RaisesAttributeError _ => true
     | RaisesOther _ => false
     end.

(** ** Predicates on trees *)

(** [P] holds of a node and of every node below it. *)
Fixpoint tree_all (P : InspectBase -> Prop) (node : InspectBase) : Prop :=
  match node with
  | Inspect children _ _ _ _ =>
      P node
      /\ (fix all (l : list InspectBase) : Prop :=
            match l with
            | [] => True
            | c :: l' => tree_all P c /\ all l'
            end) children
  end.

(** The number of levels of a tree. *)
Fixpoint height (node : InspectBase) : nat :=
  match node with
  | Inspect children _ _ _ _ =>
      S ((fix tallest (l : list InspectBase) : nat :=
            match l with
            | [] => O
            | c :: l' => Nat.max (height c) (tallest l')
            end) children)
  end.

(** The [id]s of the objects that a tree expands: the nodes that are
    neither simple values nor duplicates. *)
Fixpoint expanded_ids (node : InspectBase) : list Z :=
  match node with
  | Inspect children _ _ obj cls =>
      match cls with
      | IsSimpleType _ | IsDuplicate => []
      | _ => [py_id obj]
      end
      ++ (fix below (l : list InspectBase) : list Z :=
            match l with
            | [] => []
            | c :: l' => expanded_ids c ++ below l'
            end) children
  end.

(** The [id]s expanded below a node. *)
Definition expanded_below (node : InspectBase) : list Z :=
  flat_map expanded_ids (_children node).

(** A node's total, when it has one, is at least the number of its
    children, and a node without a total has no children. *)
Definition count_ok (node : InspectBase) : Prop :=
  match get_total_children node with
  | Some total => Z.of_nat (length (_children node)) <= total
  | None => _children node = []
  end.

(** The visited set [st'] after a call that started with [st] and expanded
    the objects [ids]: they were not in the set, they are now, each once, and
    nothing else changed. *)
Definition registers (st st' : gmap Z bool) (ids : list Z) : Prop :=
  NoDup ids
  /\ (forall i, i ∈ ids -> st !! i = None /\ st' !! i = Some true)
  /\ (forall i, i ∉ ids -> st' !! i = st !! i).

(** [P] holds of a context and of every context below it. *)
Fixpoint context_all (P : context -> Prop) (c : context) : Prop :=
  match c with
  | Context_ _ _ _ _ _ _ _ _ _ cs =>
      P c
      /\ match cs with
         | Some l =>
             (fix all (l : list context) : Prop :=
                match l with
                | [] => True
                | c' :: l' => context_all P c' /\ all l'
                end) l
         | None => True
         end
  end.

(** What a template may rely on in one entry of the context. *)
Definition context_ok (c : context) : Prop :=
  (children c = None <-> total_children c = None)
  /\ (link_to c <> None <-> inspect_type c = "InspectDuplicate")
  /\ match children c, total_children c with
     | Some l, Some total => Z.of_nat (length l) <= total
     | _, _ => True
     end.

(** ** Template inheritance of the plugin ([part_templates_plugin.py])

    The [metadata] of a part or a category is a JSON value (or [None]); the
    plugin keeps its templates in it.  A dict is a finite map: the code below
    looks keys up, sets and deletes them, and never depends on their order.
    Numbers are integers here; a float would behave like one in everything
    below. *)

Module Plugin.

#[local] Set Warnings "-register-all".
Inductive json : Type :=
| JNull
| JBool (b : bool)
| JInt (z : Z)
| JStr (s : string)
| JList (l : list json)
| JDict (d : gmap string json).

Inductive pyerr : Type :=
| KeyError (key : string)
| TypeError               (* subscript of a value that has none *)
| AttributeError          (* a method or field that the value does not have *)
| DoesNotExist.           (* [objects.get] found no row *)

Inductive result (A : Type) : Type :=
| Ok (a : A)
| Err (e : pyerr).
Arguments Ok {A} a.
Arguments Err {A} e.

Definition rbind {A B} (r : result A) (k : A -> result B) : result B :=
  match r with
  | Ok a => k a
  | Err e => Err e
  end.

Notation "'let*' x := r 'in' k" := (rbind r (fun x => k))
  (at level 10, x name, r at level 100, k at level 200).

(** The truth value of a value in an [if], [and] or [not]. *)
Definition truthy (j : json) : bool :=
  match j with
  | JNull => false
  | JBool b => b
  | JInt z => negb (z =? 0)
  | JStr s => negb (String.eqb s "")
  | JList l => match l with [] => false | _ => true end
  | JDict d => negb (Nat.eqb (size d) 0)
  end.

(** [j[key]] for a [str] key. *)
Definition subscript (j : json) (key : string) : result json :=
  match j with
  | JDict d => match d !! key with Some v => Ok v | None => Err (KeyError key) end
  | _ => Err TypeError
  end.

(** [j.get(key)] *)
Definition get (j : json) (key : string) : result json :=
  match j with
  | JDict d => match d !! key with Some v => Ok v | None => Ok JNull end
  | _ => Err AttributeError
  end.

(** [j.get(key, "")] *)
Definition get_or_empty (j : json) (key : string) : result json :=
  match j with
  | JDict d => match d !! key with Some v => Ok v | None => Ok (JStr "") end
  | _ => Err AttributeError
  end.

(** [j[key] = v] *)
Definition assign (j : json) (key : string) (v : json) : result json :=
  match j with
  | JDict d => Ok (JDict (<[key := v]> d))
  | _ => Err TypeError
  end.

Definition METADATA_PARENT : string := "part_template_plugin".
Definition MAX_TEMPLATES : nat := 5.

(** The defaults of [SETTINGS]: what [get_setting] gives while nothing has
    been configured. *)
Definition SETTINGS_default (name : string) : string :=
  if String.eqb name "T1_KEY" then "description"
  else if String.eqb name "T1_TEMPLATE"
  then "{{ part.name }}{% if part.IPN %} ({{ part.IPN }}){% endif %}"
  else if String.eqb name "T2_KEY" then "category"
  else if String.eqb name "T2_TEMPLATE"
  then "{% if part.category.parent %} {{ part.category.parent.name }} / {% endif %}{{ part.category.name }}"
  else "".

(** A [PartCategory]: its [metadata], [parent] and [pk]. *)
Inductive PartCategory : Type :=
  Category (metadata : json) (parent : option PartCategory) (pk : Z).

Definition category_metadata (c : PartCategory) : json :=
  match c with Category metadata _ _ => metadata end.

Definition category_parent (c : PartCategory) : option PartCategory :=
  match c with Category _ parent _ => parent end.

Definition category_pk (c : PartCategory) : Z :=
  match c with Category _ _ pk => pk end.

(** A [Part]: its [metadata], [category] and [pk]. *)
Record Part : Type :=
  { part_metadata : json;
    part_category : option PartCategory;
    part_pk : Z }.

(** The test that [_find_template] and [_find_category_template] make on a
    [metadata]:
    [metadata and metadata[METADATA_PARENT] and metadata[METADATA_PARENT].get(key)],
    and the [metadata[METADATA_PARENT][key]] that they return when it
    holds; [None] when it does not. *)
Definition own_template (metadata : json) (key : string) : result (option json) :=
  if truthy metadata then
    let* ours := subscript metadata METADATA_PARENT in
    if truthy ours then
      let* found := get ours key in
      if truthy found then
        let* ours := subscript metadata METADATA_PARENT in
        let* template := subscript ours key in
        Ok (Some template)
      else Ok None
    else Ok None
  else Ok None.

(** [_find_category_template], called with a category. *)
Fixpoint _find_category_template_of (category : PartCategory) (key : string)
    (default_template : string) : result json :=
  match category with
  | Category metadata parent _ =>
      let* own := own_template metadata key in
      match own with
      | Some template => Ok template
      | None =>
          match parent with
          | Some p => _find_category_template_of p key default_template
          | None => Ok (JStr default_template)
          end
      end
  end.

(** [_find_category_template]; its callers may hand it [None] for the
    category, and reading [category.metadata] then fails. *)
Definition _find_category_template (category : option PartCategory) (key : string)
    (default_template : string) : result json :=
  match category with
  | Some c => _find_category_template_of c key default_template
  | None => Err AttributeError
  end.

(** [_find_template] *)
Definition _find_template (part : Part) (key : string) (default_template : string)
    : result json :=
  let* own := own_template (part_metadata part) key in
  match own with
  | Some template => Ok template
  | None => _find_category_template (part_category part) key default_template
  end.

(** The categories from a category up to the root. *)
Fixpoint ancestry (c : PartCategory) : list PartCategory :=
  match c with
  | Category _ parent _ =>
      c :: match parent with Some p => ancestry p | None => [] end
  end.

(** *** Saving a template and showing it in the panel *)

(** The fields of a [Part] or [PartCategory] row that [_webapi_set_template]
    uses. *)
Record instance : Type :=
  { inst_metadata : json;
    inst_name : string;
    inst_pk : Z }.

(** The two tables, by primary key. *)
Record database : Type :=
  { parts : gmap Z instance;
    categories : gmap Z instance }.

(** The [JsonResponse] of [_webapi_set_template]: an error with its message,
    or the fields of the success (its status and message are constants). *)
Inductive JsonResponse : Type :=
| ResponseError (message : string)
| ResponseOk (origMeta : json) (new_template : string) (metadata : json)
             (name : string) (pk : Z).

(** [Part.objects.get(pk=pk)] and [PartCategory.objects.get(pk=pk)] *)
Definition objects_get (table : gmap Z instance) (pk : Z) : result instance :=
  match table !! pk with
  | Some row => Ok row
  | None => Err DoesNotExist
  end.

(** The part of [_webapi_set_template] that sets up [instance.metadata]
    ("set up our metadata"): the metadata afterwards, and the dict that is
    then its [metadata[PARENT]].  The nested dicts are changed in place in the
    source, so every change is written back into the value that holds it. *)
Definition prepare_metadata (metadata : json) : result (json * json) :=
  (* if not instance.metadata: instance.metadata = {} *)
  let metadata := if truthy metadata then metadata else JDict ∅ in
  (* if not instance.metadata.get(PARENT): instance.metadata[PARENT] = {} *)
  let* ours := get metadata METADATA_PARENT in
  let* metadata :=
    if truthy ours then Ok metadata else assign metadata METADATA_PARENT (JDict ∅) in
  (* if not instance.metadata[PARENT].get("templates"): ...['templates'] = {} *)
  let* ours := subscript metadata METADATA_PARENT in
  let* templates := get ours "templates" in
  let* ours := if truthy templates then Ok ours else assign ours "templates" (JDict ∅) in
  let* metadata := assign metadata METADATA_PARENT ours in
  Ok (metadata, ours).

(** The part of [_webapi_set_template] that changes [instance.metadata]
    ("set or delete the key using template"); the second component tells
    whether [instance.save()] is called. *)
Definition set_template_metadata (metadata : json) (key template : string)
    : result (json * bool) :=
  let* prepared := prepare_metadata metadata in
  let metadata := prepared.1 in
  let ours := prepared.2 in
  if truthy (JStr template) then
    (* instance.metadata[PARENT].get("templates")[key] = template *)
    let* templates := get ours "templates" in
    let* templates := assign templates key (JStr template) in
    let* ours := assign ours "templates" templates in
    let* metadata := assign metadata METADATA_PARENT ours in
    Ok (metadata, true)
  else
    (* elif instance.metadata[PARENT]["templates"].get(key): del ...[key] *)
    let* templates := subscript ours "templates" in
    let* found := get templates key in
    if truthy found then
      let* templates :=
        match templates with
        | JDict d => Ok (JDict (delete key d))
        | _ => Err TypeError
        end in
      let* ours := assign ours "templates" templates in
      let* metadata := assign metadata METADATA_PARENT ours in
      Ok (metadata, true)
    else Ok (metadata, false).

(** [_webapi_set_template]: the response and the database after it.
    [template] is [request.GET.get('template')].  [origMeta] is the object
    that [instance.metadata] was before; when that was a non-empty dict it is
    the very dict that is then changed, so the response shows it changed. *)
Definition _webapi_set_template (db : database) (template : option string)
    (key entity : string) (pk : Z) : result (JsonResponse * database) :=
  match template with
  | None => Ok (ResponseError "Missing required parameter: template", db)
  | Some template =>
      if String.eqb entity "part" then
        let* row := objects_get (parts db) pk in
        let* changed := set_template_metadata (inst_metadata row) key template in
        let origMeta := if truthy (inst_metadata row) then changed.1 else inst_metadata row in
        let saved := {| inst_metadata := changed.1;
                        inst_name := inst_name row;
                        inst_pk := inst_pk row |} in
        Ok (ResponseOk origMeta template changed.1 (inst_name row) (inst_pk row),
            if changed.2 : bool
            then {| parts := <[pk := saved]> (parts db); categories := categories db |}
            else db)
      else if String.eqb entity "category" then
        let* row := objects_get (categories db) pk in
        let* changed := set_template_metadata (inst_metadata row) key template in
        let origMeta := if truthy (inst_metadata row) then changed.1 else inst_metadata row in
        let saved := {| inst_metadata := changed.1;
                        inst_name := inst_name row;
                        inst_pk := inst_pk row |} in
        Ok (ResponseOk origMeta template changed.1 (inst_name row) (inst_pk row),
            if changed.2 : bool
            then {| parts := parts db; categories := <[pk := saved]> (categories db) |}
            else db)
      else Ok (ResponseError ("Invalid entity type " +:+ entity), db)
  end.

(** The [metadata_templates] of [_get_panel_context]:
    [metadata[PARENT]['templates']] when
    [metadata and metadata.get(PARENT) and metadata[PARENT].get('templates')]
    holds, [{}] otherwise. *)
Definition metadata_templates (metadata : json) : result json :=
  if truthy metadata then
    let* ours := get metadata METADATA_PARENT in
    if truthy ours then
      let* templates := get ours "templates" in
      if truthy templates then
        let* ours := subscript metadata METADATA_PARENT in
        subscript ours "templates"
      else Ok (JDict ∅)
    else Ok (JDict ∅)
  else Ok (JDict ∅).

(** The instance that a panel is shown for. *)
Inductive panel_instance : Type :=
| OfPart (part : Part)
| OfCategory (category : PartCategory).

(** An entry of the list that [_get_panel_context] returns. *)
Record panel_entry : Type :=
  { entry_key : string;
    entry_template : json;
    entry_inherited_template : json;
    entry_entity : string;
    entry_pk : Z }.

(** The loop of [_get_panel_context] over [range(key_number, MAX_TEMPLATES + 1)],
    with [todo] numbers left; [get_setting] is the plugin's settings.
    [isinstance_PartDetail] is the test [isinstance(instance, PartDetail)]:
    the class [PartDetail] comes from [part.views] of InvenTree, which is not
    part of this repository, so the test is a parameter. *)
Fixpoint panel_loop (get_setting : string -> string)
    (isinstance_PartDetail : panel_instance -> bool) (instance : panel_instance)
    (key_number todo : nat) (context : list panel_entry) : result (list panel_entry) :=
  match todo with
  | O => Ok context
  | S todo' =>
      let key := get_setting ("T" +:+ PyStr.of_nat key_number +:+ "_KEY") in
      let default_template :=
        get_setting ("T" +:+ PyStr.of_nat key_number +:+ "_TEMPLATE") in
      let parent_category :=
        match instance with
        | OfPart part => part_category part
        | OfCategory category => category_parent category
        end in
      let metadata :=
        match instance with
        | OfPart part => part_metadata part
        | OfCategory category => category_metadata category
        end in
      let pk :=
        match instance with
        | OfPart part => part_pk part
        | OfCategory category => category_pk category
        end in
      let* templates := metadata_templates metadata in
      let* inherited_template :=
        _find_category_template parent_category key default_template in
      if truthy (JStr key) then
        let* template := get_or_empty templates key in
        panel_loop get_setting isinstance_PartDetail instance (S key_number) todo'
          (context ++ [{| entry_key := key;
                          entry_template := template;
                          entry_inherited_template := inherited_template;
                          entry_entity :=
                            if isinstance_PartDetail instance then "part" else "category";
                          entry_pk := pk |}])
      else panel_loop get_setting isinstance_PartDetail instance (S key_number) todo' context
  end.

(** [_get_panel_context] *)
Definition _get_panel_context (get_setting : string -> string)
    (isinstance_PartDetail : panel_instance -> bool) (instance : panel_instance)
    : result (list panel_entry) :=
  panel_loop get_setting isinstance_PartDetail instance 1 MAX_TEMPLATES [].

(** [_cast_part], for the instances that the report callbacks get: a part, a
    stock item (by its part), or anything else. *)
Inductive report_instance : Type :=
| APart (part : Part)
| AStockItem (part : Part)
| AnythingElse.

Definition _cast_part (instance : report_instance) : option Part :=
  match instance with
  | APart part => Some part
  | AStockItem part => Some part
  | AnythingElse => None
  end.

(** *** The context of a report *)

(** What [_apply_template] does with a template: Django renders it, or
    raises; of the exception, the message of [_add_context] shows [str(e)]
    and the place of the last call ([filename:lineno]). *)
Inductive rendering : Type :=
| Rendered (text : string)
| RenderingRaises (error place : string).

(** [instance if isinstance(instance, StockItem) else None] *)
Definition stock_of (instance : report_instance) : option report_instance :=
  match instance with
  | AStockItem _ => Some instance
  | _ => None
  end.

Section AddContext.

Variable get_setting : string -> string.
Variable _apply_template : Part -> option report_instance -> json -> rendering.
(** [str(found_template)], as the f-string of the message formats it. *)
Variable str : json -> string.

(** The loop of [_add_context] over [range(key_number, MAX_TEMPLATES + 1)],
    with [todo] numbers left; [part_templates] is [context[CONTEXT_KEY]]. *)
Fixpoint add_context_loop (part : Part) (instance : report_instance)
    (key_number todo : nat) (part_templates : gmap string string)
    : result (gmap string string) :=
  match todo with
  | O => Ok part_templates
  | S todo' =>
      let key := get_setting ("T" +:+ PyStr.of_nat key_number +:+ "_KEY") in
      let default_template :=
        get_setting ("T" +:+ PyStr.of_nat key_number +:+ "_TEMPLATE") in
      if truthy (JStr key) then
        let* found_template := _find_template part key default_template in
        let stock := stock_of instance in
        match _apply_template part stock found_template with
        | RenderingRaises error place =>
            Ok {[ "error" :=
                    "Template error for " +:+ key +:+ " with " +:+ PyStr.dquote
                    +:+ str found_template +:+ PyStr.dquote +:+ ": '" +:+ error +:+ "' "
                    +:+ place ]}
        | Rendered text =>
            add_context_loop part instance (S key_number) todo'
              (<[key := text]> part_templates)
        end
      else add_context_loop part instance (S key_number) todo' part_templates
  end.

(** [_add_context]: the [context[CONTEXT_KEY]] that it leaves when it
    returns, or the exception that it raises.  For an instance that is
    neither a part nor a stock item, building the message reads
    [type(instance).__type__], which no class has. *)
Definition _add_context (instance : report_instance) : result (gmap string string) :=
  match _cast_part instance with
  | Some part => add_context_loop part instance 1 MAX_TEMPLATES ∅
  | None => Err AttributeError
  end.

End AddContext.

(** A renderer for the samples: a text template renders to itself in
    brackets, anything else makes Django raise. *)
Definition sample_apply_template (part : Part) (stock : option report_instance)
    (template : json) : rendering :=
  match template with
  | JStr s => Rendered ("<" +:+ s +:+ ">")
  | _ => RenderingRaises "expected string" "base.py:154"
  end.

Definition sample_str (j : json) : string :=
  match j with
  | JStr s => s
  | _ => "?"
  end.

(** *** Vocabulary *)

(** The metadata holds the template [t] for [key] where [_find_template]
    looks: [metadata[PARENT][key]], and [t] is not empty. *)
Definition has_template (metadata : json) (key : string) (t : json) : Prop :=
  exists d ours,
    metadata = JDict d /\ d !! METADATA_PARENT = Some (JDict ours)
    /\ ours !! key = Some t /\ truthy t = true.

(** The metadata is empty, or its entry of the plugin is, or that entry is a
    dict with nothing (or an empty value) for [key]. *)
Definition no_template (metadata : json) (key : string) : Prop :=
  truthy metadata = false
  \/ exists d ours,
      metadata = JDict d /\ d !! METADATA_PARENT = Some ours
      /\ (truthy ours = false
          \/ exists o, ours = JDict o
                       /\ match o !! key with
                          | Some v => truthy v = false
                          | None => True
                          end).

(** The template that the panel shows for [key]:
    [metadata_templates.get(key, "")] of [_get_panel_context]. *)
Definition shown_template (metadata : json) (key : string) : result json :=
  let* templates := metadata_templates metadata in
  get_or_empty templates key.

(** The templates that [_webapi_set_template] keeps in a metadata, and the
    metadata that it can work on: empty, or a dict whose entry of the plugin,
    when there is one, is empty or a dict whose ["templates"] entry, when
    there is one, is empty or a dict. *)
Definition templates_of (metadata : json) : gmap string json :=
  match metadata with
  | JDict d =>
      match d !! METADATA_PARENT with
      | Some (JDict o) =>
          match o !! "templates" with
          | Some (JDict ts) => ts
          | _ => ∅
          end
      | _ => ∅
      end
  | _ => ∅
  end.

Definition shaped (metadata : json) : Prop :=
  truthy metadata = false
  \/ exists d,
      metadata = JDict d
      /\ match d !! METADATA_PARENT with
         | None => True
         | Some ours =>
             truthy ours = false
             \/ exists o,
                 ours = JDict o
                 /\ match o !! "templates" with
                    | None => True
                    | Some ts => truthy ts = false \/ exists t, ts = JDict t
                    end
         end.

(** The category above the instance of a panel: [instance.category] of a
    part, [instance.parent] of a category. *)
Definition panel_parent (instance : panel_instance) : option PartCategory :=
  match instance with
  | OfPart part => part_category part
  | OfCategory category => category_parent category
  end.

Definition panel_pk (instance : panel_instance) : Z :=
  match instance with
  | OfPart part => part_pk part
  | OfCategory category => category_pk category
  end.

(** The value that a metadata holds for [key] directly in the plugin's
    entry, where [_find_template] looks: [metadata[PARENT][key]]. *)
Definition direct_template (metadata : json) (key : string) : option json :=
  match metadata with
  | JDict d =>
      match d !! METADATA_PARENT with
      | Some (JDict o) => o !! key
      | _ => None
      end
  | _ => None
  end.

Definition panel_metadata (instance : panel_instance) : json :=
  match instance with
  | OfPart part => part_metadata part
  | OfCategory category => category_metadata category
  end.

(** The setting number [n] has the key [key], which is not empty, and the
    template that [_find_template] finds for it on the part renders to
    [text]. *)
Definition renders (get_setting : string -> string)
    (_apply_template : Part -> option report_instance -> json -> rendering)
    (part : Part) (instance : report_instance) (n : nat) (key text : string) : Prop :=
  get_setting ("T" +:+ PyStr.of_nat n +:+ "_KEY") = key /\ key <> ""
  /\ exists found,
      _find_template part key (get_setting ("T" +:+ PyStr.of_nat n +:+ "_TEMPLATE"))
      = Ok found
      /\ _apply_template part (stock_of instance) found = Rendered text.

(** The same, but rendering the template raises. *)
Definition fails_to_render (get_setting : string -> string)
    (_apply_template : Part -> option report_instance -> json -> rendering)
    (part : Part) (instance : report_instance) (n : nat) : Prop :=
  get_setting ("T" +:+ PyStr.of_nat n +:+ "_KEY") <> ""
  /\ exists found error place,
      _find_template part (get_setting ("T" +:+ PyStr.of_nat n +:+ "_KEY"))
        (get_setting ("T" +:+ PyStr.of_nat n +:+ "_TEMPLATE"))
      = Ok found
      /\ _apply_template part (stock_of instance) found = RenderingRaises error place.

(** *** Sample data *)

Module Samples.

(** Three categories, each below the one before; the first two hold a
    template for ["description"], the last one has no metadata. *)
Definition root : PartCategory :=
  Category (JDict {[ METADATA_PARENT := JDict {[ "description" := JStr "root {{ part.name }}" ]} ]})
    None 1.

Definition mid : PartCategory :=
  Category (JDict {[ METADATA_PARENT := JDict {[ "description" := JStr "mid {{ part.name }}" ]} ]})
    (Some root) 2.

Definition leaf : PartCategory := Category JNull (Some mid) 3.

(** A category whose metadata was written by something else. *)
Definition foreign : PartCategory :=
  Category (JDict {[ "other_plugin" := JInt 1 ]}) (Some root) 4.

(** A part with a template of its own, and one with nothing. *)
Definition own_part : Part :=
  {| part_metadata := JDict {[ METADATA_PARENT := JDict {[ "description" := JStr "mine" ]} ]};
     part_category := Some leaf;
     part_pk := 7 |}.

Definition bare_part : Part :=
  {| part_metadata := JNull; part_category := None; part_pk := 8 |}.

(** A part whose template was saved through the web API. *)
Definition saved_part : Part :=
  {| part_metadata :=
       JDict {[ METADATA_PARENT :=
                  JDict {[ "templates" := JDict {[ "description" := JStr "saved" ]} ]} ]};
     part_category := Some leaf;
     part_pk := 9 |}.

(** Rows of the two tables. *)
Definition part_row : instance :=
  {| inst_metadata := JNull; inst_name := "R 10k"; inst_pk := 7 |}.

Definition category_row : instance :=
  {| inst_metadata :=
       JDict {[ METADATA_PARENT :=
                  JDict {[ "templates" := JDict {[ "description" := JStr "old" ]} ]} ]};
     inst_name := "Resistors";
     inst_pk := 3 |}.

Definition db : database :=
  {| parts := {[ 7 := part_row ]}; categories := {[ 3 := category_row ]} |}.

End Samples.

End Plugin.

(** * The template filters

    [templatetags/part_templates.py]: the filters [scrub] and [replace] that
    report templates apply to texts.  The regular expression engine is not
    part of the repository: [re.sub] is a parameter of the model.  The
    configuration is what [yaml.safe_load] gave for the file: [load_filters]
    checks that it is a dict and nothing more, so the values under it are
    arbitrary YAML values, and [scrub] meets them with [get], [for] and
    [re.sub] as Python does. *)

Module Tags.

Inductive exn : Type :=
| re_error (error : string)   (* raised by [re.sub] *)
| TypeError
| AttributeError
| OtherError.                 (* any other exception of [load_filters] *)

Inductive result (A : Type) : Type :=
| Returns (a : A)
| Raises (e : exn).
Arguments Returns {A} a.
Arguments Raises {A} e.

(** A value of the configuration, or a value handed to a filter: [None], a
    [str], another scalar (a [bool], a number, a date), a list, or a dict
    given by its items in order; the keys of a dict are distinct. *)
Inductive yaml : Type :=
| YNull
| YStr (s : string)
| YOther (text : string)
| YList (l : list yaml)
| YDict (items : list (yaml * yaml)).

(** [d.get(key)] on the items of a dict, for a [str] key: a key that is
    not a [str] is never equal to one. *)
Fixpoint lookup_str (key : string) (items : list (yaml * yaml)) : yaml :=
  match items with
  | [] => YNull
  | (YStr k, v) :: rest => if String.eqb k key then v else lookup_str key rest
  | _ :: rest => lookup_str key rest
  end.

(** [v.get(key)]: only a dict has the method. *)
Definition get (v : yaml) (key : string) : result yaml :=
  match v with
  | YDict items => Returns (lookup_str key items)
  | _ => Raises AttributeError
  end.

(** The one-character strings of a [str]. *)
Fixpoint characters (s : string) : list yaml :=
  match s with
  | EmptyString => []
  | String c s' => YStr (String c EmptyString) :: characters s'
  end.

(** What [for rule in v] runs over: the elements of a list, the characters
    of a [str], the keys of a dict; the other values are not iterable. *)
Definition iterate (v : yaml) : result (list yaml) :=
  match v with
  | YList l => Returns l
  | YStr s => Returns (characters s)
  | YDict items => Returns (items.*1)
  | YNull | YOther _ => Raises TypeError
  end.

(** What a call of [load_filters] does: it returns the configuration, a
    dict (from the cache or from the file), or raises. *)
Inductive loaded : Type :=
| Loaded (config : list (yaml * yaml))
| FileNotFoundError (error : string)
| YAMLError (error : string)
| LoadRaises.

(** ** Text functions of Python *)

Definition pipe : ascii := "|"%char.
Definition backslash : ascii := "\"%char.

(** The scan of [s.replace(old, new)] for an [old] that is not empty, with
    [skip] characters of a match still to pass over. *)
Fixpoint replace_scan (old new : string) (skip : nat) (s : string) : string :=
  match s with
  | EmptyString => EmptyString
  | String c s' =>
      match skip with
      | S k => replace_scan old new k s'
      | O =>
          if PyStr.startswith s old
          then new +:+ replace_scan old new (String.length old - 1) s'
          else String c (replace_scan old new 0 s')
      end
  end.

(** [s.replace("", new)] after the first [new]: [new] follows every
    character. *)
Fixpoint replace_empty (new : string) (s : string) : string :=
  match s with
  | EmptyString => EmptyString
  | String c s' => String c (new +:+ replace_empty new s')
  end.

(** [s.replace(old, new)] *)
Definition str_replace (s old new : string) : string :=
  match old with
  | EmptyString => new +:+ replace_empty new s
  | String _ _ => replace_scan old new 0 s
  end.

(** [html.escape(s)] *)
Fixpoint html_escape (s : string) : string :=
  match s with
  | EmptyString => EmptyString
  | String c s' =>
      (if Ascii.eqb c "&" then "&amp;"
       else if Ascii.eqb c "<" then "&lt;"
       else if Ascii.eqb c ">" then "&gt;"
       else if Ascii.eqb c "034" then "&quot;"
       else if Ascii.eqb c "'" then "&#x27;"
       else String c EmptyString) +:+ html_escape s'
  end.

(** [re.split(r'(?<!\\)\|', s)]: the pieces of [s] between the ["|"] that no
    backslash precedes; [after_backslash] tells whether the character before
    [s] is a backslash. *)
Fixpoint re_split_pipe (after_backslash : bool) (s : string) : list string :=
  match s with
  | EmptyString => [EmptyString]
  | String c s' =>
      if Ascii.eqb c pipe && negb after_backslash
      then EmptyString :: re_split_pipe false s'
      else match re_split_pipe (Ascii.eqb c backslash) s' with
           | piece :: pieces => String c piece :: pieces
           | [] => [String c EmptyString]
           end
  end.

(** [s[n:]] *)
Fixpoint drop_chars (n : nat) (s : string) : string :=
  match n, s with
  | S n', String _ s' => drop_chars n' s'
  | _, _ => s
  end.

Section Replace.

(** [re.sub(pattern, repl, string)]: the new text, or the message of the
    [re.error] that it raises. *)
Variable re_sub : string -> string -> string -> string + string.

(** [replace] *)
Definition replace (value arg : string) : result string :=
  let parts := re_split_pipe false arg in
  let parts := (fun part => str_replace part "\|" "|") <$> parts in
  match parts with
  | [match_; repl] =>
      if PyStr.startswith match_ "regex:" then
        match re_sub (drop_chars 6 match_) repl value with
        | inl text => Returns text
        | inr error => Raises (re_error error)
        end
      else Returns (str_replace value match_ repl)
  | _ =>
      Returns ("[replace:" +:+ PyStr.dquote +:+ html_escape arg +:+ PyStr.dquote
               +:+ " must have two parameters separated by " +:+ PyStr.dquote +:+ "|"
               +:+ PyStr.dquote +:+ "]")
  end.

End Replace.

(** What one of the two loops of [scrub] ends with: it runs through, it
    returns a message, or an exception leaves it. *)
Inductive loop_outcome : Type :=
| Through (scrub_string : yaml)
| Returned (message : string)
| Raised (e : exn).

Section Scrub.

(** [re.sub(pattern, replacement, scrub_string)] on the values that [scrub]
    hands to it: the new text, or the exception that it raises ([re.error]
    with its message, or [TypeError] for values that are no strings). *)
Variable re_sub : yaml -> yaml -> yaml -> result string.

(** What [load_filters()] does in this call. *)
Variable load_filters : loaded.

(** The text that formatting gives for a value that is not a [str]. *)
Variable str_other : yaml -> string.

(** [{pattern}] in a message *)
Definition format_value (v : yaml) : string :=
  match v with
  | YStr s => s
  | _ => str_other v
  end.

(** One of the two loops of [scrub], over what [for rule in rules] runs
    over.  [where_] is what the messages name: the name of the rules in
    double quotes, or ["_GLOBAL"]; [regex_where] is the start of the message
    of a regex error. *)
Fixpoint scrub_rules (where_ regex_where : string) (rules : list yaml)
    (scrub_string : yaml) : loop_outcome :=
  match rules with
  | [] => Through scrub_string
  | rule :: rules' =>
      match get rule "pattern" with
      | Raises e => Raised e
      | Returns YNull =>
          Returned ("[" +:+ PyStr.dquote +:+ "pattern" +:+ PyStr.dquote +:+ " not found in "
                    +:+ where_ +:+ " in " +:+ PyStr.dquote +:+ "parts_templates.yaml"
                    +:+ PyStr.dquote +:+ "]")
      | Returns pattern =>
          match get rule "replacement" with
          | Raises e => Raised e
          | Returns YNull =>
              Returned ("[" +:+ PyStr.dquote +:+ "replacement" +:+ PyStr.dquote
                        +:+ " not found in " +:+ where_ +:+ " in " +:+ PyStr.dquote
                        +:+ "parts_templates.yaml" +:+ PyStr.dquote +:+ "]")
          | Returns replacement =>
              match re_sub pattern replacement scrub_string with
              | Returns text => scrub_rules where_ regex_where rules' (YStr text)
              | Raises (re_error error) =>
                  Returned ("[" +:+ regex_where +:+ " regex error on "
                            +:+ format_value pattern +:+ ": " +:+ error +:+ "]")
              | Raises e => Raised e
              end
          end
      end
  end.

(** [scrub]; the value to scrub is whatever the template hands to the
    filter, the name is a [str]. *)
Definition scrub (scrub_string : yaml) (name : string) : result yaml :=
  if String.eqb name "" then Returns (YStr "[scrub missing required :name]")
  else
    match load_filters with
    | FileNotFoundError error =>
        Returns (YStr ("[" +:+ PyStr.dquote +:+ "part_templates.yaml" +:+ PyStr.dquote
                       +:+ " not found or invalid: " +:+ error +:+ "]"))
    | YAMLError error =>
        Returns (YStr ("[Error in configuration file: " +:+ error +:+ "]"))
    | LoadRaises => Raises OtherError
    | Loaded config =>
        match lookup_str "filters" config with
        | YNull =>
            Returns (YStr ("[" +:+ PyStr.dquote +:+ "filters" +:+ PyStr.dquote
                           +:+ " not found in " +:+ PyStr.dquote +:+ "parts_templates.yaml"
                           +:+ PyStr.dquote +:+ "]"))
        | filters =>
            match get filters name with
            | Raises e => Raises e
            | Returns YNull => Returns scrub_string
            | Returns rules =>
                match iterate rules with
                | Raises e => Raises e
                | Returns rules =>
                    match scrub_rules (PyStr.dquote +:+ name +:+ PyStr.dquote)
                            (PyStr.dquote +:+ name +:+ PyStr.dquote) rules scrub_string with
                    | Raised e => Raises e
                    | Returned message => Returns (YStr message)
                    | Through scrub_string =>
                        match get filters "_GLOBAL" with
                        | Raises e => Raises e
                        | Returns YNull => Returns scrub_string
                        | Returns global_rules =>
                            match iterate global_rules with
                            | Raises e => Raises e
                            | Returns global_rules =>
                                match scrub_rules (PyStr.dquote +:+ "_GLOBAL" +:+ PyStr.dquote)
                                        (PyStr.dquote +:+ "_GLOBAL") global_rules
                                        scrub_string with
                                | Raised e => Raises e
                                | Returned message => Returns (YStr message)
                                | Through scrub_string => Returns scrub_string
                                end
                            end
                        end
                    end
                end
            end
        end
    end.

End Scrub.

(** ** Vocabulary *)

(** The text with a backslash put before every ["|"]: how the docstring of
    [replace] tells to write a ["|"] that is not the separator. *)
Fixpoint escape_pipes (s : string) : string :=
  match s with
  | EmptyString => EmptyString
  | String c s' =>
      if Ascii.eqb c pipe then String backslash (String pipe (escape_pipes s'))
      else String c (escape_pipes s')
  end.

(** The text ends with a backslash ([after_backslash] when it is empty). *)
Fixpoint ends_with_backslash (after_backslash : bool) (s : string) : bool :=
  match s with
  | EmptyString => after_backslash
  | String c s' => ends_with_backslash (Ascii.eqb c backslash) s'
  end.

(** The number of ["|"] of a text that no backslash precedes. *)
Fixpoint unescaped_pipes (after_backslash : bool) (s : string) : nat :=
  match s with
  | EmptyString => O
  | String c s' =>
      if Ascii.eqb c pipe && negb after_backslash
      then S (unescaped_pipes false s')
      else unescaped_pipes (Ascii.eqb c backslash) s'
  end.

(** What a list of rules, each a dict given by its items, makes of a value:
    the rules are applied one after the other, each to the text that the one
    before gave, until a rule lacks its pattern or its replacement or
    [re.sub] raises [re.error] (the filter complains), or [re.sub] raises
    something else. *)
Inductive scrubbed : Type :=
| Scrubbed (v : yaml)
| Complains
| Fails (e : exn).

Fixpoint substitute_all (re_sub : yaml -> yaml -> yaml -> result string)
    (rules : list (list (yaml * yaml))) (v : yaml) : scrubbed :=
  match rules with
  | [] => Scrubbed v
  | rule :: rules' =>
      match lookup_str "pattern" rule, lookup_str "replacement" rule with
      | YNull, _ | _, YNull => Complains
      | pattern, replacement =>
          match re_sub pattern replacement v with
          | Returns text => substitute_all re_sub rules' (YStr text)
          | Raises (re_error _) => Complains
          | Raises e => Fails e
          end
      end
  end.

(** A regular expression engine for plain patterns: no character of the
    pattern is special, so [re.sub] replaces like [str.replace]. *)
Definition plain_re_sub (pattern repl text : string) : string + string :=
  inl (str_replace text pattern repl).

(** The same on values: [re.sub] raises [TypeError] unless the three are
    strings. *)
Definition plain_re_sub_values (pattern repl text : yaml) : result string :=
  match pattern, repl, text with
  | YStr p, YStr r, YStr t => Returns (str_replace t p r)
  | _, _, _ => Raises TypeError
  end.

Definition sample_str_other (v : yaml) : string := "?".

(** The filters of a sample [part_templates.yaml]. *)
Definition sample_filters : list (yaml * yaml) :=
  [ (YStr "Package",
     YList [ YDict [ (YStr "pattern", YStr "SMD "); (YStr "replacement", YStr "") ] ]);
    (YStr "_GLOBAL",
     YList [ YDict [ (YStr "pattern", YStr "  "); (YStr "replacement", YStr " ") ] ]);
    (YStr "Rating",
     YList [ YDict [ (YStr "pattern", YStr "V"); (YStr "replacement", YOther "5") ] ]) ].

Definition sample_config : list (yaml * yaml) :=
  [ (YStr "filters", YDict sample_filters) ].

End Tags.

(** * Properties *)

(** ** Strings *)

Lemma append_nil (s : string) : "" +:+ s = s.
Proof. reflexivity. Qed.

Lemma append_cons (c : ascii) (a b : string) : String c a +:+ b = String c (a +:+ b).
Proof. reflexivity. Qed.

Lemma prefix_app (p s : string) : String.prefix p (p +:+ s) = true.
Proof.
  induction p as [|c p IH]; [by destruct s|].
  rewrite append_cons. simpl. destruct (ascii_dec c c) as [_|n]; [exact IH | by destruct n].
Qed.

Lemma prefix_inv (p s : string) : String.prefix p s = true -> exists r, s = p +:+ r.
Proof.
  revert s. induction p as [|c p IH]; intros s H.
  - by exists s.
  - destruct s as [|c' s]; [done|]. simpl in H.
    destruct (ascii_dec c c') as [->|]; [|done].
    destruct (IH _ H) as [r ->]. by exists r.
Qed.

Lemma contains_prefix (sub s : string) : String.prefix sub s = true -> PyStr.contains sub s = true.
Proof. intros H. destruct s; cbn [PyStr.contains]; by rewrite H. Qed.

Lemma contains_intro (sub pre post : string) : PyStr.contains sub (pre +:+ sub +:+ post) = true.
Proof.
  induction pre as [|c pre IH].
  - rewrite append_nil. apply contains_prefix, prefix_app.
  - rewrite append_cons. cbn [PyStr.contains]. rewrite IH. by destruct (String.prefix _ _).
Qed.

Lemma contains_inv (sub s : string) : PyStr.contains sub s = true -> exists pre post, s = pre +:+ sub +:+ post.
Proof.
  induction s as [|c s IH]; cbn [PyStr.contains].
  - destruct (String.prefix sub "") eqn:E; [|done]. intros _.
    apply prefix_inv in E as [r E]. by exists ""%string, r.
  - destruct (String.prefix sub (String c s)) eqn:E.
    + intros _. apply prefix_inv in E as [r E]. by exists ""%string, r.
    + intros H. destruct (IH H) as (pre & post & ->). by exists (String c pre), post.
Qed.

Lemma lower_app (a b : string) : PyStr.lower (a +:+ b) = PyStr.lower a +:+ PyStr.lower b.
Proof. induction a as [|c a IH]; [done|]. rewrite append_cons. simpl. by rewrite IH. Qed.

Lemma mul_star_S n : PyStr.mul "*" (S n) = String "*" (PyStr.mul "*" n).
Proof. reflexivity. Qed.

Lemma length_mul_star n : String.length (PyStr.mul "*" n) = n.
Proof. induction n as [|n IH]; [done|]. rewrite mul_star_S. simpl. by rewrite IH. Qed.

Lemma length_append (a b : string) : String.length (a +:+ b) = (String.length a + String.length b)%nat.
Proof. induction a as [|c a IH]; [done|]. rewrite append_cons. simpl. by rewrite IH. Qed.

(** ** The monad *)

Lemma failure_of_bind {A B} (c : M A) (k : A -> M B) st f :
  failure_of (bind c k st) = Some f ->
  failure_of (c st) = Some f \/
  exists a st', c st = Done (a, st') /\ failure_of (k a st') = Some f.
Proof.
  unfold bind. destruct (c st) as [[a st']| |]; eauto.
Qed.

Lemma bind_Done {A B} (c : M A) (k : A -> M B) st a st' :
  c st = Done (a, st') -> bind c k st = k a st'.
Proof. unfold bind. by intros ->. Qed.

Lemma bind_ext {A B} (c c' : M A) (k k' : A -> M B) st :
  c st = c' st -> (forall a st', k a st' = k' a st') -> bind c k st = bind c' k' st.
Proof. unfold bind. intros -> Hk. destruct (c' st) as [[a st']| |]; auto. Qed.

(** ** Where a failure of a constructor comes from *)

Section LoopFailures.

Context (h : heap) (max_items : Z).
Variable factory : string -> pyvalue -> Z -> M InspectBase.
Variable depth : Z.

Lemma been_seen_before_returns obj st :
  exists seen st', been_seen_before h obj st = Done (seen, st').
Proof.
  unfold been_seen_before. destruct (is_simple h obj); [eauto|].
  destruct (st !! py_id obj); eauto.
Qed.

Lemma _add_child_failure children name value st f :
  failure_of (_add_child h factory children depth name value st) = Some f ->
  exists st', failure_of (factory name value depth st') = Some f.
Proof.
  unfold _add_child. intros H.
  destruct (been_seen_before_returns value st) as (seen & st' & E).
  rewrite (bind_Done _ _ _ _ _ E) in H. destruct seen; [done|].
  apply failure_of_bind in H as [H | (c & st'' & _ & H)]; [eauto | done].
Qed.

Lemma guarded_add_child_failure children name value st f :
  failure_of ((if 0 <? depth then _add_child h factory children depth name value
               else ret children) st) = Some f ->
  from_factory factory depth f.
Proof.
  destruct (0 <? depth) eqn:E; [|done].
  intros H. apply _add_child_failure in H as [st' H].
  split; [lia | eauto].
Qed.

Lemma InspectDict_loop_failure items children st f :
  failure_of (InspectDict_loop h max_items factory depth items children st) = Some f ->
  from_factory factory depth f.
Proof.
  revert children st. induction items as [|[key value] rest IH]; intros children st; [done|].
  cbn [InspectDict_loop]. intros H.
  apply failure_of_bind in H as [H | (c & st' & _ & H)].
  - by apply guarded_add_child_failure in H.
  - destruct (max_items <=? _); [done | eauto].
Qed.

Lemma InspectList_loop_failure items index children st f :
  failure_of (InspectList_loop h max_items factory depth index items children st) = Some f ->
  from_factory factory depth f.
Proof.
  revert index children st.
  induction items as [|item rest IH]; intros index children st; [done|].
  cbn [InspectList_loop]. intros H.
  apply failure_of_bind in H as [H | (c & st' & _ & H)].
  - by apply guarded_add_child_failure in H.
  - destruct (max_items <=? _); [done | eauto].
Qed.

Lemma InspectQuerySet_loop_failure items index children st f :
  0 < depth ->
  failure_of (InspectQuerySet_loop h factory depth index items children st) = Some f ->
  from_factory factory depth f.
Proof.
  intros Hd. revert index children st.
  induction items as [|item rest IH]; intros index children st; [done|].
  cbn [InspectQuerySet_loop]. intros H.
  apply failure_of_bind in H as [H | (c & st' & _ & H)]; [|eauto].
  apply _add_child_failure in H as [st' H]. split; eauto.
Qed.

Lemma InspectClass_loop_failure attrs children st f :
  failure_of (InspectClass_loop h factory depth attrs children st) = Some f ->
  own_failure f \/ from_factory factory depth f.
Proof.
  revert children st. induction attrs as [|[attr_name g] rest IH]; intros children st; [done|].
  cbn [InspectClass_loop]. destruct (PyStr.startswith _ _); [by eauto|].
  intros H. apply failure_of_bind in H as [H | (v & st' & _ & H)].
  - destruct g; simplify_eq/=. by left.
  - destruct (is_builtin_or_type h v); [by eauto|].
    destruct (do_not_call h v); [by eauto|].
    apply failure_of_bind in H as [H | (c & st'' & _ & H)]; [|by eauto].
    right. by apply guarded_add_child_failure in H.
Qed.

Lemma InspectDict_failure name obj items st f :
  failure_of (InspectDict h max_items factory name obj depth items st) = Some f ->
  from_factory factory depth f.
Proof.
  unfold InspectDict. intros H.
  apply failure_of_bind in H as [H | (c & st' & _ & H)]; [|done].
  by apply InspectDict_loop_failure in H.
Qed.

Lemma InspectList_failure name obj items st f :
  failure_of (InspectList h max_items factory name obj depth items st) = Some f ->
  from_factory factory depth f.
Proof.
  unfold InspectList. intros H.
  apply failure_of_bind in H as [H | (c & st' & _ & H)]; [|done].
  by apply InspectList_loop_failure in H.
Qed.

Lemma InspectQuerySet_failure name obj rows st f :
  failure_of (InspectQuerySet h max_items factory name obj depth rows st) = Some f ->
  own_failure f \/ from_factory factory depth f.
Proof.
  unfold InspectQuerySet. intros H.
  apply failure_of_bind in H as [H | (c & st' & _ & H)]; [|done].
  destruct (0 <? Z.of_nat (length rows)); [|done].
  destruct (0 <? depth) eqn:Hd; [|done]. cbn [andb] in H.
  apply failure_of_bind in H as [H | (q & st' & _ & H)].
  - unfold queryset_slice in H. destruct (max_items <? 0); simplify_eq/=. by left.
  - right. apply InspectQuerySet_loop_failure in H; [done | lia].
Qed.

Lemma InspectClass_failure name obj attrs st f :
  failure_of (InspectClass h factory name obj depth attrs st) = Some f ->
  own_failure f \/ from_factory factory depth f.
Proof.
  unfold InspectClass. intros H.
  apply failure_of_bind in H as [H | (c & st' & _ & H)]; [|done].
  by apply InspectClass_loop_failure in H.
Qed.

End LoopFailures.

Lemma inspect_factory_failure h max_items fuel name obj depth st f :
  failure_of (inspect_factory h max_items fuel name obj depth st) = Some f ->
  (f = FRaise DepthExceeded /\ depth <= 0)
  \/ (f = FOutOfFuel /\ (fuel < Z.to_nat depth)%nat)
  \/ own_failure f.
Proof.
  revert name obj depth st f.
  induction fuel as [|fuel IH]; intros name obj depth st f.
  - cbn [inspect_factory]. destruct (depth <=? 0) eqn:E.
    + intros [= <-]. left. split; [done | lia].
    + intros [= <-]. right; left. split; [done | lia].
  - cbn [inspect_factory]. destruct (depth <=? 0) eqn:E.
    { intros [= <-]. left. split; [done | lia]. }
    assert (Hsub : forall g, from_factory (inspect_factory h max_items fuel) (depth - 1) g ->
              (g = FOutOfFuel /\ (S fuel < Z.to_nat depth)%nat) \/ own_failure g).
    { intros g (Hd & n & v & st' & Hg).
      apply IH in Hg as [[_ ?] | [[-> ?] | ?]]; [lia | left; split; [done | lia] | by right]. }
    intros H. right.
    destruct obj as [|a]; [done|].
    destruct (h a) eqn:Ha; try done.
    + apply InspectDict_failure in H. by apply Hsub.
    + apply InspectList_failure in H. by apply Hsub.
    + apply InspectQuerySet_failure in H as [H | H]; [by right | by apply Hsub].
    + apply InspectClass_failure in H as [H | H]; [by right | by apply Hsub].
Qed.

(** ** The loops depend on the factory only through its calls at [depth] *)

Section LoopsAgree.

Context (h : heap) (max_items : Z).
Variables fa fb : string -> pyvalue -> Z -> M InspectBase.
Variable depth : Z.
Hypothesis agree : forall name value st, fa name value depth st = fb name value depth st.

Lemma _add_child_agree children name value st :
  _add_child h fa children depth name value st = _add_child h fb children depth name value st.
Proof.
  unfold _add_child. apply bind_ext; [done|]. intros [] st'; [done|].
  apply bind_ext; auto.
Qed.

Lemma InspectDict_loop_agree items children st :
  InspectDict_loop h max_items fa depth items children st
  = InspectDict_loop h max_items fb depth items children st.
Proof.
  revert children st. induction items as [|[key value] rest IH]; intros children st; [done|].
  cbn [InspectDict_loop]. apply bind_ext.
  - destruct (0 <? depth); [apply _add_child_agree | done].
  - intros c st'. destruct (max_items <=? _); auto.
Qed.

Lemma InspectList_loop_agree items index children st :
  InspectList_loop h max_items fa depth index items children st
  = InspectList_loop h max_items fb depth index items children st.
Proof.
  revert index children st.
  induction items as [|item rest IH]; intros index children st; [done|].
  cbn [InspectList_loop]. apply bind_ext.
  - destruct (0 <? depth); [apply _add_child_agree | done].
  - intros c st'. destruct (max_items <=? _); auto.
Qed.

Lemma InspectQuerySet_loop_agree items index children st :
  InspectQuerySet_loop h fa depth index items children st
  = InspectQuerySet_loop h fb depth index items children st.
Proof.
  revert index children st.
  induction items as [|item rest IH]; intros index children st; [done|].
  cbn [InspectQuerySet_loop]. apply bind_ext; [apply _add_child_agree | auto].
Qed.

Lemma InspectClass_loop_agree attrs children st :
  InspectClass_loop h fa depth attrs children st
  = InspectClass_loop h fb depth attrs children st.
Proof.
  revert children st. induction attrs as [|[attr_name g] rest IH]; intros children st; [done|].
  cbn [InspectClass_loop]. destruct (PyStr.startswith _ _); [done|].
  apply bind_ext; [done|]. intros v st'.
  destruct (is_builtin_or_type h v); [done|]. destruct (do_not_call h v); [done|].
  apply bind_ext; [|auto].
  destruct (0 <? depth); [apply _add_child_agree | done].
Qed.

End LoopsAgree.

(** Fuel beyond the depth budget changes nothing. *)
Lemma inspect_factory_fuel h max_items fuel1 fuel2 name obj depth st :
  (Z.to_nat depth <= fuel1)%nat -> (Z.to_nat depth <= fuel2)%nat ->
  inspect_factory h max_items fuel1 name obj depth st
  = inspect_factory h max_items fuel2 name obj depth st.
Proof.
  revert fuel2 name obj depth st.
  induction fuel1 as [|fuel1 IH]; intros fuel2 name obj depth st H1 H2.
  - assert (depth <= 0) by lia.
    destruct fuel2; cbn [inspect_factory]; by replace (depth <=? 0) with true by lia.
  - destruct (Z.leb_spec depth 0) as [Hle | Hgt].
    { destruct fuel2; cbn [inspect_factory]; by replace (depth <=? 0) with true by lia. }
    destruct fuel2 as [|fuel2]; [lia|].
    cbn [inspect_factory]. replace (depth <=? 0) with false by lia.
    assert (Hagree : forall n v st', inspect_factory h max_items fuel1 n v (depth - 1) st'
                                   = inspect_factory h max_items fuel2 n v (depth - 1) st').
    { intros. apply IH; lia. }
    destruct obj as [|a]; [done|]. destruct (h a); try done.
    + unfold InspectDict. apply bind_ext; [|done]. by apply InspectDict_loop_agree.
    + unfold InspectList. apply bind_ext; [|done]. by apply InspectList_loop_agree.
    + unfold InspectQuerySet. apply bind_ext; [|done].
      destruct (_ && _); [|done]. apply bind_ext; [done|].
      intros q st'. by apply InspectQuerySet_loop_agree.
    + unfold InspectClass. apply bind_ext; [|done]. by apply InspectClass_loop_agree.
Qed.

(** ** Loops that run with no depth left *)

Section NoDepthLeft.

Context (h : heap) (max_items : Z).
Variable factory : string -> pyvalue -> Z -> M InspectBase.
Variable depth : Z.
Hypothesis exhausted : depth <= 0.

Lemma InspectDict_loop_exhausted items children st :
  InspectDict_loop h max_items factory depth items children st = Done (children, st).
Proof.
  induction items as [|[key value] rest IH]; [done|].
  cbn [InspectDict_loop]. replace (0 <? depth) with false by lia.
  unfold bind, ret at 1. destruct (max_items <=? _); [done | apply IH].
Qed.

Lemma InspectList_loop_exhausted items index children st :
  InspectList_loop h max_items factory depth index items children st = Done (children, st).
Proof.
  revert index. induction items as [|item rest IH]; intros index; [done|].
  cbn [InspectList_loop]. replace (0 <? depth) with false by lia.
  unfold bind, ret at 1. destruct (max_items <=? _); [done | apply IH].
Qed.


End NoDepthLeft.

(** ** How many children the counted containers get *)

Section ChildCounts.

Context (h : heap) (max_items : Z).
Variable factory : string -> pyvalue -> Z -> M InspectBase.
Variable depth : Z.

Lemma _add_child_length children name value st children' st' :
  _add_child h factory children depth name value st = Done (children', st') ->
  length children' = S (length children).
Proof.
  unfold _add_child, bind.
  destruct (been_seen_before h value st) as [[[] st1]| |]; [| |done..].
  - intros [= <- _]. rewrite length_app. simpl. lia.
  - destruct (factory name value depth st1) as [[c st2]| |]; [|done..].
    intros [= <- _]. rewrite length_app. simpl. lia.
Qed.

Hypothesis descends : 0 < depth.

Lemma InspectDict_loop_length items children st children' st' :
  InspectDict_loop h max_items factory depth items children st = Done (children', st') ->
  items <> [] ->
  Z.of_nat (length children')
  = Z.max (Z.of_nat (length children) + 1)
          (Z.min max_items (Z.of_nat (length children) + Z.of_nat (length items))).
Proof.
  revert children st. induction items as [|[key value] rest IH]; intros children st; [done|].
  intros H _. cbn [InspectDict_loop] in H. replace (0 <? depth) with true in H by lia.
  unfold bind in H.
  destruct (_add_child _ _ _ _ _ _ _) as [[c st1]| |] eqn:E; [|done..].
  apply _add_child_length in E. cbn [length].
  destruct (Z.leb_spec max_items (Z.of_nat (length c))) as [Hle | Hgt].
  - injection H as <- _. lia.
  - destruct rest as [|item rest'].
    + injection H as <- _. cbn [length]. lia.
    + apply IH in H; [|done]. cbn [length] in *. lia.
Qed.

Lemma InspectList_loop_length items index children st children' st' :
  InspectList_loop h max_items factory depth index items children st = Done (children', st') ->
  Z.of_nat (length children')
  = Z.of_nat (length children)
    + Z.min (Z.of_nat (length items)) (Z.max (max_items - Z.of_nat index) 0 + 1).
Proof.
  revert index children st. induction items as [|item rest IH]; intros index children st.
  - intros [= <- _]. cbn [length]. lia.
  - intros H. cbn [InspectList_loop] in H. replace (0 <? depth) with true in H by lia.
    unfold bind in H.
    destruct (_add_child _ _ _ _ _ _ _) as [[c st1]| |] eqn:E; [|done..].
    apply _add_child_length in E. cbn [length].
    destruct (Z.leb_spec max_items (Z.of_nat index)) as [Hle | Hgt].
    + injection H as <- _. lia.
    + apply IH in H. lia.
Qed.

Lemma InspectQuerySet_loop_length items index children st children' st' :
  InspectQuerySet_loop h factory depth index items children st = Done (children', st') ->
  length children' = (length children + length items)%nat.
Proof.
  revert index children st. induction items as [|item rest IH]; intros index children st.
  - intros [= <- _]. cbn [length]. lia.
  - intros H. cbn [InspectQuerySet_loop] in H. unfold bind in H.
    destruct (_add_child _ _ _ _ _ _ _) as [[c st1]| |] eqn:E; [|done..].
    apply _add_child_length in E. apply IH in H. cbn [length]. lia.
Qed.

(** A [dict] with [K > max_items >= 0] entries gets [max_items] children,
    but one child when [max_items] is 0. *)
Lemma InspectDict_child_count name obj items st node st' :
  InspectDict h max_items factory name obj depth items st = Done (node, st') ->
  0 <= max_items < Z.of_nat (length items) ->
  Z.of_nat (length (_children node)) = Z.max 1 max_items
  /\ get_total_children node = Some (Z.of_nat (length items)).
Proof.
  unfold InspectDict, bind.
  destruct (InspectDict_loop _ _ _ _ _ _ _) as [[c st1]| |] eqn:E; [|done..].
  intros [= <- _] HK. split; [|done]. cbn [_children].
  destruct items as [|item rest].
  - cbn [InspectDict_loop] in E. injection E as <- _. cbn [length] in *. lia.
  - apply InspectDict_loop_length in E; [|done]. cbn [length] in *. lia.
Qed.

(** A [list] with [K > max_items >= 0] entries gets [max_items + 1]
    children. *)
Lemma InspectList_child_count name obj items st node st' :
  InspectList h max_items factory name obj depth items st = Done (node, st') ->
  0 <= max_items < Z.of_nat (length items) ->
  Z.of_nat (length (_children node)) = max_items + 1
  /\ get_total_children node = Some (Z.of_nat (length items)).
Proof.
  unfold InspectList, bind.
  destruct (InspectList_loop _ _ _ _ _ _ _ _) as [[c st1]| |] eqn:E; [|done..].
  intros [= <- _] HK. split; [|done]. cbn [_children].
  apply InspectList_loop_length in E. cbn [length] in E. lia.
Qed.

(** A [QuerySet] with [K > max_items >= 0] rows gets [max_items]
    children. *)
Lemma InspectQuerySet_child_count name obj rows st node st' :
  InspectQuerySet h max_items factory name obj depth rows st = Done (node, st') ->
  0 <= max_items < Z.of_nat (length rows) ->
  Z.of_nat (length (_children node)) = max_items
  /\ get_total_children node = Some (Z.of_nat (length rows)).
Proof.
  unfold InspectQuerySet, bind. intros H HK.
  replace (0 <? Z.of_nat (length rows)) with true in H by lia.
  replace (0 <? depth) with true in H by lia. cbn [andb] in H.
  unfold queryset_slice in H. replace (max_items <? 0) with false in H by lia.
  cbn [ret] in H.
  destruct (InspectQuerySet_loop _ _ _ _ _ _ _) as [[c st1]| |] eqn:E; [|done..].
  injection H as <- _. split; [|done]. cbn [_children].
  apply InspectQuerySet_loop_length in E. rewrite length_take in E. cbn [length] in E. lia.
Qed.

End ChildCounts.

(** ** Revisited objects *)

Section Revisits.

Context (h : heap).
Variable factory : string -> pyvalue -> Z -> M InspectBase.

(** [None] and the whitelisted types are never registered. *)
Lemma been_seen_before_simple obj processed :
  is_simple h obj = true -> been_seen_before h obj processed = Done (false, processed).
Proof. unfold been_seen_before. by intros ->. Qed.

(** The first visit of any other object registers its [id]. *)
Lemma been_seen_before_first obj processed :
  is_simple h obj = false -> processed !! py_id obj = None ->
  been_seen_before h obj processed = Done (false, <[py_id obj := true]> processed).
Proof. unfold been_seen_before. by intros -> ->. Qed.

Lemma been_seen_before_again obj processed b :
  is_simple h obj = false -> processed !! py_id obj = Some b ->
  been_seen_before h obj processed = Done (true, processed).
Proof. unfold been_seen_before. by intros -> ->. Qed.

(** An object other than [None] does not have the [id] of [None]. *)
Lemma py_id_None obj : is_simple h obj = false -> py_id obj <> py_id VNone.
Proof. destruct obj; [done|]. cbn [py_id]. lia. Qed.

(** A revisited object becomes an [InspectDuplicate] built from [None]: the
    factory is not called, the node has no children, and its link is the
    [id] of [None], which is not the [id] of the object. *)
Lemma _add_child_revisit children depth name value processed b :
  is_simple h value = false -> processed !! py_id value = Some b ->
  exists dup,
    _add_child h factory children depth name value processed
      = Done (children ++ [dup], processed)
    /\ dup = InspectDuplicate name VNone depth
    /\ get_children dup = None
    /\ get_format_link_to dup = Some (py_id VNone)
    /\ get_format_link_to dup <> Some (py_id value).
Proof.
  intros Hs Hp. eexists. split; [|split; [reflexivity|]].
  - unfold _add_child. by rewrite (bind_Done _ _ _ _ _ (been_seen_before_again _ _ _ Hs Hp)).
  - repeat split. cbn. intros [= E]. by apply (py_id_None _ Hs).
Qed.

End Revisits.

(** A node that the factory returns has one unit of depth less than the
    call. *)
Lemma inspect_factory_depth h max_items fuel name obj depth st node st' :
  inspect_factory h max_items fuel name obj depth st = Done (node, st') ->
  _depth node = depth - 1 /\ _name node = name /\ _obj node = obj.
Proof.
  destruct fuel as [|fuel]; cbn [inspect_factory]; destruct (depth <=? 0); try done.
  destruct obj as [|a]; [by intros [= <- _]|].
  destruct (h a); try (by intros [= <- _]).
  - unfold InspectDict, bind. destruct (InspectDict_loop _ _ _ _ _ _ _) as [[c st1]| |]; [|done..].
    by intros [= <- _].
  - unfold InspectList, bind. destruct (InspectList_loop _ _ _ _ _ _ _ _) as [[c st1]| |]; [|done..].
    by intros [= <- _].
  - unfold InspectQuerySet. intros H.
    destruct (_ && _); unfold bind in H.
    + destruct (queryset_slice max_items rows st) as [[q st0]| |]; [|done..].
      destruct (InspectQuerySet_loop _ _ _ _ _ _ _) as [[c st1]| |]; [|done..].
      by injection H as <- _.
    + by injection H as <- _.
  - unfold InspectClass, bind. destruct (InspectClass_loop _ _ _ _ _ _) as [[c st1]| |]; [|done..].
    by intros [= <- _].
Qed.

(** [InspectPartial] gives every parameter a value, so
    [InspectPartial.get_format_value] never prints a bare name. *)
Lemma partial_parameters_never_bare h bound_args bound_kwargs i params :
  Forall (fun p : string * option string => is_Some p.2)
         (partial_parameters h bound_args bound_kwargs i params).
Proof.
  revert i. induction params as [|p rest IH]; intros i; [constructor|].
  cbn [partial_parameters]. constructor; [by eexists | apply IH].
Qed.

(** * The claims *)

(** ** Termination and the depth error *)

(** The manager fails exactly as its call of the factory does. *)
Lemma InspectionManager_fuel_failure fuel h name obj max_depth max_items :
  failure_of (InspectionManager_fuel fuel h name obj max_depth max_items)
  = failure_of (inspect_factory h max_items fuel name obj (max_depth + 1) ∅).
Proof.
  unfold InspectionManager_fuel. by destruct (inspect_factory _ _ _ _ _ _ _) as [[b p]| |].
Qed.

(** C1: whatever the object graph, cyclic or not, building the tree of
    [InspectionManager(name, value, max_depth, max_items)] terminates: the
    nesting of [inspect_factory] calls never exceeds [max_depth + 1], so the
    run with that much fuel, or any more, ends by returning or raising, and
    more fuel does not change what it ends with. *)
Theorem inspection_terminates (h : heap) (name : string) (obj : pyvalue)
    (max_depth max_items : Z) (fuel : nat) :
  (Z.to_nat (max_depth + 1) <= fuel)%nat ->
  InspectionManager_fuel fuel h name obj max_depth max_items
  = InspectionManager h name obj max_depth max_items
  /\ InspectionManager h name obj max_depth max_items <> OutOfFuel.
Proof.
  intros Hfuel. split.
  - unfold InspectionManager, InspectionManager_fuel.
    by rewrite (inspect_factory_fuel h max_items fuel (Z.to_nat (max_depth + 1))).
  - intros E.
    assert (H : failure_of (InspectionManager h name obj max_depth max_items) = Some FOutOfFuel)
      by (by rewrite E).
    unfold InspectionManager in H. rewrite InspectionManager_fuel_failure in H.
    apply inspect_factory_failure in H as [[? _] | [[_ ?] | ?]]; [done | lia | done].
Qed.

Lemma inspection_terminates_witness :
  (Z.to_nat (2 + 1) <= 7)%nat
  /\ (InspectionManager_fuel 7 Samples.self_dict "x" (VRef 1) 2 5
      = InspectionManager Samples.self_dict "x" (VRef 1) 2 5
      /\ InspectionManager Samples.self_dict "x" (VRef 1) 2 5 <> OutOfFuel).
Proof.
  split; [vm_compute; lia | apply inspection_terminates; vm_compute; lia].
Defined.

(** C9: [inspect_factory] raises its depth error exactly when it is called
    with a depth of zero or less, and a manager built with
    [max_depth >= 0] never raises it: no call of the factory made during the
    run has such a depth. *)
Theorem depth_error_only_without_depth (h : heap) (max_items : Z) (fuel : nat)
    (name : string) (obj : pyvalue) (depth : Z) (st : gmap Z bool)
    (root_name : string) (root : pyvalue) (max_depth : Z) :
  0 <= max_depth ->
  (inspect_factory h max_items fuel name obj depth st = Raise DepthExceeded <-> depth <= 0)
  /\ InspectionManager h root_name root max_depth max_items <> Raise DepthExceeded.
Proof.
  intros Hmax. split; [split|].
  - intros E.
    assert (H : failure_of (inspect_factory h max_items fuel name obj depth st)
                = Some (FRaise DepthExceeded)) by (by rewrite E).
    apply inspect_factory_failure in H as [[_ ?] | [[? _] | ?]]; done.
  - intros Hd. destruct fuel; cbn [inspect_factory]; by replace (depth <=? 0) with true by lia.
  - intros E.
    assert (H : failure_of (InspectionManager h root_name root max_depth max_items)
                = Some (FRaise DepthExceeded)) by (by rewrite E).
    unfold InspectionManager in H. rewrite InspectionManager_fuel_failure in H.
    apply inspect_factory_failure in H as [[_ ?] | [[? _] | ?]]; [lia | done | done].
Qed.

Lemma depth_error_only_without_depth_witness :
  0 <= 2
  /\ ((inspect_factory Samples.self_dict 5 3 "self" (VRef 1) 0 ∅ = Raise DepthExceeded <-> 0 <= 0)
      /\ InspectionManager Samples.self_dict "x" (VRef 1) 2 5 <> Raise DepthExceeded).
Proof.
  split; [lia | apply depth_error_only_without_depth; lia].
Defined.

(** ** Simple values *)

Lemma chars_app (a b : string) : chars (a +:+ b) = chars a ++ chars b.
Proof. induction a as [|c a IH]; [done|]. rewrite append_cons. simpl. by rewrite IH. Qed.

Lemma chars_mul_star n : Forall (fun c => c = "*"%char) (chars (PyStr.mul "*" n)).
Proof. induction n as [|n IH]; [constructor|]. rewrite mul_star_S. by constructor. Qed.

(** The test [["password" in name.lower()]] holds when the name holds
    the word in some mix of cases. *)
Lemma contains_password_any_case (name pre word post : string) :
  name = pre +:+ word +:+ post -> PyStr.lower word = "password" ->
  PyStr.contains "password" (PyStr.lower name) = true.
Proof.
  intros -> Hw. rewrite !lower_app, Hw. apply contains_intro.
Qed.

(** What [inspect_factory] does with [None] and the whitelisted types. *)
Lemma inspect_factory_simple h max_items fuel name obj depth st :
  is_simple h obj = true -> 0 < depth ->
  inspect_factory h max_items (S fuel) name obj depth st
  = Done (InspectSimpleType name obj (depth - 1) (str_simple h obj), st).
Proof.
  intros Hs Hd. cbn [inspect_factory]. replace (depth <=? 0) with false by lia.
  destruct obj as [|a]; [done|].
  unfold is_simple, str_simple in *. cbn [isinstance_WHITELIST] in *.
  by destruct (h a).
Qed.

(** C6: a string value whose field name holds "password" in any mix of
    letter cases is shown as a double-quoted run of as many stars as the
    value has characters; the text is made of stars and the two quotes
    only. *)
Theorem password_value_is_masked (h : heap) (max_items : Z) (fuel : nat)
    (name : string) (a : positive) (s : string) (depth : Z) (st : gmap Z bool)
    (pre word post : string) :
  h a = OScalar (SStr s) -> 0 < depth ->
  name = pre +:+ word +:+ post -> PyStr.lower word = "password" ->
  exists node,
    inspect_factory h max_items (S fuel) name (VRef a) depth st = Done (node, st)
    /\ class_name (_class node) = "InspectSimpleType"
    /\ get_format_value node
       = PyStr.dquote +:+ PyStr.mul "*" (String.length s) +:+ PyStr.dquote
    /\ String.length (get_format_value node) = (String.length s + 2)%nat
    /\ Forall (fun c => c = "*"%char \/ c = "034"%char) (chars (get_format_value node)).
Proof.
  intros Ha Hd Hname Hword.
  assert (Hs : is_simple h (VRef a) = true).
  { unfold is_simple. cbn [isinstance_WHITELIST]. by rewrite Ha. }
  assert (Hv : get_format_value (InspectSimpleType name (VRef a) (depth - 1) s)
               = PyStr.dquote +:+ PyStr.mul "*" (String.length s) +:+ PyStr.dquote).
  { unfold get_format_value. cbn [_class _name InspectSimpleType].
    by rewrite (contains_password_any_case _ _ _ _ Hname Hword). }
  exists (InspectSimpleType name (VRef a) (depth - 1) s). split.
  { rewrite (inspect_factory_simple _ _ _ _ _ _ _ Hs Hd).
    unfold str_simple. cbn [isinstance_WHITELIST]. by rewrite Ha. }
  rewrite Hv. split; [done|]. split; [done|]. split.
  - rewrite !length_append, length_mul_star. cbn. lia.
  - rewrite !chars_app. apply Forall_app. split; [by repeat constructor; right|].
    apply Forall_app. split; [|by repeat constructor; right].
    eapply Forall_impl; [apply chars_mul_star|]. by left.
Qed.

Lemma password_value_is_masked_witness :
  Samples.zoo 4%positive = OScalar (SStr "abc") /\ 0 < 1
  /\ "Password" = "" +:+ "Password" +:+ "" /\ PyStr.lower "Password" = "password"
  /\ exists node,
      inspect_factory Samples.zoo 5 1 "Password" (VRef 4) 1 ∅ = Done (node, ∅)
      /\ class_name (_class node) = "InspectSimpleType"
      /\ get_format_value node
         = PyStr.dquote +:+ PyStr.mul "*" (String.length "abc") +:+ PyStr.dquote
      /\ String.length (get_format_value node) = (String.length "abc" + 2)%nat
      /\ Forall (fun c => c = "*"%char \/ c = "034"%char) (chars (get_format_value node)).
Proof.
  split; [reflexivity|]. split; [lia|]. split; [reflexivity|]. split; [reflexivity|].
  apply (password_value_is_masked Samples.zoo 5 0 "Password" 4 "abc" 1 ∅ "" "Password" "");
    [reflexivity | lia | reflexivity | reflexivity].
Defined.




(** What the code does with a value that is not a [str]: [__init__] stores
    [str(obj)], so 5 and [None] are quoted like strings, where the docstring
    of [get_format_value] has them returned without quotes. *)
Example scalar_value_of_5_and_None :
  get_format_value (InspectSimpleType "count" (VRef 11) 0 (str_simple Samples.zoo (VRef 11)))
  = PyStr.dquote +:+ "5" +:+ PyStr.dquote
  /\ get_format_value (InspectSimpleType "owner" VNone 0 (str_simple Samples.zoo VNone))
     = PyStr.dquote +:+ "None" +:+ PyStr.dquote.
Proof. split; reflexivity. Qed.

(** ** Revisits and the root *)

(** C2, on [x = {}; x["self"] = x] with [max_depth = 2]: the object is met a
    third time under the node [first] of its second visit; the node made
    there is an [InspectDuplicate] without children, but its link is the
    [id] of [None] (0), not the [id] that the nodes of [x] report (1). *)
Theorem duplicate_link_on_self_dict :
  exists first dup processed,
    InspectionManager Samples.self_dict "x" (VRef 1) 2 5
    = Done (Manager (VRef 1) processed 5 (Inspect [first] 2 "x" (VRef 1) (IsDict 1)))
    /\ processed !! py_id (VRef 1) = Some true
    /\ _children first = [dup]
    /\ get_format_id first = py_id (VRef 1)
    /\ class_name (_class dup) = "InspectDuplicate"
    /\ get_children dup = None
    /\ get_format_link_to dup = Some (py_id VNone)
    /\ get_format_link_to dup <> Some (get_format_id first).
Proof.
  exists (Inspect [InspectDuplicate "self" VNone 1] 1 "self" (VRef 1) (IsDict 1)),
         (InspectDuplicate "self" VNone 1), {[ 1 := true ]}.
  split; [by vm_compute|]. repeat (split; [reflexivity|]). vm_compute. discriminate.
Qed.

(** C3, on the same input: the root is not registered when its children
    are classified (the first check of [x] finds the set empty), so the
    child "self" of the root is a second [InspectDict] for [x], not a
    duplicate. *)
Theorem root_is_expanded_twice_on_self_dict :
  exists child processed,
    InspectionManager Samples.self_dict "x" (VRef 1) 2 5
    = Done (Manager (VRef 1) processed 5 (Inspect [child] 2 "x" (VRef 1) (IsDict 1)))
    /\ been_seen_before Samples.self_dict (VRef 1) ∅ = Done (false, processed)
    /\ _name child = "self"
    /\ class_name (_class child) = "InspectDict"
    /\ get_format_id child = py_id (VRef 1)
    /\ get_format_link_to child = None
    /\ (length <$> get_children child) = Some 1%nat.
Proof.
  exists (Inspect [InspectDuplicate "self" VNone 1] 1 "self" (VRef 1) (IsDict 1)),
         {[ 1 := true ]}.
  split; [by vm_compute|]. split; [by vm_compute|]. repeat split.
Qed.

(** ** Breadth *)

(** C4, on the list [[10, 20, "abc"]] with [max_items = 1] and
    [max_depth = 1]: the node counts 3 entries and has 2 children, one more
    than [max_items]. *)
Theorem list_breadth_on_sample :
  exists base processed,
    InspectionManager Samples.zoo "l" (VRef 1) 1 1
    = Done (Manager (VRef 1) processed 1 base)
    /\ class_name (_class base) = "InspectList"
    /\ get_total_children base = Some 3
    /\ (length <$> get_children base) = Some 2%nat
    /\ (_name <$> _children base) = ["0"; "1"].
Proof.
  eexists _, _. split; [vm_compute; reflexivity|]. repeat split.
Qed.

(** The same budget on the [dict] and the [QuerySet] of the same three
    entries gives one child; a [dict] with [max_items = 0] also gets one. *)
Example dict_and_queryset_breadth_on_sample :
  exists d q d0 pd pq pd0,
    InspectionManager Samples.zoo "d" (VRef 5) 1 1 = Done (Manager (VRef 5) pd 1 d)
    /\ InspectionManager Samples.zoo "q" (VRef 6) 1 1 = Done (Manager (VRef 6) pq 1 q)
    /\ InspectionManager Samples.zoo "d" (VRef 5) 1 0 = Done (Manager (VRef 5) pd0 0 d0)
    /\ (_name <$> _children d) = ["a"]
    /\ (_name <$> _children q) = ["0"]
    /\ (_name <$> _children d0) = ["a"].
Proof.
  eexists _, _, _, _, _, _. repeat (split; [vm_compute; reflexivity|]). reflexivity.
Qed.

(** ** Containers reached with no depth left *)




(** ** Partial calls *)

(** C7, on [partial(f, 10, c=[...])] for [def f(a, b, c, d)]: the title is
    as claimed, but the parameters [b] and [d], which the partial does not
    bind, are shown as [b=(complex)] and [d=(complex)], not as bare names.
    On [partial(f, None)] for [def f(a, b)], the bound [None] is shown as
    [(complex)] too. *)
Theorem partial_value_on_sample :
  exists node other,
    inspect_factory Samples.zoo 5 1 "p" (VRef 7) 1 ∅ = Done (node, ∅)
    /\ class_name (_class node) = "InspectPartial"
    /\ get_format_title node = "p(...) -> f"
    /\ get_format_value node = "a=10, b=(complex), c=(complex), d=(complex)"
    /\ get_format_value node <> "a=10, b, c=(complex), d"
    /\ inspect_factory Samples.zoo 5 1 "p" (VRef 10) 1 ∅ = Done (other, ∅)
    /\ get_format_value other = "a=(complex), b=(complex)".
Proof.
  eexists _, _. split; [vm_compute; reflexivity|].
  do 3 (split; [reflexivity|]). split; [vm_compute; discriminate|].
  split; [vm_compute; reflexivity | reflexivity].
Qed.

(** ** Attributes that raise *)

(** A getter that raises anything but [AttributeError] ends the constructor,
    whatever the attributes after it; one that raises [AttributeError] is
    read as [None], and the message is dropped. *)
Lemma InspectClass_loop_raises h factory depth attr_name msg rest children st :
  PyStr.startswith attr_name "_" = false ->
  InspectClass_loop h factory depth ((attr_name, RaisesOther msg) :: rest) children st
  = Raise (AttributeRaised msg).
Proof. intros Hn. cbn [InspectClass_loop]. by rewrite Hn. Qed.

Lemma InspectClass_loop_AttributeError h factory depth attr_name msg rest children st :
  InspectClass_loop h factory depth ((attr_name, RaisesAttributeError msg) :: rest) children st
  = InspectClass_loop h factory depth ((attr_name, Gives VNone) :: rest) children st.
Proof. reflexivity. Qed.

(** C8, on an instance whose attribute [a] raises: when the getter raises
    anything but [AttributeError], the exception leaves the inspection and no
    tree is built, although the attribute [b] could be read; when it raises
    [AttributeError], the child [a] is there and so is its sibling, but its
    text is that of [None], without the message. *)
Theorem raising_attribute_on_sample :
  InspectionManager Samples.zoo "o" (VRef 8) 1 5 = Raise (AttributeRaised "boom")
  /\ exists base processed,
      InspectionManager Samples.zoo "o" (VRef 9) 1 5
      = Done (Manager (VRef 9) processed 5 base)
      /\ (_name <$> _children base) = ["a"; "b"]
      /\ (get_format_value <$> _children base)
         = [PyStr.dquote +:+ "None" +:+ PyStr.dquote;
            PyStr.dquote +:+ "20" +:+ PyStr.dquote].
Proof.
  split; [by vm_compute|].
  eexists _, _. split; [vm_compute; reflexivity|]. split; reflexivity.
Qed.

(** * Further properties of the inspection *)

(** ** The loops do what their lists of actions say *)

Lemma bind_ext_Done {A B} (c : M A) (k k' : A -> M B) st :
  (forall a st', c st = Done (a, st') -> k a st' = k' a st') ->
  bind c k st = bind c k' st.
Proof. unfold bind. destruct (c st) as [[a st']| |]; auto. Qed.

Section NormalForms.

Context (h : heap) (max_items : Z).
Variable factory : string -> pyvalue -> Z -> M InspectBase.
Variable depth : Z.

Lemma guarded_add_child_length children name value st children' st' :
  (if 0 <? depth then _add_child h factory children depth name value
   else ret children) st = Done (children', st') ->
  length children' = (if 0 <? depth then S (length children) else length children).
Proof.
  destruct (0 <? depth).
  - apply _add_child_length.
  - by intros [= <- _].
Qed.

(** With no depth left the [Add] actions do nothing. *)
Lemma run_actions_dict_exhausted n items children st :
  depth <= 0 ->
  run_actions h factory depth (map (fun kv : string * pyvalue => Add kv.1 kv.2) (take n items))
    children st = Done (children, st).
Proof.
  intros Hd. revert n. induction items as [|[k v] rest IH]; intros [|n]; try done.
  cbn [take map run_actions fst snd]. replace (0 <? depth) with false by lia.
  unfold bind, ret at 1. apply IH.
Qed.

Lemma run_actions_enumerate_exhausted index items children st :
  depth <= 0 ->
  run_actions h factory depth (enumerate index items) children st = Done (children, st).
Proof.
  intros Hd. revert index. induction items as [|item rest IH]; intros index; [done|].
  cbn [enumerate run_actions]. replace (0 <? depth) with false by lia.
  unfold bind, ret at 1. apply IH.
Qed.

Lemma InspectDict_loop_actions items children st :
  InspectDict_loop h max_items factory depth items children st
  = run_actions h factory depth (dict_actions max_items (length children) items) children st.
Proof.
  destruct (Z.leb_spec depth 0) as [Hd | Hd].
  { rewrite InspectDict_loop_exhausted by done.
    unfold dict_actions. by rewrite run_actions_dict_exhausted. }
  revert children st. induction items as [|[key value] rest IH]; intros children st.
  { unfold dict_actions. by rewrite take_nil. }
  unfold dict_actions.
  destruct (Z.to_nat (Z.max 1 (max_items - Z.of_nat (length children)))) as [|n] eqn:En; [lia|].
  cbn [InspectDict_loop take map run_actions fst snd].
  apply bind_ext_Done. intros c st' Hc.
  apply guarded_add_child_length in Hc. replace (0 <? depth) with true in Hc by lia.
  destruct (Z.leb_spec max_items (Z.of_nat (length c))) as [Hle | Hgt].
  - replace n with O by lia. by rewrite take_0.
  - rewrite IH. unfold dict_actions. do 3 f_equal. lia.
Qed.

Lemma InspectList_loop_actions items index children st :
  InspectList_loop h max_items factory depth index items children st
  = run_actions h factory depth (list_actions max_items index items) children st.
Proof.
  destruct (Z.leb_spec depth 0) as [Hd | Hd].
  { rewrite InspectList_loop_exhausted by done.
    unfold list_actions. by rewrite run_actions_enumerate_exhausted. }
  revert index children st. induction items as [|item rest IH]; intros index children st.
  { unfold list_actions. by rewrite take_nil. }
  unfold list_actions. rewrite Nat.add_1_r.
  cbn [InspectList_loop take enumerate run_actions].
  apply bind_ext_Done. intros c st' Hc.
  destruct (Z.leb_spec max_items (Z.of_nat index)) as [Hle | Hgt].
  - replace (Z.to_nat _) with O by lia. by rewrite take_0.
  - rewrite IH. unfold list_actions. do 3 f_equal. lia.
Qed.

Lemma InspectQuerySet_loop_actions items index children st :
  0 < depth ->
  InspectQuerySet_loop h factory depth index items children st
  = run_actions h factory depth (enumerate index items) children st.
Proof.
  intros Hd. revert index children st.
  induction items as [|item rest IH]; intros index children st; [done|].
  cbn [InspectQuerySet_loop enumerate run_actions]. replace (0 <? depth) with true by lia.
  apply bind_ext; [done|]. intros c st'. apply IH.
Qed.

Lemma run_actions_app acts1 acts2 children st :
  run_actions h factory depth (acts1 ++ acts2) children st
  = bind (run_actions h factory depth acts1 children)
         (run_actions h factory depth acts2) st.
Proof.
  revert children st. induction acts1 as [|[name value | e] rest IH]; intros children st.
  - done.
  - cbn [app run_actions]. unfold bind, ret.
    destruct (0 <? depth); [|apply IH].
    destruct (_add_child _ _ _ _ _ _ st) as [[c st']| |]; [apply IH | done..].
  - done.
Qed.

Lemma InspectClass_loop_actions attrs children st :
  InspectClass_loop h factory depth attrs children st
  = run_actions h factory depth (class_actions h attrs) children st.
Proof.
  revert children st. induction attrs as [|[attr_name g] rest IH]; intros children st; [done|].
  unfold class_actions. cbn [flat_map]. fold (class_actions h rest).
  rewrite run_actions_app. unfold attr_actions. cbn [fst snd InspectClass_loop].
  destruct (PyStr.startswith attr_name "_"); [apply IH|].
  destruct g as [v | msg | msg]; cbn [getattr_or_None]; unfold bind at 1, ret at 1.
  - destruct (is_builtin_or_type h v); [apply IH|].
    destruct (do_not_call h v); [apply IH|]. cbn [orb run_actions].
    unfold bind, ret.
    destruct (0 <? depth); [|apply IH].
    destruct (_add_child _ _ _ _ _ _ st) as [[c st']| |]; [apply IH | done..].
  - cbn [is_builtin_or_type do_not_call run_actions]. unfold bind, ret.
    destruct (0 <? depth); [|apply IH].
    destruct (_add_child _ _ _ _ _ _ st) as [[c st']| |]; [apply IH | done..].
  - done.
Qed.

End NormalForms.

(** [inspect_factory] in one equation: it runs the actions of the object at
    the depth of the new node and puts the children into a node of the
    object's class. *)
Lemma inspect_factory_actions h max_items fuel name obj depth st :
  0 < depth ->
  inspect_factory h max_items (S fuel) name obj depth st
  = bind (run_actions h (inspect_factory h max_items fuel) (depth - 1)
            (actions_of h max_items (depth - 1) obj) [])
         (fun children => ret (Inspect children (depth - 1) name obj (class_of h obj))) st.
Proof.
  intros Hd. cbn [inspect_factory]. replace (depth <=? 0) with false by lia.
  destruct obj as [|a]; [done|].
  unfold actions_of, class_of.
  destruct (h a) as [s | ps | fn fps args kw | items | items | rows | k cls flag attrs];
    try done.
  - unfold InspectDict. apply bind_ext; [|done]. apply InspectDict_loop_actions.
  - unfold InspectList. apply bind_ext; [|done]. apply InspectList_loop_actions.
  - unfold InspectQuerySet, queryset_actions. apply bind_ext; [|done].
    destruct (0 <? Z.of_nat (length rows)); [|done].
    destruct (Z.ltb_spec 0 (depth - 1)) as [Hd1 | Hd1]; [|done]. cbn [andb].
    unfold queryset_slice. destruct (max_items <? 0); [done|].
    unfold bind at 1, ret at 1. by apply InspectQuerySet_loop_actions.
  - unfold InspectClass. apply bind_ext; [|done]. apply InspectClass_loop_actions.
Qed.

(** ** Where the children of a node come from *)

Section ActionsChildren.

Context (h : heap).
Variable factory : string -> pyvalue -> Z -> M InspectBase.
Variable depth : Z.

Lemma _add_child_made_by children name value st children' st' :
  _add_child h factory children depth name value st = Done (children', st') ->
  exists child, children' = children ++ [child] /\ made_by factory depth (name, value) child.
Proof.
  unfold _add_child, bind.
  destruct (been_seen_before h value st) as [[[] st1]| |]; [| |done..].
  - intros [= <- _]. eexists. split; [done|]. by left.
  - destruct (factory name value depth st1) as [[c st2]| |] eqn:E; [|done..].
    intros [= <- _]. eexists. split; [done|]. right. eauto.
Qed.

(** With depth left, a run that returns has appended one child for each
    [Add], in order. *)
Lemma run_actions_children acts children st children' st' :
  0 < depth ->
  run_actions h factory depth acts children st = Done (children', st') ->
  exists new, children' = children ++ new /\ Forall2 (made_by factory depth) (added acts) new.
Proof.
  intros Hd. revert children st.
  induction acts as [|[name value | e] rest IH]; intros children st.
  - intros [= <- _]. exists []. split; [by rewrite app_nil_r | constructor].
  - cbn [run_actions]. replace (0 <? depth) with true by lia. unfold bind.
    destruct (_add_child _ _ _ _ _ _ _) as [[c st1]| |] eqn:E; [|done..].
    intros H. apply _add_child_made_by in E as (child & -> & Hchild).
    apply IH in H as (new & -> & Hnew).
    exists (child :: new). split; [by rewrite <- app_assoc|]. by constructor.
  - done.
Qed.

(** With no depth left, a run that returns has changed nothing. *)
Lemma run_actions_no_depth acts children st children' st' :
  depth <= 0 ->
  run_actions h factory depth acts children st = Done (children', st') ->
  children' = children /\ st' = st.
Proof.
  intros Hd. revert children st.
  induction acts as [|[name value | e] rest IH]; intros children st.
  - by intros [= <- <-].
  - cbn [run_actions]. replace (0 <? depth) with false by lia. apply IH.
  - done.
Qed.

End ActionsChildren.

Lemma tree_all_unfold P children depth name obj cls :
  tree_all P (Inspect children depth name obj cls)
  <-> P (Inspect children depth name obj cls) /\ Forall (tree_all P) children.
Proof.
  cbn [tree_all]. apply and_iff_compat_l.
  induction children as [|c cs IH]; [by split; [constructor|]|].
  rewrite Forall_cons, IH. done.
Qed.

Lemma tree_all_impl (P Q : InspectBase -> Prop) node :
  (forall n, P n -> Q n) -> tree_all P node -> tree_all Q node.
Proof.
  intros HPQ. revert node. fix IH 1. intros [children depth name obj cls].
  cbn [tree_all]. intros [HP Hcs]. split; [by apply HPQ|]. clear HP.
  induction children as [|c cs IHcs]; [done|].
  destruct Hcs as [Hc Hcs]. split; [by apply IH | by apply IHcs].
Qed.

Lemma tree_all_root P node : tree_all P node -> P node.
Proof. destruct node. rewrite tree_all_unfold. tauto. Qed.

(** The shape of a node that the factory returns. *)
Lemma inspect_factory_node h max_items fuel name obj depth st node st' :
  inspect_factory h max_items fuel name obj depth st = Done (node, st') ->
  0 < depth
  /\ exists fuel' children,
      fuel = S fuel'
      /\ node = Inspect children (depth - 1) name obj (class_of h obj)
      /\ (depth - 1 <= 0 -> children = [] /\ st' = st)
      /\ (0 < depth - 1 ->
          Forall2 (made_by (inspect_factory h max_items fuel') (depth - 1))
                  (added (actions_of h max_items (depth - 1) obj)) children)
      /\ run_actions h (inspect_factory h max_items fuel') (depth - 1)
           (actions_of h max_items (depth - 1) obj) [] st = Done (children, st').
Proof.
  intros H.
  assert (Hd : 0 < depth).
  { destruct (Z.leb_spec depth 0) as [Hd | Hd]; [|done].
    destruct fuel; cbn [inspect_factory] in H; by replace (depth <=? 0) with true in H by lia. }
  split; [done|].
  destruct fuel as [|fuel'].
  { cbn [inspect_factory] in H. by replace (depth <=? 0) with false in H by lia. }
  rewrite inspect_factory_actions in H by done. unfold bind in H.
  destruct (run_actions _ _ _ _ _ _) as [[children st1]| |] eqn:E; [|done..].
  injection H as <- <-. exists fuel', children. repeat split; try done.
  - by apply run_actions_no_depth in E as [-> _].
  - by apply run_actions_no_depth in E as [_ ->].
  - intros Hd1. by apply run_actions_children in E as (new & -> & Hnew).
Qed.

(** A property of the nodes that depends on the depth of the call: when it
    holds of every node that the factory returns and of every duplicate, and
    goes from a depth to the next, it holds throughout the tree. *)
Lemma inspect_factory_tree_all h max_items (Q : Z -> InspectBase -> Prop) :
  (forall fuel name obj depth st node st',
     inspect_factory h max_items fuel name obj depth st = Done (node, st') -> Q depth node) ->
  (forall name depth, 1 < depth -> Q depth (InspectDuplicate name VNone (depth - 1))) ->
  (forall depth node, Q (depth - 1) node -> Q depth node) ->
  forall fuel name obj depth st node st',
    inspect_factory h max_items fuel name obj depth st = Done (node, st') ->
    tree_all (Q depth) node.
Proof.
  intros Hnode Hdup Hmono. induction fuel as [|fuel IH]; intros name obj depth st node st' H.
  { by apply inspect_factory_node in H as (_ & ? & ? & ? & _). }
  pose proof (Hnode _ _ _ _ _ _ _ H) as HQ.
  apply inspect_factory_node in H as (Hd & fuel' & children & [= <-] & -> & H0 & Hpos & _).
  apply tree_all_unfold. split; [done|].
  destruct (Z.leb_spec (depth - 1) 0) as [Hle | Hgt].
  { destruct (H0 Hle) as [-> _]. constructor. }
  specialize (Hpos Hgt). revert Hpos. generalize (added (actions_of h max_items (depth - 1) obj)).
  clear HQ H0. intros entries Hall.
  induction Hall as [|entry c entries cs Hc _ IHall]; [constructor|].
  constructor; [|done].
  destruct Hc as [-> | (s & s' & Hc)].
  - apply tree_all_unfold. split; [apply Hdup; lia | constructor].
  - apply (tree_all_impl (Q (depth - 1))); [apply Hmono | by eapply IH].
Qed.

(** ** The entries that become children *)

Lemma added_dict_actions max_items len items :
  added (dict_actions max_items len items)
  = take (Z.to_nat (Z.max 1 (max_items - Z.of_nat len))) items.
Proof.
  unfold dict_actions. generalize (Z.to_nat (Z.max 1 (max_items - Z.of_nat len))).
  intros n. revert n. induction items as [|[k v] rest IH]; intros [|n]; try done.
  cbn [take map added flat_map app fst snd]. f_equal. apply IH.
Qed.

Lemma added_enumerate index items :
  added (enumerate index items)
  = zip (PyStr.of_nat <$> seq index (length items)) items.
Proof.
  revert index. induction items as [|item rest IH]; intros index; [done|].
  cbn [enumerate added flat_map app length seq fmap list_fmap zip zip_with]. f_equal. apply IH.
Qed.

Lemma added_class_actions h attrs :
  Forall (fun act => match act with Fail _ => False | Add _ _ => True end) (class_actions h attrs) ->
  (added (class_actions h attrs)).*1 = (filter (fun attr => shown_attr h attr = true) attrs).*1.
Proof.
  induction attrs as [|[n g] rest IH]; [done|].
  unfold class_actions. cbn [flat_map]. fold (class_actions h rest).
  intros [Hhere Hrest]%Forall_app. specialize (IH Hrest).
  unfold added. rewrite flat_map_app. fold (added (class_actions h rest)).
  rewrite fmap_app, IH. rewrite filter_cons.
  unfold attr_actions, shown_attr in *. cbn [fst snd] in *.
  destruct (PyStr.startswith n "_"); [done|]. cbn [negb andb].
  destruct g as [v | msg | msg].
  - destruct (_ || _); cbn [negb]; (case_decide; [|done]) || (case_decide; [done|]); done.
  - case_decide; done.
  - by apply Forall_cons in Hhere as [[] _].
Qed.

Lemma run_actions_Done_no_Fail h factory depth acts children st children' st' :
  run_actions h factory depth acts children st = Done (children', st') ->
  Forall (fun act => match act with Fail _ => False | Add _ _ => True end) acts.
Proof.
  revert children st. induction acts as [|[name value | e] rest IH]; intros children st.
  - constructor.
  - cbn [run_actions]. unfold bind.
    destruct ((if 0 <? depth then _add_child h factory children depth name value
               else ret children) st) as [[c st1]| |]; [|done..].
    intros H. constructor; [done | by eapply IH].
  - done.
Qed.

Lemma made_by_inspect_factory h max_items fuel depth entry child :
  made_by (inspect_factory h max_items fuel) depth entry child ->
  _name child = entry.1
  /\ (child = InspectDuplicate entry.1 VNone depth
      \/ (_obj child = entry.2 /\ _depth child = depth - 1
          /\ _class child = class_of h entry.2)).
Proof.
  intros [-> | (st & st' & H)]; [by split; [|left]|].
  apply inspect_factory_node in H as (_ & fuel' & children & _ & -> & _).
  split; [done|]. by right.
Qed.

(** The children of a node are named after the entries that its
    constructor adds, in order. *)
Lemma inspect_factory_children_names h max_items fuel name obj depth st node st' :
  inspect_factory h max_items fuel name obj depth st = Done (node, st') ->
  1 < depth ->
  _name <$> _children node = (added (actions_of h max_items (depth - 1) obj)).*1.
Proof.
  intros H Hd.
  apply inspect_factory_node in H as (_ & fuel' & children & _ & -> & _ & Hpos & _).
  specialize (Hpos ltac:(lia)). cbn [_children].
  induction Hpos as [|entry c entries cs Hc _ IH]; [done|].
  cbn [fmap list_fmap]. f_equal; [|exact IH].
  by apply made_by_inspect_factory in Hc as [-> _].
Qed.

(** X3: the children of a [dict] node, when the node has depth left, are
    named by the first [max(1, max_items)] keys, in order, and the total is
    the number of entries. *)
Theorem dict_children_are_the_first_keys (h : heap) (max_items : Z) (fuel : nat)
    (name : string) (a : positive) (items : list (string * pyvalue)) (depth : Z)
    (st st' : gmap Z bool) (node : InspectBase) :
  h a = ODict items -> 1 < depth ->
  inspect_factory h max_items fuel name (VRef a) depth st = Done (node, st') ->
  _name <$> _children node = take (Z.to_nat (Z.max 1 max_items)) items.*1
  /\ get_total_children node = Some (Z.of_nat (length items)).
Proof.
  intros Ha Hd H. split.
  - rewrite (inspect_factory_children_names _ _ _ _ _ _ _ _ _ H Hd).
    cbn [actions_of]. rewrite Ha, added_dict_actions, fmap_take. do 2 f_equal. lia.
  - apply inspect_factory_node in H as (_ & fuel' & children & _ & -> & _).
    unfold get_total_children, class_of. cbn [_class]. by rewrite Ha.
Qed.

Lemma dict_children_are_the_first_keys_witness :
  exists node,
    Samples.zoo 5%positive = ODict [("a", VRef 2); ("b", VRef 3); ("Password", VRef 4)]
    /\ 1 < 2
    /\ inspect_factory Samples.zoo 2 2 "d" (VRef 5) 2 ∅ = Done (node, ∅)
    /\ (_name <$> _children node
        = take (Z.to_nat (Z.max 1 2)) [("a", VRef 2); ("b", VRef 3); ("Password", VRef 4)].*1
        /\ get_total_children node
           = Some (Z.of_nat (length [("a", VRef 2); ("b", VRef 3); ("Password", VRef 4)]))).
Proof.
  exists (Inspect [InspectSimpleType "a" (VRef 2) 0 "10"; InspectSimpleType "b" (VRef 3) 0 "20"]
            1 "d" (VRef 5) (IsDict 3)).
  split; [reflexivity|]. split; [lia|]. split; [by vm_compute|].
  apply (dict_children_are_the_first_keys Samples.zoo 2 2 "d" 5 _ 2 ∅ ∅);
    [reflexivity | lia | by vm_compute].
Defined.

Lemma fst_zip_enumerate index (items : list pyvalue) :
  (zip (PyStr.of_nat <$> seq index (length items)) items).*1
  = PyStr.of_nat <$> seq index (length items).
Proof. apply fst_zip. by rewrite length_fmap, length_seq. Qed.

(** X4: the children of a [list] node with depth left are named by the
    indices from 0, and there are [max(max_items, 0) + 1] of them, or all when
    the list is shorter: one more than [max_items]. *)
Theorem list_children_are_the_first_indices (h : heap) (max_items : Z) (fuel : nat)
    (name : string) (a : positive) (items : list pyvalue) (depth : Z)
    (st st' : gmap Z bool) (node : InspectBase) :
  h a = OList items -> 1 < depth ->
  inspect_factory h max_items fuel name (VRef a) depth st = Done (node, st') ->
  _name <$> _children node
  = PyStr.of_nat <$> seq 0 (Nat.min (Z.to_nat (Z.max max_items 0) + 1) (length items))
  /\ get_total_children node = Some (Z.of_nat (length items)).
Proof.
  intros Ha Hd H. split.
  - rewrite (inspect_factory_children_names _ _ _ _ _ _ _ _ _ H Hd).
    cbn [actions_of]. rewrite Ha. unfold list_actions.
    rewrite added_enumerate, fst_zip_enumerate, length_take. do 3 f_equal. lia.
  - apply inspect_factory_node in H as (_ & fuel' & children & _ & -> & _).
    unfold get_total_children, class_of. cbn [_class]. by rewrite Ha.
Qed.

Lemma list_children_are_the_first_indices_witness :
  exists node,
    Samples.zoo 1%positive = OList [VRef 2; VRef 3; VRef 4] /\ 1 < 2
    /\ inspect_factory Samples.zoo 1 2 "l" (VRef 1) 2 ∅ = Done (node, ∅)
    /\ (_name <$> _children node
        = PyStr.of_nat
            <$> seq 0 (Nat.min (Z.to_nat (Z.max 1 0) + 1) (length [VRef 2; VRef 3; VRef 4]))
        /\ get_total_children node = Some (Z.of_nat (length [VRef 2; VRef 3; VRef 4]))).
Proof.
  exists (Inspect [InspectSimpleType "0" (VRef 2) 0 "10"; InspectSimpleType "1" (VRef 3) 0 "20"]
            1 "l" (VRef 1) (IsList 3)).
  split; [reflexivity|]. split; [lia|]. split; [by vm_compute|].
  apply (list_children_are_the_first_indices Samples.zoo 1 2 "l" 1 _ 2 ∅ ∅);
    [reflexivity | lia | by vm_compute].
Defined.

(** X5: the children of a [QuerySet] node with depth left, for
    [max_items >= 0], are named by the indices from 0 and there are
    [max_items] of them, or all when there are fewer rows; the total is the
    number of rows. *)
Theorem queryset_children_are_the_first_rows (h : heap) (max_items : Z) (fuel : nat)
    (name : string) (a : positive) (rows : list pyvalue) (depth : Z)
    (st st' : gmap Z bool) (node : InspectBase) :
  h a = OQuerySet rows -> 1 < depth -> 0 <= max_items ->
  inspect_factory h max_items fuel name (VRef a) depth st = Done (node, st') ->
  _name <$> _children node
  = PyStr.of_nat <$> seq 0 (Nat.min (Z.to_nat max_items) (length rows))
  /\ get_total_children node = Some (Z.of_nat (length rows)).
Proof.
  intros Ha Hd Hm H. split.
  - rewrite (inspect_factory_children_names _ _ _ _ _ _ _ _ _ H Hd).
    cbn [actions_of]. rewrite Ha. unfold queryset_actions.
    replace (0 <? depth - 1) with true by lia. replace (max_items <? 0) with false by lia.
    destruct (Z.ltb_spec 0 (Z.of_nat (length rows))) as [Hk | Hk]; cbn [andb].
    + by rewrite added_enumerate, fst_zip_enumerate, length_take.
    + replace (length rows) with O by lia. by rewrite Nat.min_0_r.
  - apply inspect_factory_node in H as (_ & fuel' & children & _ & -> & _).
    unfold get_total_children, class_of. cbn [_class]. by rewrite Ha.
Qed.

Lemma queryset_children_are_the_first_rows_witness :
  exists node,
    Samples.zoo 6%positive = OQuerySet [VRef 2; VRef 3; VRef 4] /\ 1 < 2 /\ 0 <= 1
    /\ inspect_factory Samples.zoo 1 2 "q" (VRef 6) 2 ∅ = Done (node, ∅)
    /\ (_name <$> _children node
        = PyStr.of_nat <$> seq 0 (Nat.min (Z.to_nat 1) (length [VRef 2; VRef 3; VRef 4]))
        /\ get_total_children node = Some (Z.of_nat (length [VRef 2; VRef 3; VRef 4]))).
Proof.
  exists (Inspect [InspectSimpleType "0" (VRef 2) 0 "10"] 1 "q" (VRef 6) (IsQuerySet 3)).
  split; [reflexivity|]. split; [lia|]. split; [lia|]. split; [by vm_compute|].
  apply (queryset_children_are_the_first_rows Samples.zoo 1 2 "q" 6 _ 2 ∅ ∅);
    [reflexivity | lia | lia | by vm_compute].
Defined.

(** X6: the children of an [InspectClass] node with depth left are, in the
    order of [dir(obj)], the attributes whose name does not start with an
    underscore and whose value is neither a builtin, nor a class, nor marked
    [do_not_call_in_templates]; an attribute whose getter raises
    [AttributeError] is among them.  The total is their number. *)
Theorem class_children_are_the_public_attributes (h : heap) (max_items : Z) (fuel : nat)
    (name : string) (a : positive) (k : other_kind) (cls : string) (flag : bool)
    (attrs : list (string * getter)) (depth : Z)
    (st st' : gmap Z bool) (node : InspectBase) :
  h a = OOther k cls flag attrs -> 1 < depth ->
  inspect_factory h max_items fuel name (VRef a) depth st = Done (node, st') ->
  _name <$> _children node = (filter (fun attr => shown_attr h attr = true) attrs).*1
  /\ get_total_children node
     = Some (Z.of_nat (length (filter (fun attr => shown_attr h attr = true) attrs))).
Proof.
  intros Ha Hd H.
  assert (Hnames : _name <$> _children node
                   = (filter (fun attr => shown_attr h attr = true) attrs).*1).
  { rewrite (inspect_factory_children_names _ _ _ _ _ _ _ _ _ H Hd).
    apply inspect_factory_node in H as (_ & fuel' & children & _ & _ & _ & _ & Hrun).
    apply run_actions_Done_no_Fail in Hrun. cbn [actions_of] in *. rewrite Ha in *.
    by apply added_class_actions. }
  split; [done|].
  apply (f_equal length) in Hnames. rewrite !length_fmap in Hnames.
  apply inspect_factory_node in H as (_ & fuel' & children & _ & -> & _).
  unfold get_total_children, class_of. cbn [_class _children] in *. rewrite Ha.
  by rewrite Hnames.
Qed.

Lemma class_children_are_the_public_attributes_witness :
  exists node,
    Samples.zoo 9%positive
    = OOther KInstance "Thing" false
        [("a", RaisesAttributeError "no such row"); ("b", Gives (VRef 3))]
    /\ 1 < 2
    /\ inspect_factory Samples.zoo 5 2 "o" (VRef 9) 2 ∅ = Done (node, ∅)
    /\ (_name <$> _children node
        = (filter (fun attr => shown_attr Samples.zoo attr = true)
             [("a", RaisesAttributeError "no such row"); ("b", Gives (VRef 3))]).*1
        /\ get_total_children node
           = Some (Z.of_nat (length (filter (fun attr => shown_attr Samples.zoo attr = true)
                                       [("a", RaisesAttributeError "no such row");
                                        ("b", Gives (VRef 3))])))).
Proof.
  exists (Inspect [InspectSimpleType "a" VNone 0 "None"; InspectSimpleType "b" (VRef 3) 0 "20"]
            1 "o" (VRef 9) IsClass).
  split; [reflexivity|]. split; [lia|]. split; [by vm_compute|].
  apply (class_children_are_the_public_attributes Samples.zoo 5 2 "o" 9 KInstance "Thing" false
           _ 2 ∅ ∅); [reflexivity | lia | by vm_compute].
Defined.

(** ** Totals, depths and levels throughout the tree *)

Lemma length_added_actions_of h max_items depth a :
  match h a with
  | ODict items | OList items =>
      (length (added (actions_of h max_items depth (VRef a))) <= length items)%nat
  | OQuerySet rows =>
      (length (added (actions_of h max_items depth (VRef a))) <= length rows)%nat
  | OOther _ _ _ _ => True
  | _ => actions_of h max_items depth (VRef a) = []
  end.
Proof.
  cbn [actions_of]. destruct (h a) as [s | ps | fn fps args kw | items | items | rows | k c f attrs];
    try done.
  - rewrite added_dict_actions, length_take. lia.
  - unfold list_actions. rewrite added_enumerate, length_zip, length_fmap, length_seq, length_take. lia.
  - unfold queryset_actions. destruct (_ && _); [|cbn; lia].
    destruct (max_items <? 0); [cbn; lia|].
    rewrite added_enumerate, length_zip, length_fmap, length_seq, length_take. lia.
Qed.

Lemma inspect_factory_count_ok h max_items fuel name obj depth st node st' :
  inspect_factory h max_items fuel name obj depth st = Done (node, st') -> count_ok node.
Proof.
  intros H.
  apply inspect_factory_node in H as (Hd & fuel' & children & _ & -> & H0 & Hpos & _).
  assert (Hlen : (length children <= length (added (actions_of h max_items (depth - 1) obj)))%nat).
  { destruct (Z.leb_spec (depth - 1) 0) as [Hle | Hgt].
    - destruct (H0 Hle) as [-> _]. cbn. lia.
    - apply Forall2_length in Hpos; [lia | done]. }
  unfold count_ok, get_total_children, class_of. cbn [_class _children].
  destruct obj as [|a]; [by destruct children; [|cbn in Hlen; lia]|].
  pose proof (length_added_actions_of h max_items (depth - 1) a) as Hb.
  destruct (h a) as [s | ps | fn fps args kw | items | items | rows | k c f attrs];
    try lia; rewrite Hb in Hlen; by destruct children; [|cbn in Hlen; lia].
Qed.

Lemma InspectionManager_Done h name obj max_depth max_items m :
  InspectionManager h name obj max_depth max_items = Done m ->
  inspect_factory h max_items (Z.to_nat (max_depth + 1)) name obj (max_depth + 1) ∅
  = Done (m_base m, m_processed m)
  /\ m_obj m = obj /\ m_max_items m = max_items.
Proof.
  unfold InspectionManager, InspectionManager_fuel.
  destruct (inspect_factory _ _ _ _ _ _ _) as [[base processed]| |]; [|done..].
  by intros [= <-].
Qed.

(** X7: in the tree of a manager, every node that reports a total has at
    most that many children, and every node that reports none (a simple
    value, a method, a partial, a duplicate) has no children. *)
Theorem totals_bound_children (h : heap) (name : string) (obj : pyvalue)
    (max_depth max_items : Z) (m : manager) :
  InspectionManager h name obj max_depth max_items = Done m ->
  tree_all count_ok (m_base m).
Proof.
  intros (H & _)%InspectionManager_Done.
  apply (inspect_factory_tree_all h max_items (fun _ => count_ok)) in H; try done.
  intros. by eapply inspect_factory_count_ok.
Qed.

Lemma totals_bound_children_witness :
  exists m,
    InspectionManager Samples.zoo "l" (VRef 1) 1 1 = Done m
    /\ tree_all count_ok (m_base m).
Proof.
  eexists. split; [by vm_compute|].
  apply (totals_bound_children Samples.zoo "l" (VRef 1) 1 1). by vm_compute.
Defined.

Lemma height_bound n children depth name obj cls :
  Forall (fun c => (height c <= n)%nat) children ->
  (height (Inspect children depth name obj cls) <= S n)%nat.
Proof.
  cbn [height]. intros H. apply le_n_S.
  induction H as [|c cs Hc _ IH]; [lia|]. lia.
Qed.

Lemma inspect_factory_height h max_items fuel name obj depth st node st' :
  inspect_factory h max_items fuel name obj depth st = Done (node, st') ->
  (height node <= Z.to_nat depth)%nat.
Proof.
  revert name obj depth st node st'.
  induction fuel as [|fuel IH]; intros name obj depth st node st' H.
  { by apply inspect_factory_node in H as (_ & ? & ? & ? & _). }
  apply inspect_factory_node in H as (Hd & fuel' & children & [= <-] & -> & H0 & Hpos & _).
  replace (Z.to_nat depth) with (S (Z.to_nat (depth - 1))) by lia.
  apply height_bound.
  destruct (Z.leb_spec (depth - 1) 0) as [Hle | Hgt].
  { destruct (H0 Hle) as [-> _]. constructor. }
  specialize (Hpos Hgt). revert Hpos.
  generalize (added (actions_of h max_items (depth - 1) obj)). clear H0.
  intros entries Hall. induction Hall as [|entry c entries cs Hc _ IHall]; [constructor|].
  constructor; [|done].
  destruct Hc as [-> | (s & s' & Hc)]; [cbn; lia|].
  apply IH in Hc. lia.
Qed.

(** X8: the tree of a manager has at most [max_depth + 1] levels, its root
    has depth [max_depth], and the depth of every node lies between 0 and
    [max_depth]. *)
Theorem tree_has_bounded_levels (h : heap) (name : string) (obj : pyvalue)
    (max_depth max_items : Z) (m : manager) :
  InspectionManager h name obj max_depth max_items = Done m ->
  (height (m_base m) <= Z.to_nat (max_depth + 1))%nat
  /\ _depth (m_base m) = max_depth
  /\ tree_all (fun node => 0 <= _depth node <= max_depth) (m_base m).
Proof.
  intros (H & _)%InspectionManager_Done. split; [by eapply inspect_factory_height|].
  split.
  { apply inspect_factory_node in H as (_ & fuel' & children & _ & -> & _). cbn. lia. }
  apply (inspect_factory_tree_all h max_items (fun d node => 0 <= _depth node <= d - 1)) in H.
  - eapply tree_all_impl; [|exact H]. cbn. intros. lia.
  - intros fuel n o d s nd s' Hn.
    apply inspect_factory_node in Hn as (? & fuel' & children & _ & -> & _). cbn. lia.
  - intros. cbn. lia.
  - intros. lia.
Qed.

Lemma tree_has_bounded_levels_witness :
  exists m,
    InspectionManager Samples.self_dict "x" (VRef 1) 2 5 = Done m
    /\ ((height (m_base m) <= Z.to_nat (2 + 1))%nat
        /\ _depth (m_base m) = 2
        /\ tree_all (fun node => 0 <= _depth node <= 2) (m_base m)).
Proof.
  eexists. split; [by vm_compute|].
  apply (tree_has_bounded_levels Samples.self_dict "x" (VRef 1) 2 5). by vm_compute.
Defined.

(** ** No object is expanded twice *)

Lemma expanded_ids_unfold children depth name obj cls :
  expanded_ids (Inspect children depth name obj cls)
  = match cls with
    | IsSimpleType _ | IsDuplicate => []
    | _ => [py_id obj]
    end ++ flat_map expanded_ids children.
Proof. reflexivity. Qed.

Lemma registers_nil st : registers st st [].
Proof. split; [constructor|]. split; [by intros i ?%elem_of_nil | done]. Qed.

Lemma registers_app st1 st2 st3 ids1 ids2 :
  registers st1 st2 ids1 -> registers st2 st3 ids2 -> registers st1 st3 (ids1 ++ ids2).
Proof.
  intros (N1 & In1 & Out1) (N2 & In2 & Out2).
  assert (Hdisj : forall i, i ∈ ids1 -> i ∉ ids2).
  { intros i H1 H2. destruct (In1 i H1) as [_ E1]. destruct (In2 i H2) as [E2 _]. congruence. }
  split; [apply NoDup_app; eauto|]. split.
  - intros i [H1 | H2]%elem_of_app.
    + destruct (In1 i H1) as [E0 E1]. split; [done|]. rewrite Out2; eauto.
    + destruct (In2 i H2) as [E2 E3]. split; [|done].
      rewrite <- Out1; [done|]. intros H1. by apply (Hdisj i).
  - intros i Hi. rewrite Out2, Out1; [done|..]; intros ?; apply Hi, elem_of_app; eauto.
Qed.

Lemma registers_insert st st' i ids :
  st !! i = None -> registers (<[i := true]> st) st' ids -> registers st st' (i :: ids).
Proof.
  intros Hi (N & In & Out).
  assert (Hni : i ∉ ids).
  { intros H. destruct (In i H) as [E _]. by rewrite lookup_insert_eq in E. }
  split; [by constructor|]. split.
  - intros j [-> | Hj]%elem_of_cons.
    + split; [done|]. rewrite Out by done. apply lookup_insert_eq.
    + destruct (In j Hj) as [E0 E1]. split; [|done].
      destruct (decide (i = j)) as [-> | Hne]; [done|]. by rewrite lookup_insert_ne in E0.
  - intros j Hj. apply not_elem_of_cons in Hj as [Hne Hj].
    rewrite Out by done. by apply lookup_insert_ne.
Qed.

Section ExpandedOnce.

Context (h : heap).
Variable factory : string -> pyvalue -> Z -> M InspectBase.
Variable depth : Z.

(** What the nodes of the factory are assumed to be like: of the class of
    their object, and registering what they expand below themselves. *)
Hypothesis factory_registers :
  forall name value st child st',
    factory name value depth st = Done (child, st') ->
    _obj child = value /\ _class child = class_of h value
    /\ registers st st' (expanded_below child).

Lemma class_of_simple obj :
  match class_of h obj with
  | IsSimpleType _ => is_simple h obj = true
  | IsDuplicate => False
  | _ => is_simple h obj = false
  end.
Proof.
  destruct obj as [|a]; [done|]. unfold class_of, is_simple. cbn [isinstance_WHITELIST].
  by destruct (h a).
Qed.

Lemma _add_child_registers children name value st children' st' :
  _add_child h factory children depth name value st = Done (children', st') ->
  exists child, children' = children ++ [child] /\ registers st st' (expanded_ids child).
Proof.
  unfold _add_child, bind, been_seen_before.
  destruct (is_simple h value) eqn:Hs.
  - destruct (factory name value depth st) as [[c st1]| |] eqn:E; [|done..].
    intros [= <- <-]. exists c. split; [done|].
    apply factory_registers in E as (Hobj & Hcls & Hreg).
    destruct c as [cs d n o cls]. rewrite expanded_ids_unfold. cbn in Hobj, Hcls. subst.
    pose proof (class_of_simple value) as Hc.
    destruct (class_of h value); first [exact Hreg | done | congruence].
  - destruct (st !! py_id value) eqn:Hp.
    + intros [= <- <-]. eexists. split; [done|]. apply registers_nil.
    + destruct (factory name value depth _) as [[c st1]| |] eqn:E; [|done..].
      intros [= <- <-]. exists c. split; [done|].
      apply factory_registers in E as (Hobj & Hcls & Hreg).
      destruct c as [cs d n o cls]. rewrite expanded_ids_unfold. cbn in Hobj, Hcls. subst.
      pose proof (class_of_simple value) as Hc.
      destruct (class_of h value);
        first [by apply registers_insert; [exact Hp | exact Hreg] | done | congruence].
Qed.

Lemma run_actions_registers acts children st children' st' :
  run_actions h factory depth acts children st = Done (children', st') ->
  exists new, children' = children ++ new /\ registers st st' (flat_map expanded_ids new).
Proof.
  revert children st. induction acts as [|[name value | e] rest IH]; intros children st.
  - intros [= <- <-]. exists []. split; [by rewrite app_nil_r | apply registers_nil].
  - cbn [run_actions]. unfold bind. destruct (0 <? depth).
    + destruct (_add_child _ _ _ _ _ _ _) as [[c st1]| |] eqn:E; [|done..].
      intros H. apply _add_child_registers in E as (child & -> & Hchild).
      apply IH in H as (new & -> & Hnew).
      exists (child :: new). split; [by rewrite <- app_assoc|].
      cbn [flat_map]. by eapply registers_app.
    + apply IH.
  - done.
Qed.

End ExpandedOnce.

Lemma inspect_factory_registers h max_items fuel name obj depth st node st' :
  inspect_factory h max_items fuel name obj depth st = Done (node, st') ->
  _obj node = obj /\ _class node = class_of h obj
  /\ registers st st' (expanded_below node).
Proof.
  revert name obj depth st node st'.
  induction fuel as [|fuel IH]; intros name obj depth st node st' H.
  { by apply inspect_factory_node in H as (_ & ? & ? & ? & _). }
  apply inspect_factory_node in H as (Hd & fuel' & children & [= <-] & -> & _ & _ & Hrun).
  split; [done|]. split; [done|].
  apply run_actions_registers in Hrun as (new & Hnew & Hreg).
  - cbn [app] in Hnew. by subst.
  - intros. by eapply IH.
Qed.

Lemma visited_ids_are_expanded h name obj max_depth max_items m i b :
  InspectionManager h name obj max_depth max_items = Done m ->
  m_processed m !! i = Some b ->
  b = true /\ i ∈ expanded_below (m_base m).
Proof.
  intros (H & _)%InspectionManager_Done Hi.
  apply inspect_factory_registers in H as (_ & _ & N & In & Out).
  destruct (decide (i ∈ expanded_below (m_base m))) as [Hin | Hout].
  - split; [|done]. apply In in Hin as [_ E]. congruence.
  - rewrite Out in Hi by done. by rewrite lookup_empty in Hi.
Qed.

(** X9: below the root of a manager's tree no object is expanded twice, and
    the visited set holds exactly the [id]s of the objects expanded there,
    each marked [True]: a node for the same object anywhere else is a
    duplicate. *)
Theorem objects_are_expanded_once (h : heap) (name : string) (obj : pyvalue)
    (max_depth max_items : Z) (m : manager) :
  InspectionManager h name obj max_depth max_items = Done m ->
  NoDup (expanded_below (m_base m))
  /\ forall i, m_processed m !! i
               = if bool_decide (i ∈ expanded_below (m_base m)) then Some true else None.
Proof.
  intros (H & _)%InspectionManager_Done.
  apply inspect_factory_registers in H as (_ & _ & N & In & Out).
  split; [done|]. intros i. case_bool_decide as Hi.
  - by apply In.
  - by rewrite Out.
Qed.

Lemma objects_are_expanded_once_witness :
  exists m,
    InspectionManager Samples.self_dict "x" (VRef 1) 2 5 = Done m
    /\ (NoDup (expanded_below (m_base m))
        /\ forall i, m_processed m !! i
                     = if bool_decide (i ∈ expanded_below (m_base m)) then Some true else None).
Proof.
  eexists. split; [by vm_compute|].
  apply (objects_are_expanded_once Samples.self_dict "x" (VRef 1) 2 5). by vm_compute.
Defined.

(** X10: the first check of an object that is not a simple value tells
    whether its [id] was in the visited set and leaves it there; the other
    [id]s are untouched, and a second check answers [True] and changes
    nothing. *)
Theorem been_seen_before_twice (h : heap) (obj : pyvalue) (st : gmap Z bool) :
  is_simple h obj = false ->
  exists seen st',
    been_seen_before h obj st = Done (seen, st')
    /\ (seen = true <-> is_Some (st !! py_id obj))
    /\ is_Some (st' !! py_id obj)
    /\ (forall i, i <> py_id obj -> st' !! i = st !! i)
    /\ been_seen_before h obj st' = Done (true, st').
Proof.
  intros Hs. unfold been_seen_before. rewrite Hs.
  destruct (st !! py_id obj) as [b|] eqn:E.
  - exists true, st. rewrite E. repeat split; eauto.
  - exists false, (<[py_id obj := true]> st). rewrite lookup_insert_eq.
    split; [done|]. split; [split; [done | by intros [? ?]]|].
    split; [by eexists|]. split; [|done].
    intros i Hi. by rewrite lookup_insert_ne.
Qed.

Lemma been_seen_before_twice_witness :
  is_simple Samples.self_dict (VRef 1) = false
  /\ exists seen st',
      been_seen_before Samples.self_dict (VRef 1) ∅ = Done (seen, st')
      /\ (seen = true <-> is_Some ((∅ : gmap Z bool) !! py_id (VRef 1)))
      /\ is_Some (st' !! py_id (VRef 1))
      /\ (forall i, i <> py_id (VRef 1) -> st' !! i = (∅ : gmap Z bool) !! i)
      /\ been_seen_before Samples.self_dict (VRef 1) st' = Done (true, st').
Proof.
  split; [reflexivity|].
  apply (been_seen_before_twice Samples.self_dict (VRef 1) ∅). reflexivity.
Defined.

(** ** The visited set holds no simple value *)

(** Induction on a tree, with the property known of the children. *)
Lemma InspectBase_tree_ind (P : InspectBase -> Prop) :
  (forall children depth name obj cls,
     Forall P children -> P (Inspect children depth name obj cls)) ->
  forall node, P node.
Proof.
  intros H. fix IH 1. intros [children depth name obj cls]. apply H.
  induction children as [|c cs IHcs]; constructor; [apply IH | exact IHcs].
Qed.

Lemma expanded_ids_not_simple h node i :
  tree_all (fun n => _class n = IsDuplicate \/ _class n = class_of h (_obj n)) node ->
  i ∈ expanded_ids node ->
  exists a, i = Z.pos a /\ is_simple h (VRef a) = false.
Proof.
  induction node as [children depth name obj cls IH] using InspectBase_tree_ind.
  rewrite expanded_ids_unfold, tree_all_unfold. intros [Hcls Hcs] [Hi | Hi]%elem_of_app.
  - cbn [_class _obj] in Hcls. pose proof (class_of_simple h obj) as Hs.
    destruct Hcls as [-> | ->]; [by apply elem_of_nil in Hi|].
    destruct obj as [|a]; [by apply elem_of_nil in Hi|].
    destruct (class_of h (VRef a)); try (by apply elem_of_nil in Hi);
      apply list_elem_of_singleton in Hi as ->; by exists a.
  - apply list_elem_of_In, in_flat_map in Hi as (c & Hc & Hi).
    apply list_elem_of_In in Hc, Hi. rewrite Forall_forall in IH, Hcs.
    by apply (IH c Hc); [apply Hcs|].
Qed.

(** X11: every [id] of the visited set of a manager is the [id] of an
    object of the graph that is not a simple value: [None] and the
    whitelisted types are never registered. *)
Theorem visited_set_holds_no_simple_value (h : heap) (name : string) (obj : pyvalue)
    (max_depth max_items : Z) (m : manager) (i : Z) (b : bool) :
  InspectionManager h name obj max_depth max_items = Done m ->
  m_processed m !! i = Some b ->
  b = true /\ exists a, i = Z.pos a /\ is_simple h (VRef a) = false.
Proof.
  intros Hm Hi.
  destruct (visited_ids_are_expanded _ _ _ _ _ _ _ _ Hm Hi) as [-> Hin]. split; [done|].
  apply InspectionManager_Done in Hm as (H & _).
  apply (inspect_factory_tree_all h max_items
           (fun _ n => _class n = IsDuplicate \/ _class n = class_of h (_obj n))) in H.
  - destruct (m_base m) as [children d n o c]. unfold expanded_below in Hin. cbn [_children] in Hin.
    apply tree_all_unfold in H as [_ Hcs].
    apply list_elem_of_In, in_flat_map in Hin as (c' & Hc' & Hin).
    apply list_elem_of_In in Hc', Hin. rewrite Forall_forall in Hcs.
    by eapply expanded_ids_not_simple; [apply Hcs|].
  - intros fuel n o d s nd s' Hn.
    apply inspect_factory_node in Hn as (? & fuel' & children & _ & -> & _). by right.
  - intros. by left.
  - done.
Qed.

Lemma visited_set_holds_no_simple_value_witness :
  exists m,
    InspectionManager Samples.self_dict "x" (VRef 1) 2 5 = Done m
    /\ m_processed m !! 1 = Some true
    /\ (true = true /\ exists a, 1 = Z.pos a /\ is_simple Samples.self_dict (VRef a) = false).
Proof.
  eexists. split; [by vm_compute|]. split; [by vm_compute|].
  eapply (visited_set_holds_no_simple_value Samples.self_dict "x" (VRef 1) 2 5);
    [vm_compute; reflexivity | by vm_compute].
Defined.

(** ** The template context *)

Lemma context_all_unfold P t i ty pre l v post tot it cs :
  context_all P (Context_ t i ty pre l v post tot it cs)
  <-> P (Context_ t i ty pre l v post tot it cs)
      /\ match cs with Some cl => Forall (context_all P) cl | None => True end.
Proof.
  cbn [context_all]. apply and_iff_compat_l. destruct cs as [cl|]; [|done].
  induction cl as [|c cl IH]; [by split; [constructor|]|].
  by rewrite Forall_cons, IH.
Qed.

Lemma link_to_only_for_duplicates node :
  get_format_link_to node <> None <-> class_name (_class node) = "InspectDuplicate".
Proof.
  unfold get_format_link_to. destruct (_class node); cbn [class_name]; split; try done.
Qed.

Lemma _build_context_ok h node :
  tree_all count_ok node -> context_all context_ok (_build_context h node).
Proof.
  induction node as [cs depth name obj cls IH] using InspectBase_tree_ind.
  rewrite tree_all_unfold. intros [Hcount Hcs].
  cbn [_build_context]. apply context_all_unfold. split.
  - unfold context_ok. cbn [children total_children link_to inspect_type].
    split; [|split; [apply link_to_only_for_duplicates|]].
    + unfold get_children. by destruct (get_total_children _).
    + unfold count_ok in Hcount. unfold get_children.
      destruct (get_total_children _); [|done]. by rewrite length_map.
  - unfold get_children. destruct (get_total_children _); [|done].
    apply Forall_map. rewrite Forall_forall in IH, Hcs. apply Forall_forall.
    intros c Hc. by apply IH; [|apply Hcs].
Qed.

(** X12: in the context built from the tree of a manager, every entry has
    [children] null exactly when [total_children] is null, has a [link_to]
    exactly when it is an [InspectDuplicate], and never lists more children
    than its [total_children]. *)
Theorem context_entries_are_consistent (h : heap) (name : string) (obj : pyvalue)
    (max_depth max_items : Z) (m : manager) :
  InspectionManager h name obj max_depth max_items = Done m ->
  context_all context_ok (_build_context h (m_base m)).
Proof.
  intros (H & _)%InspectionManager_Done. apply _build_context_ok.
  apply (inspect_factory_tree_all h max_items (fun _ => count_ok)) in H; try done.
  intros. by eapply inspect_factory_count_ok.
Qed.

Lemma context_entries_are_consistent_witness :
  exists m,
    InspectionManager Samples.self_dict "x" (VRef 1) 2 5 = Done m
    /\ context_all context_ok (_build_context Samples.self_dict (m_base m)).
Proof.
  eexists. split; [by vm_compute|].
  apply (context_entries_are_consistent Samples.self_dict "x" (VRef 1) 2 5). by vm_compute.
Defined.

(** * Templates of the plugin *)

Section PluginProperties.
Import Plugin.

(** ** Template inheritance *)



Lemma truthy_dict_lookup (d : gmap string json) key v :
  d !! key = Some v -> truthy (JDict d) = true.
Proof.
  intros H. cbn [truthy]. destruct (size d) eqn:E; [|done].
  apply map_size_empty_inv in E. subst d. by rewrite lookup_empty in H.
Qed.

Lemma truthy_dict_insert (d : gmap string json) key v :
  truthy (JDict (<[key := v]> d)) = true.
Proof. apply (truthy_dict_lookup _ key v), lookup_insert_eq. Qed.

Lemma truthy_dict_nonempty (d : gmap string json) :
  d <> ∅ -> truthy (JDict d) = true.
Proof.
  intros H. cbn [truthy]. destruct (size d) eqn:E; [|done].
  by apply map_size_empty_inv in E.
Qed.

(** What the test of [_find_template] answers on the two shapes of
    metadata. *)
Lemma own_template_has metadata key t :
  has_template metadata key t -> own_template metadata key = Ok (Some t).
Proof.
  intros (d & ours & -> & Hours & Ht & Htrue). unfold own_template.
  assert (Hd : truthy (JDict d) = true) by (by eapply truthy_dict_lookup).
  assert (Ho : truthy (JDict ours) = true) by (by eapply truthy_dict_lookup).
  rewrite Hd. cbn [subscript rbind]. rewrite Hours. cbn [rbind get].
  rewrite Ho, Ht. cbn [rbind subscript]. by rewrite Htrue, Ht.
Qed.

Lemma own_template_no metadata key :
  no_template metadata key -> own_template metadata key = Ok None.
Proof.
  unfold own_template. intros [Hfalse | (d & ours & -> & Hours & Hkey)]; [by rewrite Hfalse|].
  destruct (truthy (JDict d)); [|done]. cbn [subscript rbind]. rewrite Hours. cbn [rbind].
  destruct Hkey as [Hfalse | (o & -> & Hkey)]; [by rewrite Hfalse|].
  destruct (truthy (JDict o)); [|done]. cbn [get rbind].
  destruct (o !! key) as [v|]; cbn [rbind]; [by rewrite Hkey | done].
Qed.

Lemma own_template_foreign (d : gmap string json) key :
  d <> ∅ -> d !! METADATA_PARENT = None ->
  own_template (JDict d) key = Err (KeyError METADATA_PARENT).
Proof.
  intros Hd Hl. unfold own_template. rewrite (truthy_dict_nonempty d Hd).
  cbn [subscript]. by rewrite Hl.
Qed.

(** The lookup walks the ancestry from the category upwards and stops at
    the first category whose own test does not answer "no template". *)
Lemma _find_category_template_of_skip pre c key default_template rest start :
  ancestry start = pre ++ c :: rest ->
  Forall (fun a => own_template (category_metadata a) key = Ok None) pre ->
  _find_category_template_of start key default_template
  = _find_category_template_of c key default_template.
Proof.
  revert start. induction pre as [|a pre IH]; intros start Hanc Hpre.
  - destruct start as [m [p|] pk]; cbn [ancestry app] in Hanc; by injection Hanc as <- _.
  - apply Forall_cons in Hpre as [Ha Hpre].
    destruct start as [m [p|] pk]; cbn [ancestry app] in Hanc; injection Hanc as <- Hanc.
    + cbn [_find_category_template_of]. cbn [category_metadata] in Ha. rewrite Ha.
      cbn [rbind]. by apply IH.
    + by destruct pre.
Qed.

(** X13: the nearest category that holds a template for the key gives the
    result: when the categories below it, from the starting one, hold none,
    its template is returned, whatever the categories above it hold. *)
Theorem nearest_category_template_wins (start hit : PartCategory)
    (pre rest : list PartCategory) (key default_template : string) (t : json) :
  ancestry start = pre ++ hit :: rest ->
  Forall (fun a => no_template (category_metadata a) key) pre ->
  has_template (category_metadata hit) key t ->
  _find_category_template (Some start) key default_template = Ok t.
Proof.
  intros Hanc Hpre Hhit. cbn [_find_category_template].
  rewrite (_find_category_template_of_skip pre hit key default_template rest start Hanc).
  - apply own_template_has in Hhit. destruct hit as [m p pk].
    cbn [_find_category_template_of category_metadata] in *. by rewrite Hhit.
  - eapply Forall_impl; [exact Hpre|]. intros a Ha. by apply own_template_no.
Qed.

Lemma nearest_category_template_wins_witness :
  ancestry Samples.leaf = [Samples.leaf] ++ Samples.mid :: [Samples.root]
  /\ Forall (fun a => no_template (category_metadata a) "description") [Samples.leaf]
  /\ has_template (category_metadata Samples.mid) "description" (JStr "mid {{ part.name }}")
  /\ _find_category_template (Some Samples.leaf) "description" "{{ part.name }}"
     = Ok (JStr "mid {{ part.name }}").
Proof.
  assert (H1 : ancestry Samples.leaf = [Samples.leaf] ++ Samples.mid :: [Samples.root])
    by reflexivity.
  assert (H2 : Forall (fun a => no_template (category_metadata a) "description") [Samples.leaf])
    by (apply Forall_cons; split; [by left | constructor]).
  assert (H3 : has_template (category_metadata Samples.mid) "description"
                 (JStr "mid {{ part.name }}"))
    by (by eexists _, _).
  split; [exact H1|]. split; [exact H2|]. split; [exact H3|].
  exact (nearest_category_template_wins Samples.leaf Samples.mid [Samples.leaf] [Samples.root]
           "description" "{{ part.name }}" _ H1 H2 H3).
Defined.

Lemma _find_category_template_of_none c key default_template :
  Forall (fun a => own_template (category_metadata a) key = Ok None) (ancestry c) ->
  _find_category_template_of c key default_template = Ok (JStr default_template).
Proof.
  revert c. fix IH 1. intros [m [p|] pk]; cbn [ancestry _find_category_template_of].
  - intros [Hm Hp]%Forall_cons. cbn [category_metadata] in Hm. rewrite Hm. cbn [rbind].
    by apply IH.
  - intros [Hm _]%Forall_cons. cbn [category_metadata] in Hm. by rewrite Hm.
Qed.

(** X14: when no category from the starting one up to the root holds a
    template for the key, the default template is returned. *)
Theorem default_template_when_none_is_set (start : PartCategory)
    (key default_template : string) :
  Forall (fun a => no_template (category_metadata a) key) (ancestry start) ->
  _find_category_template (Some start) key default_template = Ok (JStr default_template).
Proof.
  intros Hall. cbn [_find_category_template]. apply _find_category_template_of_none.
  eapply Forall_impl; [exact Hall|]. intros a Ha. by apply own_template_no.
Qed.

Lemma default_template_when_none_is_set_witness :
  Forall (fun a => no_template (category_metadata a) "category") (ancestry Samples.leaf)
  /\ _find_category_template (Some Samples.leaf) "category" "{{ part.category.name }}"
     = Ok (JStr "{{ part.category.name }}").
Proof.
  assert (H : Forall (fun a => no_template (category_metadata a) "category")
                (ancestry Samples.leaf)).
  { apply Forall_cons. split; [by left|].
    apply Forall_cons. split.
    { right. eexists _, _. split; [reflexivity|]. split; [reflexivity|]. right. by eexists. }
    apply Forall_cons. split; [|constructor].
    right. eexists _, _. split; [reflexivity|]. split; [reflexivity|]. right. by eexists. }
  split; [exact H|].
  exact (default_template_when_none_is_set Samples.leaf "category" "{{ part.category.name }}" H).
Defined.

(** X15: a category whose metadata is a non-empty dict without the plugin's
    entry (metadata written by something else) makes the lookup raise
    [KeyError] when the search reaches it, even if a category above it holds
    a template. *)
Theorem foreign_metadata_raises_KeyError (start bad : PartCategory)
    (pre rest : list PartCategory) (key default_template : string)
    (d : gmap string json) :
  ancestry start = pre ++ bad :: rest ->
  Forall (fun a => no_template (category_metadata a) key) pre ->
  category_metadata bad = JDict d -> d <> ∅ -> d !! METADATA_PARENT = None ->
  _find_category_template (Some start) key default_template
  = Err (KeyError METADATA_PARENT).
Proof.
  intros Hanc Hpre Hbad Hd Hl. cbn [_find_category_template].
  rewrite (_find_category_template_of_skip pre bad key default_template rest start Hanc).
  - destruct bad as [m p pk]. cbn [_find_category_template_of category_metadata] in *.
    subst m. by rewrite own_template_foreign.
  - eapply Forall_impl; [exact Hpre|]. intros a Ha. by apply own_template_no.
Qed.

Lemma foreign_metadata_raises_KeyError_witness :
  ancestry Samples.foreign = [] ++ Samples.foreign :: [Samples.root]
  /\ Forall (fun a => no_template (category_metadata a) "description") []
  /\ category_metadata Samples.foreign = JDict {[ "other_plugin" := JInt 1 ]}
  /\ ({[ "other_plugin" := JInt 1 ]} : gmap string json) <> ∅
  /\ ({[ "other_plugin" := JInt 1 ]} : gmap string json) !! METADATA_PARENT = None
  /\ _find_category_template (Some Samples.foreign) "description" "{{ part.name }}"
     = Err (KeyError METADATA_PARENT).
Proof.
  assert (H1 : ancestry Samples.foreign = [] ++ Samples.foreign :: [Samples.root])
    by reflexivity.
  assert (H2 : Forall (fun a => no_template (category_metadata a) "description") [])
    by constructor.
  assert (H4 : ({[ "other_plugin" := JInt 1 ]} : gmap string json) <> ∅)
    by apply map_non_empty_singleton.
  split; [exact H1|]. split; [exact H2|]. split; [reflexivity|]. split; [exact H4|].
  split; [reflexivity|].
  exact (foreign_metadata_raises_KeyError Samples.foreign Samples.foreign [] [Samples.root]
           "description" "{{ part.name }}" _ H1 H2 eq_refl H4 eq_refl).
Defined.

(** X16: a template held by the part itself is the one [_find_template]
    returns, whatever its category and the categories above hold. *)
Theorem part_template_comes_first (part : Part) (key default_template : string)
    (t : json) :
  has_template (part_metadata part) key t ->
  _find_template part key default_template = Ok t.
Proof.
  intros Ht. unfold _find_template. by rewrite (own_template_has _ _ _ Ht).
Qed.

Lemma part_template_comes_first_witness :
  has_template (part_metadata Samples.own_part) "description" (JStr "mine")
  /\ _find_template Samples.own_part "description" "{{ part.name }}" = Ok (JStr "mine").
Proof.
  assert (H : has_template (part_metadata Samples.own_part) "description" (JStr "mine"))
    by (by eexists _, _).
  split; [exact H|].
  exact (part_template_comes_first Samples.own_part "description" "{{ part.name }}" _ H).
Defined.

(** X17: a part without a template of its own gets what its category
    gives; when it has no category, [_find_template] raises
    [AttributeError] instead of returning the default template. *)
Theorem part_without_template_asks_its_category (part : Part)
    (key default_template : string) :
  no_template (part_metadata part) key ->
  _find_template part key default_template
  = match part_category part with
    | Some c => _find_category_template (Some c) key default_template
    | None => Err AttributeError
    end.
Proof.
  intros Hno. unfold _find_template. rewrite (own_template_no _ _ Hno). cbn [rbind].
  by destruct (part_category part).
Qed.

Lemma part_without_template_asks_its_category_witness :
  no_template (part_metadata Samples.bare_part) "description"
  /\ _find_template Samples.bare_part "description" "{{ part.name }}" = Err AttributeError.
Proof.
  assert (H : no_template (part_metadata Samples.bare_part) "description") by (by left).
  split; [exact H|].
  exact (part_without_template_asks_its_category Samples.bare_part "description"
           "{{ part.name }}" H).
Defined.

(** ** Saving a template *)

Lemma truthy_false_dict (m : json) :
  truthy m = false -> (if truthy m then m else JDict ∅) = JDict ∅.
Proof. by intros ->. Qed.

Lemma templates_of_falsy (m : json) : truthy m = false -> templates_of m = ∅.
Proof.
  destruct m as [| | | | |d]; try done. cbn [truthy]. intros H.
  destruct (size d) eqn:E; [|done]. apply map_size_empty_inv in E. by subst d.
Qed.

Lemma truthy_dict_empty : truthy (JDict ∅) = false.
Proof. reflexivity. Qed.

Lemma falsy_dict (d : gmap string json) : truthy (JDict d) = false -> d = ∅.
Proof.
  cbn [truthy]. destruct (size d) eqn:E; [|done]. intros _. by apply map_size_empty_inv.
Qed.

(** Setting up a metadata that [_webapi_set_template] can work on: afterwards
    the plugin's entry is a dict that holds, under ["templates"], the dict of
    the templates that were there. *)
Lemma prepare_metadata_shaped (m : json) :
  shaped m ->
  exists d o,
    prepare_metadata m = Ok (JDict (<[METADATA_PARENT := JDict o]> d), JDict o)
    /\ o !! "templates" = Some (JDict (templates_of m)).
Proof.
  intros [Hf | (d & -> & Hd)].
  - unfold prepare_metadata. rewrite Hf, (templates_of_falsy m Hf). cbn.
    eexists _, _. split; [reflexivity|]. apply lookup_insert_eq.
  - unfold prepare_metadata.
    assert (Hnew : forall d0 : gmap string json,
              d0 !! METADATA_PARENT = None \/
              (exists ours, d0 !! METADATA_PARENT = Some ours /\ truthy ours = false) ->
              templates_of (JDict d0) = ∅ ->
              exists d1 o,
                (let* ours := get (JDict d0) METADATA_PARENT in
                 let* metadata :=
                   if truthy ours then Ok (JDict d0)
                   else assign (JDict d0) METADATA_PARENT (JDict ∅) in
                 let* ours := subscript metadata METADATA_PARENT in
                 let* templates := get ours "templates" in
                 let* ours :=
                   if truthy templates then Ok ours else assign ours "templates" (JDict ∅) in
                 let* metadata := assign metadata METADATA_PARENT ours in
                 Ok (metadata, ours))
                = Ok (JDict (<[METADATA_PARENT := JDict o]> d1), JDict o)
                /\ o !! "templates" = Some (JDict (templates_of (JDict d0)))).
    { intros d0 Hcase Ht. rewrite Ht. cbn [get rbind].
      destruct Hcase as [H0 | (ours & H0 & Hours)]; rewrite H0; cbn [rbind truthy];
        try rewrite Hours; cbn [assign rbind subscript]; rewrite lookup_insert_eq;
        cbn [rbind get]; rewrite lookup_empty; cbn [rbind truthy assign];
        eexists _, _; (split; [reflexivity | apply lookup_insert_eq]). }
    destruct (truthy (JDict d)) eqn:Htd.
    2:{ apply falsy_dict in Htd as ->. apply (Hnew ∅); [left; apply lookup_empty | done]. }
    destruct (d !! METADATA_PARENT) as [ours|] eqn:Hp.
    2:{ apply (Hnew d); [by left|]. cbn [templates_of]. by rewrite Hp. }
    destruct Hd as [Hours | (o & -> & Ho)].
    { apply (Hnew d); [right; eauto|]. cbn [templates_of]. rewrite Hp.
      destruct ours as [| | | | |o]; try done. by rewrite (falsy_dict o Hours), lookup_empty. }
    destruct (truthy (JDict o)) eqn:Hto.
    2:{ apply (Hnew d); [right; eauto|]. cbn [templates_of]. rewrite Hp.
        by rewrite (falsy_dict o Hto), lookup_empty. }
    cbn [get rbind]. rewrite Hp. cbn [rbind]. rewrite Hto. cbn [rbind subscript].
    rewrite Hp. cbn [rbind get templates_of]. rewrite Hp.
    destruct (o !! "templates") as [ts|] eqn:Hts; cbn [rbind].
    + destruct (truthy ts) eqn:Htts.
      * destruct Ho as [? | (t & ->)]; [congruence|]. cbn [rbind assign].
        exists d, o. split; [reflexivity | done].
      * cbn [assign rbind]. eexists _, _. split; [reflexivity|]. rewrite lookup_insert_eq.
        destruct ts as [| | | | |t]; try done. by rewrite (falsy_dict t Htts).
    + cbn [truthy assign rbind]. eexists _, _. split; [reflexivity|]. apply lookup_insert_eq.
Qed.

Lemma shaped_prepared (d o : gmap string json) (t : gmap string json) :
  o !! "templates" = Some (JDict t) ->
  shaped (JDict (<[METADATA_PARENT := JDict o]> d))
  /\ templates_of (JDict (<[METADATA_PARENT := JDict o]> d)) = t.
Proof.
  intros Ho. split.
  - right. eexists. split; [reflexivity|]. rewrite lookup_insert_eq. right.
    eexists. split; [reflexivity|]. rewrite Ho. right. by eexists.
  - cbn [templates_of]. by rewrite lookup_insert_eq, Ho.
Qed.

(** Saving a template that is not empty: the metadata afterwards holds it
    under the key, beside the templates that were there. *)
Lemma set_template_metadata_save (m : json) (key template : string) :
  shaped m -> template <> "" ->
  exists m',
    set_template_metadata m key template = Ok (m', true)
    /\ shaped m'
    /\ templates_of m' = <[key := JStr template]> (templates_of m).
Proof.
  intros Hm Ht. destruct (prepare_metadata_shaped m Hm) as (d & o & Hprep & Ho).
  unfold set_template_metadata. rewrite Hprep. cbn [rbind fst snd].
  assert (Htrue : truthy (JStr template) = true).
  { cbn [truthy]. destruct (String.eqb_spec template ""); done. }
  rewrite Htrue. cbn [get rbind]. rewrite Ho. cbn [rbind assign].
  eexists. split; [reflexivity|]. rewrite insert_insert_eq.
  apply shaped_prepared, lookup_insert_eq.
Qed.

(** Saving the empty template: the key is deleted, and the row saved, when
    a template that counts as true was there; otherwise nothing changes. *)
Lemma set_template_metadata_delete (m : json) (key : string) :
  shaped m ->
  exists m' saved,
    set_template_metadata m key "" = Ok (m', saved)
    /\ shaped m'
    /\ saved = match templates_of m !! key with Some v => truthy v | None => false end
    /\ templates_of m' = if saved then delete key (templates_of m) else templates_of m.
Proof.
  intros Hm. destruct (prepare_metadata_shaped m Hm) as (d & o & Hprep & Ho).
  unfold set_template_metadata. rewrite Hprep. cbn [rbind fst snd truthy String.eqb negb].
  cbn [subscript]. rewrite Ho. cbn [rbind get].
  destruct (templates_of m !! key) as [v|] eqn:Hv; cbn [rbind].
  - destruct (truthy v) eqn:Htv.
    + cbn [rbind assign]. eexists _, true. split; [reflexivity|]. rewrite insert_insert_eq.
      destruct (shaped_prepared d (<["templates" := JDict (delete key (templates_of m))]> o)
                  (delete key (templates_of m)) (lookup_insert_eq _ _ _)) as [Hs Hto].
      by rewrite Hto.
    + eexists _, false. split; [reflexivity|].
      destruct (shaped_prepared d o _ Ho) as [Hs Hto]. by rewrite Hto.
  - cbn [truthy]. eexists _, false. split; [reflexivity|].
    destruct (shaped_prepared d o _ Ho) as [Hs Hto]. by rewrite Hto.
Qed.

(** What the panel shows for a key, on a metadata of the plugin's shape. *)
Lemma shown_template_shaped (m : json) (key : string) :
  shaped m ->
  shown_template m key = Ok (default (JStr "") (templates_of m !! key)).
Proof.
  intros [Hf | (d & -> & Hd)]; unfold shown_template, metadata_templates.
  { rewrite Hf, (templates_of_falsy m Hf). cbn. by rewrite lookup_empty. }
  destruct (truthy (JDict d)) eqn:Htd.
  2:{ rewrite (templates_of_falsy _ Htd). cbn. by rewrite lookup_empty. }
  cbn [get rbind templates_of]. destruct (d !! METADATA_PARENT) as [ours|] eqn:Hp; cbn [rbind].
  2:{ cbn. by rewrite lookup_empty. }
  destruct (truthy ours) eqn:Hto.
  2:{ cbn [rbind get_or_empty]. rewrite lookup_empty.
      destruct ours as [| | | | |o]; try (by rewrite lookup_empty).
      by rewrite (falsy_dict o Hto), !lookup_empty. }
  destruct Hd as [? | (o & -> & Ho)]; [congruence|]. cbn [get rbind].
  destruct (o !! "templates") as [ts|] eqn:Hts; cbn [rbind].
  2:{ cbn. by rewrite lookup_empty. }
  destruct (truthy ts) eqn:Htts.
  2:{ cbn [rbind get_or_empty]. rewrite lookup_empty.
      destruct ts as [| | | | |t]; try (by rewrite lookup_empty).
      by rewrite (falsy_dict t Htts), lookup_empty. }
  destruct Ho as [? | (t & ->)]; [congruence|].
  cbn [subscript rbind]. rewrite Hp. cbn [rbind subscript]. rewrite Hts. cbn [rbind get_or_empty].
  by destruct (t !! key).
Qed.

Lemma direct_template_falsy (m : json) k : truthy m = false -> direct_template m k = None.
Proof.
  destruct m as [| | | | |d]; try done. intros H. by rewrite (falsy_dict d H).
Qed.

(** Setting up the metadata leaves the direct entries of the plugin's dict
    as they were. *)
Lemma prepare_metadata_direct (m mm : json) (o : gmap string json) :
  shaped m -> prepare_metadata m = Ok (mm, JDict o) ->
  forall k, k <> "templates" -> o !! k = direct_template m k.
Proof.
  intros Hm Hprep k Hk.
  assert (Hnew : forall d0 : gmap string json,
            d0 !! METADATA_PARENT = None \/
            (exists ours, d0 !! METADATA_PARENT = Some ours /\ truthy ours = false) ->
            (let* ours := get (JDict d0) METADATA_PARENT in
             let* metadata :=
               if truthy ours then Ok (JDict d0)
               else assign (JDict d0) METADATA_PARENT (JDict ∅) in
             let* ours := subscript metadata METADATA_PARENT in
             let* templates := get ours "templates" in
             let* ours :=
               if truthy templates then Ok ours else assign ours "templates" (JDict ∅) in
             let* metadata := assign metadata METADATA_PARENT ours in
             Ok (metadata, ours)) = Ok (mm, JDict o) ->
            o !! k = None).
  { intros d0 Hcase. cbn [get rbind].
    destruct Hcase as [H0 | (ours & H0 & Hours)]; rewrite H0; cbn [rbind truthy];
      try rewrite Hours; cbn [assign rbind subscript]; rewrite lookup_insert_eq;
      cbn [rbind get]; rewrite lookup_empty; cbn [rbind truthy assign];
      intros [= _ <-]; by rewrite lookup_insert_ne, lookup_empty. }
  destruct Hm as [Hf | (d & -> & Hd)].
  { rewrite (direct_template_falsy m k Hf). unfold prepare_metadata in Hprep.
    rewrite Hf in Hprep. apply (Hnew ∅); [left; apply lookup_empty | exact Hprep]. }
  unfold prepare_metadata in Hprep.
  destruct (truthy (JDict d)) eqn:Htd.
  2:{ rewrite (direct_template_falsy _ k Htd).
      apply (Hnew ∅); [left; apply lookup_empty | exact Hprep]. }
  cbn [direct_template].
  destruct (d !! METADATA_PARENT) as [ours|] eqn:Hp.
  2:{ apply (Hnew d); [by left | exact Hprep]. }
  destruct Hd as [Hours | (o0 & -> & Ho)].
  { transitivity (@None json); [apply (Hnew d); [right; eauto | exact Hprep]|].
    destruct ours as [| | | | |o0]; try done. by rewrite (falsy_dict o0 Hours), lookup_empty. }
  destruct (truthy (JDict o0)) eqn:Hto.
  2:{ transitivity (@None json); [apply (Hnew d); [right; eauto | exact Hprep]|].
      by rewrite (falsy_dict o0 Hto), lookup_empty. }
  cbn [get rbind] in Hprep. rewrite Hp in Hprep. cbn [rbind] in Hprep.
  rewrite Hto in Hprep. cbn [rbind subscript] in Hprep. rewrite Hp in Hprep.
  cbn [rbind get] in Hprep.
  destruct (o0 !! "templates") as [ts|] eqn:Hts; cbn [rbind] in Hprep.
  - destruct (truthy ts); cbn [rbind assign] in Hprep; injection Hprep as _ <-; [done|].
    by rewrite lookup_insert_ne.
  - cbn [truthy assign rbind] in Hprep. injection Hprep as _ <-. by rewrite lookup_insert_ne.
Qed.

Lemma no_template_direct (m : json) (key : string) :
  no_template m key ->
  match direct_template m key with Some v => truthy v = false | None => True end.
Proof.
  intros [Hf | (d & ours & -> & Hp & Hcase)]; [by rewrite direct_template_falsy|].
  cbn [direct_template]. rewrite Hp.
  destruct Hcase as [Hours | (o & -> & Ho)]; [|done].
  destruct ours as [| | | | |o]; try done. by rewrite (falsy_dict o Hours), lookup_empty.
Qed.

(** X18: saving a non-empty template for a key through the web API, on a row
    whose metadata has the plugin's shape, stores the row with a metadata in
    which the panel finds this template under the key; the templates shown for
    the other keys are unchanged. *)
Theorem saved_template_is_shown (db : database) (entity : string) (pk : Z)
    (row : instance) (key template : string) :
  (entity = "part" /\ parts db !! pk = Some row)
  \/ (entity = "category" /\ categories db !! pk = Some row) ->
  shaped (inst_metadata row) -> template <> "" ->
  exists origMeta m' db',
    _webapi_set_template db (Some template) key entity pk
    = Ok (ResponseOk origMeta template m' (inst_name row) (inst_pk row), db')
    /\ (if String.eqb entity "part" then parts db' else categories db') !! pk
       = Some {| inst_metadata := m'; inst_name := inst_name row; inst_pk := inst_pk row |}
    /\ shown_template m' key = Ok (JStr template)
    /\ forall k, k <> key -> shown_template m' k = shown_template (inst_metadata row) k.
Proof.
  intros Hrow Hm Ht.
  destruct (set_template_metadata_save _ key template Hm Ht) as (m' & Hset & Hm' & Hts).
  assert (Hshown : shown_template m' key = Ok (JStr template)
                   /\ forall k, k <> key ->
                        shown_template m' k = shown_template (inst_metadata row) k).
  { rewrite !shown_template_shaped by done. rewrite Hts, lookup_insert_eq. split; [done|].
    intros k Hk. rewrite !shown_template_shaped by done. rewrite Hts.
    by rewrite lookup_insert_ne. }
  unfold _webapi_set_template.
  destruct Hrow as [[-> Hrow] | [-> Hrow]]; cbn [String.eqb Ascii.eqb Bool.eqb];
    unfold objects_get; rewrite Hrow; cbn [rbind]; rewrite Hset; cbn [rbind fst snd];
    eexists _, m', _; (split; [reflexivity|]); cbn [parts categories];
    by rewrite lookup_insert_eq.
Qed.

Lemma saved_template_is_shown_witness :
  (("part" = "part" /\ parts Samples.db !! 7 = Some Samples.part_row)
   \/ ("part" = "category" /\ categories Samples.db !! 7 = Some Samples.part_row))
  /\ shaped (inst_metadata Samples.part_row) /\ "{{ part.IPN }}" <> ""
  /\ exists origMeta m' db',
      _webapi_set_template Samples.db (Some "{{ part.IPN }}") "description" "part" 7
      = Ok (ResponseOk origMeta "{{ part.IPN }}" m' (inst_name Samples.part_row)
              (inst_pk Samples.part_row), db')
      /\ (if String.eqb "part" "part" then parts db' else categories db') !! 7
         = Some {| inst_metadata := m';
                   inst_name := inst_name Samples.part_row;
                   inst_pk := inst_pk Samples.part_row |}
      /\ shown_template m' "description" = Ok (JStr "{{ part.IPN }}")
      /\ forall k, k <> "description" ->
           shown_template m' k = shown_template (inst_metadata Samples.part_row) k.
Proof.
  assert (H1 : ("part" = "part" /\ parts Samples.db !! 7 = Some Samples.part_row)
               \/ ("part" = "category" /\ categories Samples.db !! 7 = Some Samples.part_row))
    by (left; split; reflexivity).
  assert (H2 : shaped (inst_metadata Samples.part_row)) by (by left).
  assert (H3 : "{{ part.IPN }}" <> "") by discriminate.
  split; [exact H1|]. split; [exact H2|]. split; [exact H3|].
  exact (saved_template_is_shown Samples.db "part" 7 Samples.part_row "description"
           "{{ part.IPN }}" H1 H2 H3).
Defined.

(** X19: saving the empty template for a key deletes the key: afterwards
    the panel shows nothing that counts as true for it, and the templates
    shown for the other keys are unchanged.  The row is saved exactly when a
    template that counts as true was stored under the key. *)
Theorem empty_template_deletes_the_key (db : database) (entity : string) (pk : Z)
    (row : instance) (key : string) :
  (entity = "part" /\ parts db !! pk = Some row)
  \/ (entity = "category" /\ categories db !! pk = Some row) ->
  shaped (inst_metadata row) ->
  exists origMeta m' db' shown,
    _webapi_set_template db (Some "") key entity pk
    = Ok (ResponseOk origMeta "" m' (inst_name row) (inst_pk row), db')
    /\ shown_template m' key = Ok shown /\ truthy shown = false
    /\ (forall k, k <> key -> shown_template m' k = shown_template (inst_metadata row) k)
    /\ db' = (if match templates_of (inst_metadata row) !! key with
                 | Some v => truthy v
                 | None => false
                 end
              then if String.eqb entity "part"
                   then {| parts := <[pk := {| inst_metadata := m';
                                               inst_name := inst_name row;
                                               inst_pk := inst_pk row |}]> (parts db);
                           categories := categories db |}
                   else {| parts := parts db;
                           categories := <[pk := {| inst_metadata := m';
                                                    inst_name := inst_name row;
                                                    inst_pk := inst_pk row |}]> (categories db) |}
              else db).
Proof.
  intros Hrow Hm.
  destruct (set_template_metadata_delete _ key Hm) as (m' & saved & Hset & Hm' & Hsaved & Hts).
  assert (Hshown : exists shown,
             shown_template m' key = Ok shown /\ truthy shown = false
             /\ forall k, k <> key ->
                  shown_template m' k = shown_template (inst_metadata row) k).
  { rewrite shown_template_shaped by done. eexists. split; [reflexivity|]. rewrite Hts. split.
    - destruct saved; [by rewrite lookup_delete_eq|].
      destruct (templates_of (inst_metadata row) !! key) as [v|]; [by cbn|done].
    - intros k Hk. rewrite !shown_template_shaped by done. rewrite Hts.
      destruct saved; [by rewrite lookup_delete_ne|done]. }
  destruct Hshown as (shown & Hs1 & Hs2 & Hs3).
  unfold _webapi_set_template.
  destruct Hrow as [[-> Hrow] | [-> Hrow]]; cbn [String.eqb Ascii.eqb Bool.eqb];
    unfold objects_get; rewrite Hrow; cbn [rbind]; rewrite Hset; cbn [rbind fst snd];
    eexists _, m', _, shown; (split; [reflexivity|]);
    (split; [exact Hs1|]); (split; [exact Hs2|]); (split; [exact Hs3|]);
    by rewrite <- Hsaved.
Qed.

Lemma empty_template_deletes_the_key_witness :
  (("category" = "part" /\ parts Samples.db !! 3 = Some Samples.category_row)
   \/ ("category" = "category" /\ categories Samples.db !! 3 = Some Samples.category_row))
  /\ shaped (inst_metadata Samples.category_row)
  /\ exists origMeta m' db' shown,
      _webapi_set_template Samples.db (Some "") "description" "category" 3
      = Ok (ResponseOk origMeta "" m' (inst_name Samples.category_row)
              (inst_pk Samples.category_row), db')
      /\ shown_template m' "description" = Ok shown /\ truthy shown = false
      /\ (forall k, k <> "description" ->
            shown_template m' k = shown_template (inst_metadata Samples.category_row) k)
      /\ db' = (if match templates_of (inst_metadata Samples.category_row) !! "description" with
                   | Some v => truthy v
                   | None => false
                   end
                then if String.eqb "category" "part"
                     then {| parts := <[3 := {| inst_metadata := m';
                                                inst_name := inst_name Samples.category_row;
                                                inst_pk := inst_pk Samples.category_row |}]>
                                        (parts Samples.db);
                             categories := categories Samples.db |}
                     else {| parts := parts Samples.db;
                             categories :=
                               <[3 := {| inst_metadata := m';
                                         inst_name := inst_name Samples.category_row;
                                         inst_pk := inst_pk Samples.category_row |}]>
                                 (categories Samples.db) |}
                else Samples.db).
Proof.
  assert (H1 : ("category" = "part" /\ parts Samples.db !! 3 = Some Samples.category_row)
               \/ ("category" = "category"
                   /\ categories Samples.db !! 3 = Some Samples.category_row))
    by (right; split; reflexivity).
  assert (H2 : shaped (inst_metadata Samples.category_row)).
  { right. eexists. split; [reflexivity|]. rewrite lookup_singleton_eq. right.
    eexists. split; [reflexivity|]. rewrite lookup_singleton_eq. right. by eexists. }
  split; [exact H1|]. split; [exact H2|].
  exact (empty_template_deletes_the_key Samples.db "category" 3 Samples.category_row
           "description" H1 H2).
Defined.

(** X20: a template saved through the web API is not seen by
    [_find_template]: for a key other than "templates" and a metadata in
    which [_find_template] found nothing before, the panel shows the saved
    template, but [_find_template] on a part with the new metadata still gives
    what the part's category gives. *)
Theorem saved_template_is_not_found (m : json) (key template : string) :
  shaped m -> no_template m key -> key <> "templates" -> template <> "" ->
  exists m',
    set_template_metadata m key template = Ok (m', true)
    /\ shown_template m' key = Ok (JStr template)
    /\ forall (part : Part) (default_template : string),
         part_metadata part = m' ->
         _find_template part key default_template
         = _find_category_template (part_category part) key default_template.
Proof.
  intros Hm Hno Hk Ht.
  destruct (prepare_metadata_shaped m Hm) as (d & o & Hprep & Ho).
  pose proof (prepare_metadata_direct m _ o Hm Hprep key Hk) as Hdirect.
  apply no_template_direct in Hno. rewrite <- Hdirect in Hno.
  destruct (set_template_metadata_save m key template Hm Ht) as (m' & Hset & Hm' & Hts).
  exists m'. split; [done|]. split.
  { rewrite shown_template_shaped by done. by rewrite Hts, lookup_insert_eq. }
  intros part default_template Hpart. unfold _find_template. rewrite Hpart.
  assert (Hown : own_template m' key = Ok None).
  { unfold set_template_metadata in Hset. rewrite Hprep in Hset. cbn [rbind fst snd] in Hset.
    assert (Htrue : truthy (JStr template) = true).
    { cbn [truthy]. destruct (String.eqb_spec template ""); done. }
    rewrite Htrue in Hset. cbn [get rbind] in Hset. rewrite Ho in Hset.
    cbn [rbind assign] in Hset. injection Hset as <-.
    unfold own_template. rewrite truthy_dict_insert. cbn [subscript].
    rewrite lookup_insert_eq. cbn [rbind]. rewrite truthy_dict_insert. cbn [get].
    rewrite lookup_insert_ne by done.
    destruct (o !! key) as [v|]; cbn [rbind]; [by rewrite Hno | done]. }
  by rewrite Hown.
Qed.

Lemma saved_template_is_not_found_witness :
  shaped JNull /\ no_template JNull "description" /\ "description" <> "templates"
  /\ "{{ part.IPN }}" <> ""
  /\ exists m',
      set_template_metadata JNull "description" "{{ part.IPN }}" = Ok (m', true)
      /\ shown_template m' "description" = Ok (JStr "{{ part.IPN }}")
      /\ forall (part : Part) (default_template : string),
           part_metadata part = m' ->
           _find_template part "description" default_template
           = _find_category_template (part_category part) "description" default_template.
Proof.
  assert (H1 : shaped JNull) by (by left).
  assert (H2 : no_template JNull "description") by (by left).
  assert (H3 : "description" <> "templates") by discriminate.
  assert (H4 : "{{ part.IPN }}" <> "") by discriminate.
  split; [exact H1|]. split; [exact H2|]. split; [exact H3|]. split; [exact H4|].
  exact (saved_template_is_not_found JNull "description" "{{ part.IPN }}" H1 H2 H3 H4).
Defined.


(** ** The panel *)

(** Reading the templates of a metadata fails only with [AttributeError]. *)
Lemma metadata_templates_error (m : json) (e : pyerr) :
  metadata_templates m = Err e -> e = AttributeError.
Proof.
  unfold metadata_templates. destruct (truthy m); [|done].
  destruct m as [| | | | |d]; cbn [get rbind]; try (by intros [= <-]).
  destruct (d !! METADATA_PARENT) as [ours|] eqn:Hp; cbn [rbind truthy]; [|done].
  destruct (truthy ours); [|done].
  destruct ours as [| | | | |o]; cbn [get rbind]; try (by intros [= <-]).
  destruct (o !! "templates") as [ts|] eqn:Hts; cbn [rbind truthy]; [|done].
  destruct (truthy ts); [|done]. cbn [subscript]. rewrite Hp. cbn [rbind subscript].
  by rewrite Hts.
Qed.

(** X21: the panel context cannot be built for an instance that has no
    category above it (a top-level category, or a part without a category):
    [_get_panel_context] raises [AttributeError], whatever the settings and
    the metadata. *)
Theorem panel_needs_a_parent_category (get_setting : string -> string)
    (isinstance_PartDetail : panel_instance -> bool) (instance : panel_instance) :
  panel_parent instance = None ->
  _get_panel_context get_setting isinstance_PartDetail instance = Err AttributeError.
Proof.
  intros Hparent. unfold _get_panel_context, MAX_TEMPLATES. cbn [panel_loop].
  fold (panel_parent instance). fold (panel_metadata instance). rewrite Hparent.
  destruct (metadata_templates (panel_metadata instance)) as [ts | e] eqn:E; cbn [rbind].
  - done.
  - by apply metadata_templates_error in E as ->.
Qed.

Lemma panel_needs_a_parent_category_witness :
  panel_parent (OfCategory Samples.root) = None
  /\ _get_panel_context SETTINGS_default (fun _ => false) (OfCategory Samples.root)
     = Err AttributeError.
Proof.
  split; [reflexivity|].
  apply (panel_needs_a_parent_category SETTINGS_default (fun _ => false)
           (OfCategory Samples.root)).
  reflexivity.
Defined.

(** What the loop of [_get_panel_context] adds for the key numbers from
    [key_number] on. *)
Lemma panel_loop_entries get_setting isinstance_PartDetail instance key_number todo
    context entries :
  panel_loop get_setting isinstance_PartDetail instance key_number todo context
  = Ok entries ->
  exists new,
    entries = context ++ new
    /\ entry_key <$> new
       = filter (fun key => key <> "")
           ((fun n => get_setting ("T" +:+ PyStr.of_nat n +:+ "_KEY")) <$> seq key_number todo)
    /\ Forall (fun entry =>
                 entry_pk entry = panel_pk instance
                 /\ shown_template (panel_metadata instance) (entry_key entry)
                    = Ok (entry_template entry)
                 /\ exists n,
                      get_setting ("T" +:+ PyStr.of_nat n +:+ "_KEY") = entry_key entry
                      /\ _find_category_template (panel_parent instance) (entry_key entry)
                           (get_setting ("T" +:+ PyStr.of_nat n +:+ "_TEMPLATE"))
                         = Ok (entry_inherited_template entry)) new.
Proof.
  revert key_number context. induction todo as [|todo IH]; intros key_number context.
  { intros [= <-]. exists []. by rewrite app_nil_r. }
  cbn [panel_loop seq fmap list_fmap].
  fold (panel_parent instance). fold (panel_metadata instance). fold (panel_pk instance).
  set (key := get_setting ("T" +:+ PyStr.of_nat key_number +:+ "_KEY")).
  destruct (metadata_templates (panel_metadata instance)) as [ts | e] eqn:Ets; [|done].
  cbn [rbind].
  destruct (_find_category_template _ key _) as [inherited | e] eqn:Einh; [|done].
  cbn [rbind truthy]. rewrite filter_cons.
  destruct (String.eqb_spec key "") as [Hkey | Hkey]; cbn [negb].
  - rewrite decide_False by (intros H; by apply H). apply IH.
  - rewrite decide_True by done.
    destruct (get_or_empty ts key) as [template | e] eqn:Eget; [|done]. cbn [rbind].
    intros H. apply IH in H as (new & -> & Hkeys & Hall).
    eexists (_ :: new). split; [by rewrite <- app_assoc|].
    split; [cbn [fmap list_fmap entry_key]; by rewrite Hkeys|].
    constructor; [|done]. cbn [entry_pk entry_key entry_template entry_inherited_template].
    split; [done|]. split; [|by exists key_number].
    unfold shown_template. by rewrite Ets.
Qed.

(** X22: when [_get_panel_context] returns, its list has one entry for each
    of the five settings [T1_KEY] ... [T5_KEY] that is not empty, in this
    order; every entry carries the [pk] of the instance, the template that
    the instance's metadata holds for the key under ["templates"] (the empty
    string when there is none), and as inherited template what
    [_find_category_template] gives from the category above the instance with
    the default template of the key's number. *)
Theorem panel_lists_the_configured_keys (get_setting : string -> string)
    (isinstance_PartDetail : panel_instance -> bool) (instance : panel_instance)
    (entries : list panel_entry) :
  _get_panel_context get_setting isinstance_PartDetail instance = Ok entries ->
  entry_key <$> entries
  = filter (fun key => key <> "")
      ((fun n => get_setting ("T" +:+ PyStr.of_nat n +:+ "_KEY")) <$> seq 1 5)
  /\ Forall (fun entry =>
               entry_pk entry = panel_pk instance
               /\ shown_template (panel_metadata instance) (entry_key entry)
                  = Ok (entry_template entry)
               /\ exists n,
                    get_setting ("T" +:+ PyStr.of_nat n +:+ "_KEY") = entry_key entry
                    /\ _find_category_template (panel_parent instance) (entry_key entry)
                         (get_setting ("T" +:+ PyStr.of_nat n +:+ "_TEMPLATE"))
                       = Ok (entry_inherited_template entry)) entries.
Proof.
  unfold _get_panel_context, MAX_TEMPLATES. intros H.
  apply panel_loop_entries in H as (new & -> & Hkeys & Hall). rewrite app_nil_l.
  split; [exact Hkeys | exact Hall].
Qed.

Lemma panel_lists_the_configured_keys_witness :
  _get_panel_context SETTINGS_default (fun _ => false) (OfPart Samples.saved_part)
  = Ok [ {| entry_key := "description";
            entry_template := JStr "saved";
            entry_inherited_template := JStr "mid {{ part.name }}";
            entry_entity := "category";
            entry_pk := 9 |};
         {| entry_key := "category";
            entry_template := JStr "";
            entry_inherited_template :=
              JStr (SETTINGS_default "T2_TEMPLATE");
            entry_entity := "category";
            entry_pk := 9 |} ]
  /\ exists entries,
      _get_panel_context SETTINGS_default (fun _ => false) (OfPart Samples.saved_part)
      = Ok entries
      /\ entry_key <$> entries
         = filter (fun key => key <> "")
             ((fun n => SETTINGS_default ("T" +:+ PyStr.of_nat n +:+ "_KEY")) <$> seq 1 5)
      /\ Forall (fun entry =>
                   entry_pk entry = panel_pk (OfPart Samples.saved_part)
                   /\ shown_template (panel_metadata (OfPart Samples.saved_part))
                        (entry_key entry)
                      = Ok (entry_template entry)
                   /\ exists n,
                        SETTINGS_default ("T" +:+ PyStr.of_nat n +:+ "_KEY") = entry_key entry
                        /\ _find_category_template (panel_parent (OfPart Samples.saved_part))
                             (entry_key entry)
                             (SETTINGS_default ("T" +:+ PyStr.of_nat n +:+ "_TEMPLATE"))
                           = Ok (entry_inherited_template entry)) entries.
Proof.
  assert (H : _get_panel_context SETTINGS_default (fun _ => false)
                (OfPart Samples.saved_part)
              = Ok [ {| entry_key := "description";
                        entry_template := JStr "saved";
                        entry_inherited_template := JStr "mid {{ part.name }}";
                        entry_entity := "category";
                        entry_pk := 9 |};
                     {| entry_key := "category";
                        entry_template := JStr "";
                        entry_inherited_template :=
                          JStr (SETTINGS_default "T2_TEMPLATE");
                        entry_entity := "category";
                        entry_pk := 9 |} ])
    by (vm_compute; reflexivity).
  split; [exact H|]. eexists. split; [exact H|].
  exact (panel_lists_the_configured_keys SETTINGS_default (fun _ => false)
           (OfPart Samples.saved_part) _ H).
Defined.

End PluginProperties.

Section ReportProperties.
Import Plugin.

(** ** The context of a report *)

Lemma truthy_JStr (s : string) : truthy (JStr s) = true <-> s <> "".
Proof. cbn [truthy]. by destruct (String.eqb_spec s ""). Qed.

(** What the loop of [_add_context] leaves when it returns: the message of
    the first template that failed to render, or the renderings of all the
    keys of its range over what was there. *)
Lemma add_context_loop_result get_setting _apply_template str part instance
    key_number todo part_templates ctx :
  add_context_loop get_setting _apply_template str part instance key_number todo
    part_templates = Ok ctx ->
  (exists message n,
      ctx = {[ "error" := message ]}
      /\ (key_number <= n < key_number + todo)%nat
      /\ fails_to_render get_setting _apply_template part instance n)
  \/ ((forall n, (key_number <= n < key_number + todo)%nat ->
         get_setting ("T" +:+ PyStr.of_nat n +:+ "_KEY") <> "" ->
         is_Some (ctx !! get_setting ("T" +:+ PyStr.of_nat n +:+ "_KEY")))
      /\ (forall key, is_Some (part_templates !! key) -> is_Some (ctx !! key))
      /\ forall key text, ctx !! key = Some text ->
           part_templates !! key = Some text
           \/ exists n, (key_number <= n < key_number + todo)%nat
                        /\ renders get_setting _apply_template part instance n key text).
Proof.
  revert key_number part_templates.
  induction todo as [|todo IH]; intros key_number part_templates.
  { intros [= <-]. right. split; [intros n Hn; lia|]. split; [done|]. by left. }
  cbn [add_context_loop].
  set (key := get_setting ("T" +:+ PyStr.of_nat key_number +:+ "_KEY")).
  destruct (truthy (JStr key)) eqn:Hkey.
  - apply truthy_JStr in Hkey.
    destruct (_find_template part key _) as [found | e] eqn:Hfound; [|done]. cbn [rbind].
    destruct (_apply_template part (stock_of instance) found) as [text | error place] eqn:Hr.
    + intros H. apply IH in H as [(message & n & -> & Hn & Hfail) | (Hall & Hkeep & Hfrom)].
      { left. exists message, n. split; [done|]. split; [lia | done]. }
      right. split; [|split].
      * intros n Hn Hne. destruct (decide (n = key_number)) as [-> | Hneq].
        -- apply Hkeep. fold key. rewrite lookup_insert_eq. by eexists.
        -- apply Hall; [lia | done].
      * intros k [v Hv]. apply Hkeep. destruct (decide (k = key)) as [-> | Hneq].
        -- rewrite lookup_insert_eq. by eexists.
        -- rewrite lookup_insert_ne by done. by eexists.
      * intros k t Hk. apply Hfrom in Hk as [Hk | (n & Hn & Hren)].
        -- destruct (decide (k = key)) as [-> | Hneq].
           ++ rewrite lookup_insert_eq in Hk. injection Hk as <-. right.
              exists key_number. split; [lia|]. split; [done|]. split; [done|]. by exists found.
           ++ rewrite lookup_insert_ne in Hk by done. by left.
        -- right. exists n. split; [lia | done].
    + intros [= <-]. left. eexists _, key_number. split; [reflexivity|]. split; [lia|].
      split; [done|]. by exists found, error, place.
  - assert (Hempty : key = "").
    { destruct (String.eqb_spec key "") as [-> | Hne]; [done|].
      apply truthy_JStr in Hne. congruence. }
    intros H. apply IH in H as [(message & n & -> & Hn & Hfail) | (Hall & Hkeep & Hfrom)].
    { left. exists message, n. split; [done|]. split; [lia | done]. }
    right. split; [|split; [done|]].
    * intros n Hn Hne. destruct (decide (n = key_number)) as [-> | Hneq]; [by destruct Hne|].
      apply Hall; [lia | done].
    * intros k t Hk. apply Hfrom in Hk as [Hk | (n & Hn & Hren)]; [by left|].
      right. exists n. split; [lia | done].
Qed.

(** X28: when [_add_context] returns for a part or a stock item, the
    [context['part_templates']] that it leaves is either a dict with the one
    key ["error"], and then the template of one of the configured keys failed
    to render (the renderings of the keys before it are dropped), or it holds
    a rendering for every setting [T1_KEY] ... [T5_KEY] that is not empty,
    and nothing else: each of its entries is the rendering of the template
    that [_find_template] finds for a configured key. *)
Theorem report_context_is_complete_or_an_error (get_setting : string -> string)
    (_apply_template : Part -> option report_instance -> json -> rendering)
    (str : json -> string) (instance : report_instance) (part : Part)
    (ctx : gmap string string) :
  _cast_part instance = Some part ->
  _add_context get_setting _apply_template str instance = Ok ctx ->
  (exists message n,
      ctx = {[ "error" := message ]} /\ (1 <= n <= 5)%nat
      /\ fails_to_render get_setting _apply_template part instance n)
  \/ ((forall n, (1 <= n <= 5)%nat ->
         get_setting ("T" +:+ PyStr.of_nat n +:+ "_KEY") <> "" ->
         is_Some (ctx !! get_setting ("T" +:+ PyStr.of_nat n +:+ "_KEY")))
      /\ forall key text, ctx !! key = Some text ->
           exists n, (1 <= n <= 5)%nat
                     /\ renders get_setting _apply_template part instance n key text).
Proof.
  intros Hpart. unfold _add_context, MAX_TEMPLATES. rewrite Hpart. intros H.
  apply add_context_loop_result in H as [(message & n & -> & Hn & Hfail) | (Hall & _ & Hfrom)].
  - left. exists message, n. split; [done|]. split; [lia | done].
  - right. split.
    + intros n Hn. apply Hall. lia.
    + intros key text Hk. apply Hfrom in Hk as [Hk | (n & Hn & Hren)].
      * by rewrite lookup_empty in Hk.
      * exists n. split; [lia | done].
Qed.

Lemma report_context_is_complete_or_an_error_witness :
  _cast_part (AStockItem Samples.own_part) = Some Samples.own_part
  /\ _add_context SETTINGS_default sample_apply_template sample_str
       (AStockItem Samples.own_part)
     = Ok {[ "description" := "<mine>";
             "category" := "<" +:+ SETTINGS_default "T2_TEMPLATE" +:+ ">" ]}
  /\ exists ctx,
      _add_context SETTINGS_default sample_apply_template sample_str
        (AStockItem Samples.own_part) = Ok ctx
      /\ ((exists message n,
             ctx = {[ "error" := message ]} /\ (1 <= n <= 5)%nat
             /\ fails_to_render SETTINGS_default sample_apply_template Samples.own_part
                  (AStockItem Samples.own_part) n)
          \/ ((forall n, (1 <= n <= 5)%nat ->
                 SETTINGS_default ("T" +:+ PyStr.of_nat n +:+ "_KEY") <> "" ->
                 is_Some (ctx !! SETTINGS_default ("T" +:+ PyStr.of_nat n +:+ "_KEY")))
              /\ forall key text, ctx !! key = Some text ->
                   exists n, (1 <= n <= 5)%nat
                             /\ renders SETTINGS_default sample_apply_template
                                  Samples.own_part (AStockItem Samples.own_part) n key text)).
Proof.
  assert (H1 : _cast_part (AStockItem Samples.own_part) = Some Samples.own_part)
    by reflexivity.
  assert (H2 : _add_context SETTINGS_default sample_apply_template sample_str
                 (AStockItem Samples.own_part)
               = Ok {[ "description" := "<mine>";
                       "category" := "<" +:+ SETTINGS_default "T2_TEMPLATE" +:+ ">" ]})
    by (vm_compute; reflexivity).
  split; [exact H1|]. split; [exact H2|]. eexists. split; [exact H2|].
  exact (report_context_is_complete_or_an_error SETTINGS_default sample_apply_template
           sample_str (AStockItem Samples.own_part) Samples.own_part _ H1 H2).
Defined.

Lemma add_context_loop_no_category get_setting _apply_template str part instance
    key_number todo part_templates :
  part_category part = None ->
  (forall n, (key_number <= n < key_number + todo)%nat ->
     no_template (part_metadata part) (get_setting ("T" +:+ PyStr.of_nat n +:+ "_KEY"))) ->
  (exists n, (key_number <= n < key_number + todo)%nat
             /\ get_setting ("T" +:+ PyStr.of_nat n +:+ "_KEY") <> "") ->
  add_context_loop get_setting _apply_template str part instance key_number todo
    part_templates = Err AttributeError.
Proof.
  intros Hcat. revert key_number part_templates.
  induction todo as [|todo IH]; intros key_number part_templates Hno (n & Hn & Hne); [lia|].
  cbn [add_context_loop].
  destruct (truthy (JStr (get_setting ("T" +:+ PyStr.of_nat key_number +:+ "_KEY")))) eqn:Hkey.
  - unfold _find_template. rewrite (own_template_no _ _ (Hno key_number ltac:(lia))).
    cbn [rbind]. by rewrite Hcat.
  - apply IH.
    + intros n' Hn'. apply Hno. lia.
    + exists n. split; [|done]. destruct (decide (n = key_number)) as [-> | Hneq]; [|lia].
      apply truthy_JStr in Hne. congruence.
Qed.

(** X29: the context of a report cannot be built for a part (or the part
    of a stock item) that has no category and no template of its own:
    as soon as one of the settings [T1_KEY] ... [T5_KEY] is not empty,
    [_add_context] raises [AttributeError], because [_find_template] reads
    the metadata of the category that is not there. *)
Theorem report_needs_a_category (get_setting : string -> string)
    (_apply_template : Part -> option report_instance -> json -> rendering)
    (str : json -> string) (instance : report_instance) (part : Part) :
  _cast_part instance = Some part -> part_category part = None ->
  (forall n, (1 <= n <= 5)%nat ->
     no_template (part_metadata part) (get_setting ("T" +:+ PyStr.of_nat n +:+ "_KEY"))) ->
  (exists n, (1 <= n <= 5)%nat /\ get_setting ("T" +:+ PyStr.of_nat n +:+ "_KEY") <> "") ->
  _add_context get_setting _apply_template str instance = Err AttributeError.
Proof.
  intros Hpart Hcat Hno (n & Hn & Hne). unfold _add_context, MAX_TEMPLATES. rewrite Hpart.
  apply add_context_loop_no_category; [done| |].
  - intros n' Hn'. apply Hno. lia.
  - exists n. split; [lia | done].
Qed.

Lemma report_needs_a_category_witness :
  _cast_part (APart Samples.bare_part) = Some Samples.bare_part
  /\ part_category Samples.bare_part = None
  /\ (forall n, (1 <= n <= 5)%nat ->
        no_template (part_metadata Samples.bare_part)
          (SETTINGS_default ("T" +:+ PyStr.of_nat n +:+ "_KEY")))
  /\ (exists n, (1 <= n <= 5)%nat
                /\ SETTINGS_default ("T" +:+ PyStr.of_nat n +:+ "_KEY") <> "")
  /\ _add_context SETTINGS_default sample_apply_template sample_str (APart Samples.bare_part)
     = Err AttributeError.
Proof.
  assert (H3 : forall n, (1 <= n <= 5)%nat ->
                 no_template (part_metadata Samples.bare_part)
                   (SETTINGS_default ("T" +:+ PyStr.of_nat n +:+ "_KEY")))
    by (intros n _; by left).
  assert (H4 : exists n, (1 <= n <= 5)%nat
                         /\ SETTINGS_default ("T" +:+ PyStr.of_nat n +:+ "_KEY") <> "")
    by (exists 1%nat; split; [lia | vm_compute; discriminate]).
  split; [reflexivity|]. split; [reflexivity|]. split; [exact H3|]. split; [exact H4|].
  exact (report_needs_a_category SETTINGS_default sample_apply_template sample_str
           (APart Samples.bare_part) Samples.bare_part eq_refl eq_refl H3 H4).
Defined.

End ReportProperties.

(** * Properties of the template filters *)

Section TagsProperties.
Import Tags.

(** ** Escaped separators of [replace] *)

Lemma append_nil_r (s : string) : s +:+ "" = s.
Proof. induction s as [|c s IH]; [done|]. by rewrite append_cons, IH. Qed.

Lemma escape_pipes_head (s : string) : String.prefix "|" (escape_pipes s) = false.
Proof.
  destruct s as [|c s]; [done|]. cbn [escape_pipes].
  destruct (Ascii.eqb_spec c pipe) as [-> | Hc]; [done|].
  cbn [String.prefix]. destruct (ascii_dec "|" c) as [<- | _]; [by destruct Hc | done].
Qed.

Lemma prefix_backslash_pipe (c : ascii) (s : string) :
  String.prefix "\|" (String c s) = Ascii.eqb c backslash && String.prefix "|" s.
Proof.
  cbn [String.prefix]. destruct (ascii_dec "\" c) as [<- | Hc]; [done|].
  destruct (Ascii.eqb_spec c backslash) as [-> | _]; [by destruct Hc | done].
Qed.

Lemma prefix_pipe (c : ascii) (s : string) :
  String.prefix "|" (String c s) = Ascii.eqb c pipe.
Proof.
  cbn [String.prefix]. destruct (ascii_dec "|" c) as [<- | Hc]; [by destruct s|].
  destruct (Ascii.eqb_spec c pipe) as [-> | _]; [by destruct Hc | done].
Qed.

(** Taking the backslashes off again gives the text back. *)
Lemma unescape_escape_pipes (s : string) :
  str_replace (escape_pipes s) "\|" "|" = s.
Proof.
  cbn [str_replace]. induction s as [|c s IH]; [done|]. cbn [escape_pipes].
  destruct (Ascii.eqb_spec c pipe) as [-> | Hc].
  - cbn [replace_scan]. unfold PyStr.startswith.
    rewrite prefix_backslash_pipe, prefix_pipe.
    change (Ascii.eqb backslash backslash && Ascii.eqb pipe pipe) with true.
    change (String.length "\|" - 1)%nat with 1%nat. cbn [replace_scan].
    by rewrite IH, append_cons, append_nil.
  - cbn [replace_scan]. unfold PyStr.startswith. rewrite prefix_backslash_pipe.
    rewrite escape_pipes_head, andb_false_r. by rewrite IH.
Qed.

Lemma re_split_pipe_cons (b : bool) (s : string) :
  exists piece pieces, re_split_pipe b s = piece :: pieces.
Proof.
  revert b. induction s as [|c s IH]; intros b; cbn [re_split_pipe]; [by eexists _, _|].
  destruct (Ascii.eqb c pipe && negb b); [by eexists _, _|].
  destruct (IH (Ascii.eqb c backslash)) as (p & ps & ->). by eexists _, _.
Qed.

(** An escaped text holds no separator: the split goes on behind it. *)
Lemma re_split_pipe_escaped (b : bool) (s rest : string) :
  re_split_pipe b (escape_pipes s +:+ rest)
  = match re_split_pipe (ends_with_backslash b s) rest with
    | piece :: pieces => (escape_pipes s +:+ piece) :: pieces
    | [] => []
    end.
Proof.
  revert b. induction s as [|c s IH]; intros b.
  { cbn [escape_pipes ends_with_backslash]. rewrite append_nil.
    destruct (re_split_pipe_cons b rest) as (p & ps & ->). by rewrite append_nil. }
  cbn [escape_pipes ends_with_backslash].
  destruct (Ascii.eqb_spec c pipe) as [-> | Hc].
  - rewrite !append_cons. cbn [re_split_pipe].
    change (Ascii.eqb backslash pipe) with false.
    change (Ascii.eqb backslash backslash) with true.
    change (Ascii.eqb pipe pipe) with true.
    change (Ascii.eqb pipe backslash) with false.
    cbn [andb negb]. rewrite IH.
    destruct (re_split_pipe_cons (ends_with_backslash false s) rest) as (p & ps & ->).
    by rewrite !append_cons.
  - rewrite append_cons. cbn [re_split_pipe].
    destruct (Ascii.eqb_spec c pipe) as [? | _]; [done|]. cbn [andb]. rewrite IH.
    destruct (re_split_pipe_cons (ends_with_backslash (Ascii.eqb c backslash) s) rest)
      as (p & ps & ->).
    by rewrite append_cons.
Qed.

Lemma re_split_pipe_escaped_only (b : bool) (s : string) :
  re_split_pipe b (escape_pipes s) = [escape_pipes s].
Proof.
  pose proof (re_split_pipe_escaped b s "") as H.
  cbn [re_split_pipe] in H. by rewrite append_nil_r in H.
Qed.

(** X24: the escape that the docstring of [replace] describes works for
    every pair of texts: with a backslash put before each ["|"] of the text
    to find and of the text to put, and one ["|"] between the two, [replace]
    finds the first and puts the second (by [str.replace], or by [re.sub] on
    what follows ["regex:"], whose [re.error] it lets through), provided that
    the text to find does not end with a backslash. *)
Theorem replace_takes_escaped_pipes
    (re_sub : string -> string -> string -> string + string)
    (value old new : string) :
  ends_with_backslash false old = false ->
  replace re_sub value (escape_pipes old +:+ "|" +:+ escape_pipes new)
  = if PyStr.startswith old "regex:"
    then match re_sub (drop_chars 6 old) new value with
         | inl text => Returns text
         | inr error => Raises (re_error error)
         end
    else Returns (str_replace value old new).
Proof.
  intros Hold. unfold replace. rewrite re_split_pipe_escaped, Hold, append_cons.
  cbn [re_split_pipe]. change (Ascii.eqb "|" pipe) with true. cbn [andb negb].
  rewrite append_nil, re_split_pipe_escaped_only, append_nil_r.
  cbn [fmap list_fmap]. by rewrite !unescape_escape_pipes.
Qed.

Lemma replace_takes_escaped_pipes_witness :
  ends_with_backslash false "|" = false
  /\ replace plain_re_sub "A|B|C" "\||\|, " = Returns "A|, B|, C".
Proof.
  split; [reflexivity|].
  exact (replace_takes_escaped_pipes plain_re_sub "A|B|C" "|" "|, " eq_refl).
Defined.

Lemma length_re_split_pipe (b : bool) (s : string) :
  length (re_split_pipe b s) = S (unescaped_pipes b s).
Proof.
  revert b. induction s as [|c s IH]; intros b; cbn [re_split_pipe unescaped_pipes]; [done|].
  destruct (Ascii.eqb c pipe && negb b); cbn [length]; [by rewrite IH|].
  specialize (IH (Ascii.eqb c backslash)).
  by destruct (re_split_pipe (Ascii.eqb c backslash) s).
Qed.

(** X25: [replace] answers with its message, in which the argument is
    HTML-escaped, and never raises, unless the argument holds exactly one
    ["|"] that no backslash precedes: so also when two separators are given,
    or none. *)
Theorem replace_needs_one_separator
    (re_sub : string -> string -> string -> string + string) (value arg : string) :
  unescaped_pipes false arg <> 1%nat ->
  replace re_sub value arg
  = Returns ("[replace:" +:+ PyStr.dquote +:+ html_escape arg +:+ PyStr.dquote
             +:+ " must have two parameters separated by " +:+ PyStr.dquote +:+ "|"
             +:+ PyStr.dquote +:+ "]").
Proof.
  intros Hn. unfold replace.
  pose proof (length_re_split_pipe false arg) as Hlen.
  destruct (re_split_pipe false arg) as [|p1 [|p2 [|p3 ps]]]; cbn [fmap list_fmap]; try done.
  cbn [length] in Hlen. by injection Hlen as Hlen.
Qed.

Lemma replace_needs_one_separator_witness :
  unescaped_pipes false "a|<b>|c" <> 1%nat
  /\ replace plain_re_sub "abc" "a|<b>|c"
     = Returns ("[replace:" +:+ PyStr.dquote +:+ "a|&lt;b&gt;|c" +:+ PyStr.dquote
                +:+ " must have two parameters separated by " +:+ PyStr.dquote +:+ "|"
                +:+ PyStr.dquote +:+ "]").
Proof.
  assert (H : unescaped_pipes false "a|<b>|c" <> 1%nat) by (vm_compute; discriminate).
  split; [exact H|].
  exact (replace_needs_one_separator plain_re_sub "abc" "a|<b>|c" H).
Defined.

(** ** The rules of [scrub] *)

Lemma prefix_bracket (s : string) : PyStr.startswith ("[" +:+ s) "[" = true.
Proof. apply prefix_app. Qed.

(** A loop of [scrub] over rules that are dicts does what the rules make of
    the value; a message that it returns is in brackets. *)
Lemma scrub_rules_substitute_all re_sub str_other where_ regex_where rules v :
  match substitute_all re_sub rules v with
  | Scrubbed v' =>
      scrub_rules re_sub str_other where_ regex_where (YDict <$> rules) v = Through v'
  | Complains =>
      exists message,
        scrub_rules re_sub str_other where_ regex_where (YDict <$> rules) v
        = Returned message
        /\ PyStr.startswith message "[" = true
  | Fails e =>
      scrub_rules re_sub str_other where_ regex_where (YDict <$> rules) v = Raised e
  end.
Proof.
  revert v. induction rules as [|rule rules IH]; intros v; [done|].
  cbn [substitute_all fmap list_fmap scrub_rules get].
  destruct (lookup_str "pattern" rule) as [|p|p|p|p];
    try (eexists; split; [reflexivity | apply prefix_bracket]);
    (destruct (lookup_str "replacement" rule) as [|r|r|r|r];
     try (eexists; split; [reflexivity | apply prefix_bracket]);
     (destruct (re_sub _ _ v) as [new_text | [new_error| | |]];
      [apply IH | eexists; split; [reflexivity | apply prefix_bracket] | done..])).
Qed.

Lemma substitute_all_app re_sub rules1 rules2 v :
  substitute_all re_sub (rules1 ++ rules2) v
  = match substitute_all re_sub rules1 v with
    | Scrubbed v' => substitute_all re_sub rules2 v'
    | Complains => Complains
    | Fails e => Fails e
    end.
Proof.
  revert v. induction rules1 as [|rule rules1 IH]; intros v; [done|].
  cbn [app substitute_all].
  destruct (lookup_str "pattern" rule); try done;
    (destruct (lookup_str "replacement" rule); try done;
     (destruct (re_sub _ _ v) as [new_text | [new_error| | |]]; [apply IH | done..])).
Qed.

(** X26: with a configuration whose ["filters"] is a dict, [scrub] returns
    the value unchanged when the filters hold nothing under the name, also
    when they hold [_GLOBAL] rules.  When they hold a list of dicts under the
    name, and under [_GLOBAL] nothing or a list of dicts, [scrub] applies the
    rules of the name and then those of [_GLOBAL], each to the text that the
    rule before gave: it returns the last text; or a message in brackets when
    a rule lacks its pattern or its replacement or [re.sub] raises
    [re.error]; or it raises what [re.sub] raises otherwise, as for a
    replacement that is a number. *)
Theorem scrub_applies_named_then_global_rules
    (re_sub : yaml -> yaml -> yaml -> result string) (str_other : yaml -> string)
    (config filters : list (yaml * yaml)) (scrub_string : yaml) (name : string) :
  name <> "" -> lookup_str "filters" config = YDict filters ->
  (lookup_str name filters = YNull ->
   scrub re_sub (Loaded config) str_other scrub_string name = Returns scrub_string)
  /\ forall rules globals : list (list (yaml * yaml)),
       lookup_str name filters = YList (YDict <$> rules) ->
       (lookup_str "_GLOBAL" filters = YNull /\ globals = [])
       \/ lookup_str "_GLOBAL" filters = YList (YDict <$> globals) ->
       match substitute_all re_sub (rules ++ globals) scrub_string with
       | Scrubbed v =>
           scrub re_sub (Loaded config) str_other scrub_string name = Returns v
       | Complains =>
           exists message,
             scrub re_sub (Loaded config) str_other scrub_string name
             = Returns (YStr message)
             /\ PyStr.startswith message "[" = true
       | Fails e =>
           scrub re_sub (Loaded config) str_other scrub_string name = Raises e
       end.
Proof.
  intros Hname Hfilters. unfold scrub.
  destruct (String.eqb_spec name "") as [? | _]; [done|]. rewrite Hfilters. cbn [get].
  split; [by intros ->|].
  intros rules globals -> Hglobal. cbn [iterate]. rewrite substitute_all_app.
  pose proof (scrub_rules_substitute_all re_sub str_other
                (PyStr.dquote +:+ name +:+ PyStr.dquote)
                (PyStr.dquote +:+ name +:+ PyStr.dquote) rules scrub_string) as Hnamed.
  destruct (substitute_all re_sub rules scrub_string) as [v1 | | e].
  2:{ destruct Hnamed as (message & -> & Hm). by exists message. }
  2:{ by rewrite Hnamed. }
  rewrite Hnamed.
  destruct Hglobal as [[-> ->] | ->]; [done|]. cbn [iterate].
  pose proof (scrub_rules_substitute_all re_sub str_other
                (PyStr.dquote +:+ "_GLOBAL" +:+ PyStr.dquote)
                (PyStr.dquote +:+ "_GLOBAL") globals v1) as Hglob.
  destruct (substitute_all re_sub globals v1) as [v2 | | e].
  - by rewrite Hglob.
  - destruct Hglob as (message & -> & Hm). by exists message.
  - by rewrite Hglob.
Qed.

Lemma scrub_applies_named_then_global_rules_witness :
  "Package" <> "" /\ lookup_str "filters" sample_config = YDict sample_filters
  /\ lookup_str "Package" sample_filters
     = YList (YDict <$> [ [ (YStr "pattern", YStr "SMD "); (YStr "replacement", YStr "") ] ])
  /\ lookup_str "_GLOBAL" sample_filters
     = YList (YDict <$> [ [ (YStr "pattern", YStr "  "); (YStr "replacement", YStr " ") ] ])
  /\ scrub plain_re_sub_values (Loaded sample_config) sample_str_other
       (YStr "SMD 0805  thick") "Package"
     = Returns (YStr "0805 thick").
Proof.
  assert (H1 : "Package" <> "") by discriminate.
  assert (H2 : lookup_str "filters" sample_config = YDict sample_filters) by reflexivity.
  assert (H3 : lookup_str "Package" sample_filters
               = YList (YDict <$> [ [ (YStr "pattern", YStr "SMD ");
                                      (YStr "replacement", YStr "") ] ])) by reflexivity.
  assert (H4 : lookup_str "_GLOBAL" sample_filters
               = YList (YDict <$> [ [ (YStr "pattern", YStr "  ");
                                      (YStr "replacement", YStr " ") ] ])) by reflexivity.
  split; [exact H1|]. split; [exact H2|]. split; [exact H3|]. split; [exact H4|].
  exact (proj2 (scrub_applies_named_then_global_rules plain_re_sub_values sample_str_other
                  sample_config sample_filters (YStr "SMD 0805  thick") "Package" H1 H2)
           _ _ H3 (or_intror H4)).
Defined.

(** On the sample, a rule whose replacement is the number 5 makes [scrub]
    raise the [TypeError] of [re.sub]. *)
Example scrub_with_a_number_as_replacement :
  scrub plain_re_sub_values (Loaded sample_config) sample_str_other (YStr "12V") "Rating"
  = Raises TypeError.
Proof. reflexivity. Qed.

End TagsProperties.
